(** * Bot Arena paper-trading engine: a shallow embedding of
      [api/scanner.py] and [api/bots.py]

    Conventions of the embedding.
    - Python floats are read as exact rationals ([Q]); comparisons and
      arithmetic are the exact ones, [round(x, n)] is round-half-even on the
      exact value.  Equations between computed amounts are stated with [==].
    - Two computations meet their bound on prices the venues do send, and
      there the floats decide otherwise than the exact values: the distance
      [abs(a - b)] of two one-decimal prices compared with a whole number
      ([40.2 - 25.2] is above 15), and the two Kelly fractions when the
      estimate equals the price (both exactly 0, residues in floats).  At
      such a tie the outcome is a parameter of the embedding: [gap_error]
      for the distance ([Py.compare_gap]), [tie_side] for [kelly_size].
      Away from the tie the exact comparison is used.  The reference
      probabilities and the thresholds of [BOTS] are whole numbers, so a
      price meets them only when the floats are exact.
    - A JSON object is a finite map from keys to JSON values ([gmap string
      jval]); [d.get(k)] is the map lookup, Python's [None] for a missing key
      is the [None] of [option].  The records the engine builds itself
      (markets, proposals, positions, states) are Rocq records with the keys
      of the dictionaries as fields.
    - [str] values are Rocq strings over 8-bit characters; the character
      classes of [str.lower], [str.strip] and the regular expressions are
      written out for code points below 256.
    - The function bodies follow the source statement by statement; loops
      over lists are structural recursions that thread the mutated state.
    - The network, the cache and the store are outside: the functions start
      where the venue's answer, the markets, the stored state and the stored
      trades have been read.  The six strategy functions enter the engine
      through the strategy table, as the tests patch it.
    - The records of [Bots] hold a string under every key the program reads
      as text and a number under every key it computes with.  Module [Raw]
      runs the engine on what can reach it otherwise: a snapshot whose title
      is [None] (a venue record with a null title) and a stored state without
      the key ["bankroll"]; there a statement outside the [try] of the
      strategy call can raise.  A ticker that is not a string, on which
      [.lower()] raises inside both Kalshi fetchers, is outside the
      embedding.
    - The bodies of the strategy functions are embedded on their own.  What
      they take from outside is a parameter: [format] of a number in the
      rationale texts, and the days from the clock to a market's end date.
      The signs of those texts that are not ASCII are written as their UTF-8
      bytes.  A Polymarket snapshot keeps its [active] and [closed] flags
      beside the keys every market has. *)

From Stdlib Require Import QArith Qround Qabs Qminmax Lqa.
From Stdlib Require Import ZArith Lia Bool List Ascii String.
From stdpp Require Import gmap strings.
Import ListNotations.

Local Open Scope Q_scope.
Local Open Scope string_scope.

(** ** Python built-ins used by both source files *)

Module Py.

(** JSON values as [json.loads] produces them. *)
Inductive jval : Type :=
  | JNull
  | JBool (b : bool)
  | JNum (q : Q)
  | JStr (s : string)
  | JOther.

(** Result of a call that may raise: [Raise] stands for any [Exception]. *)
Inductive exc (A : Type) : Type :=
  | Ok (a : A)
  | Raise.
Arguments Ok {A} a.
Arguments Raise {A}.

Definition try_except {A : Type} (body : exc A) (handler : A) : A :=
  match body with
  | Ok a => a
  | Raise => handler
  end.

(** [round(x)] to the nearest integer, ties to even. *)
Definition round_half_even (t : Q) : Z :=
  let f := Qfloor t in
  match Qcompare (t - inject_Z f) (1 # 2) with
  | Lt => f
  | Gt => (f + 1)%Z
  | Eq => if Z.even f then f else (f + 1)%Z
  end.

(** [round(x, ndigits)]. *)
Definition py_round (x : Q) (ndigits : nat) : Q :=
  let scale := inject_Z (10 ^ Z.of_nat ndigits) in
  inject_Z (round_half_even (x * scale)) / scale.

(** Truth value of a float: [0.0] is falsy. *)
Definition truthy (q : Q) : bool := negb (Qeq_bool q 0).

Definition Qltb (a b : Q) : bool := negb (Qle_bool b a).

(** [abs(a - b)] compared with [bound].  The difference of two prices is a
    float: the exact difference up to a rounding error ([40.2 - 25.2] is
    15.000000000000004 and [35.3 - 30.3] is 4.999999999999996).  The error
    shows only where the exact difference is equal to the bound; there
    [gap_error a b] says on which side of the exact value Python's
    [abs(a - b)] lies. *)
Definition compare_gap (gap_error : Q -> Q -> comparison) (a b bound : Q)
  : comparison :=
  match Qcompare (Qabs (a - b)) bound with
  | Eq => gap_error a b
  | c => c
  end.

(** [abs(a - b) < bound] *)
Definition gap_lt (gap_error : Q -> Q -> comparison) (a b bound : Q) : bool :=
  match compare_gap gap_error a b bound with
  | Lt => true
  | _ => false
  end.

Section Float.
(** [float(s)] on a string: the decimal parser of the runtime. *)
Variable float_of_string : string -> option Q.

(** [float(val)]: [TypeError] / [ValueError] are [Raise]. *)
Definition float (val : option jval) : exc Q :=
  match val with
  | None | Some JNull | Some JOther => Raise
  | Some (JBool b) => Ok (if b then 1 else 0)
  | Some (JNum q) => Ok q
  | Some (JStr s) =>
      match float_of_string s with
      | Some q => Ok q
      | None => Raise
      end
  end.

(** [safe_float(val, default)] with a float default. *)
Definition safe_float (val : option jval) (default : Q) : Q :=
  try_except (float val) default.

(** [safe_float(val, None)]. *)
Definition safe_float_opt (val : option jval) : option Q :=
  match float val with
  | Ok q => Some q
  | Raise => None
  end.
End Float.

(** [d.get(k, "")] read at type [str]. *)
Definition get_str (d : gmap string jval) (k : string) (default : string) : string :=
  match d !! k with
  | Some (JStr s) => s
  | _ => default
  end.

(** *** Strings, as lists of characters *)

Definition is_space (c : ascii) : bool :=
  let n := nat_of_ascii c in
  ((9 <=? n) && (n <=? 13) || (28 <=? n) && (n <=? 32)
   || (n =? 133) || (n =? 160))%nat.

Definition is_upper (c : ascii) : bool :=
  let n := nat_of_ascii c in
  ((65 <=? n) && (n <=? 90)
   || (192 <=? n) && (n <=? 222) && negb (n =? 215))%nat.

Definition lower_char (c : ascii) : ascii :=
  if is_upper c then ascii_of_nat (nat_of_ascii c + 32) else c.

(** [t.lower()] *)
Definition lower (t : list ascii) : list ascii := map lower_char t.

Fixpoint lstrip (t : list ascii) : list ascii :=
  match t with
  | [] => []
  | c :: t' => if is_space c then lstrip t' else t
  end.

Fixpoint rstrip (t : list ascii) : list ascii :=
  match t with
  | [] => []
  | c :: t' =>
      match rstrip t' with
      | [] => if is_space c then [] else [c]
      | r => c :: r
      end
  end.

(** [t.strip()] *)
Definition strip (t : list ascii) : list ascii := rstrip (lstrip t).

(** The class [[a-z0-9\s]]. *)
Definition is_lower_alnum (c : ascii) : bool :=
  let n := nat_of_ascii c in
  ((97 <=? n) && (n <=? 122) || (48 <=? n) && (n <=? 57))%nat.

Definition is_title_char (c : ascii) : bool := is_lower_alnum c || is_space c.

(** [re.sub(r'[^a-z0-9\s]', '', t)] *)
Definition sub_non_title_chars (t : list ascii) : list ascii :=
  List.filter is_title_char t.

(** [re.sub(r'\s+', ' ', t)]: [in_run] tells that the previous character
    was white space, already replaced. *)
Fixpoint sub_spaces_from (in_run : bool) (t : list ascii) : list ascii :=
  match t with
  | [] => []
  | c :: t' =>
      if is_space c
      then if in_run then sub_spaces_from true t'
           else " "%char :: sub_spaces_from true t'
      else c :: sub_spaces_from false t'
  end.

Definition sub_spaces (t : list ascii) : list ascii := sub_spaces_from false t.

Fixpoint starts_with (p t : list ascii) : bool :=
  match p, t with
  | [], _ => true
  | _ :: _, [] => false
  | a :: p', b :: t' => Ascii.eqb a b && starts_with p' t'
  end.

(** [t.replace(old, "")]: the occurrences of [old] are removed from left to
    right, without overlap; [skip] counts the characters of the occurrence
    being removed that are still ahead. *)
Fixpoint remove_from (old : list ascii) (skip : nat) (t : list ascii) : list ascii :=
  match t with
  | [] => []
  | c :: t' =>
      match skip with
      | S k => remove_from old k t'
      | O =>
          if starts_with old t
          then remove_from old (Nat.pred (List.length old)) t'
          else c :: remove_from old 0 t'
      end
  end.

Definition replace_with_empty (old t : list ascii) : list ascii :=
  match old with
  | [] => t
  | _ :: _ => remove_from old 0 t
  end.

Definition str_lower (t : string) : string :=
  string_of_list_ascii (lower (list_ascii_of_string t)).

Definition str_strip (t : string) : string :=
  string_of_list_ascii (strip (list_ascii_of_string t)).

End Py.

(** ** Title normalisation, the same text in [scanner.py] and [bots.py] *)

Definition noise_words : list string :=
  ["will "; "what "; "who "; "which "; "when "; "how "; "the ";
   "by end of "; "before "; "in 2026"; "in 2025"; "in 2027"].

Definition remove_noise (t : list ascii) : list ascii :=
  fold_left (fun t noise => Py.replace_with_empty (list_ascii_of_string noise) t)
            noise_words t.

Definition normalize_chars (t : list ascii) : list ascii :=
  let t := Py.strip (Py.lower t) in
  let t := Py.sub_non_title_chars t in
  let t := Py.sub_spaces t in
  let t := remove_noise t in
  Py.strip t.

(** ** [api/scanner.py] *)

Module Scanner.

Definition normalize_title (t : string) : string :=
  string_of_list_ascii (normalize_chars (list_ascii_of_string t)).

Record kalshi_market : Type := {
  platform : string;
  event_title : string;
  market_title : string;
  ticker : string;
  event_ticker : string;
  yes_price : Q;
  volume : Q;
  open_interest : Q;
  category : string;
  end_date : string;
  subtitle : string;
  url : string
}.

Section Kalshi.
Variable float_of_string : string -> option Q.

Definition _normalize_to_cents (val : option Py.jval) : option Q :=
  match val with
  | None | Some Py.JNull => None
  | _ =>
      match Py.safe_float_opt float_of_string val with
      | None => None
      | Some v =>
          Some (if Py.Qltb 0 v && Qle_bool v 1 then v * 100 else v)
      end
  end.

Definition positive (o : option Q) : bool :=
  match o with
  | Some v => Py.Qltb 0 v
  | None => false
  end.

Definition in_cents_range (v : Q) : bool := Py.Qltb 0 v && Qle_bool v 100.

(** The loop over [("yes_price_dollar", "last_price_dollar")]. *)
Fixpoint dollar_fields (market : gmap string Py.jval) (fields : list string)
  : option Q :=
  match fields with
  | [] => None
  | field :: rest =>
      match Py.safe_float_opt float_of_string (market !! field) with
      | Some raw =>
          if Py.Qltb 0 raw && in_cents_range (raw * 100)
          then Some (raw * 100)
          else dollar_fields market rest
      | None => dollar_fields market rest
      end
  end.

Definition last_price_onwards (market : gmap string Py.jval) : option Q :=
  match _normalize_to_cents (market !! "last_price") with
  | Some last =>
      if in_cents_range last then Some last
      else dollar_fields market ["yes_price_dollar"; "last_price_dollar"]
  | None => dollar_fields market ["yes_price_dollar"; "last_price_dollar"]
  end.

(** Steps 2-4 of the fallback chain: [Some v] is [return v], [None] is
    falling through to step 5. *)
Definition from_book (yes_bid yes_ask : option Q) : option Q :=
  let bid_ok := positive yes_bid in
  let ask_ok := positive yes_ask in
  if bid_ok && ask_ok then
    match yes_bid, yes_ask with
    | Some b, Some a =>
        let mid := (b + a) / 2 in
        if in_cents_range mid then Some mid else None
    | _, _ => None
    end
  else if ask_ok then
    match yes_ask with
    | Some a => if in_cents_range a then Some a else None
    | None => None
    end
  else if bid_ok then
    match yes_bid with
    | Some b => if in_cents_range b then Some b else None
    | None => None
    end
  else None.

Definition extract_kalshi_yes_pct (market : gmap string Py.jval) : option Q :=
  let yes_price := _normalize_to_cents (market !! "yes_price") in
  if positive yes_price then
    match yes_price with
    | Some v => if Py.Qltb 100 v then None else Some v
    | None => None
    end
  else
    match from_book (_normalize_to_cents (market !! "yes_bid"))
                    (_normalize_to_cents (market !! "yes_ask")) with
    | Some r => Some r
    | None => last_price_onwards market
    end.

(** The body of the loop of [fetch_kalshi_markets] over one page of the
    venue's answer. *)
Fixpoint kalshi_page (ms : list (gmap string Py.jval)) : list kalshi_market :=
  match ms with
  | [] => []
  | m :: rest =>
      match extract_kalshi_yes_pct m with
      | None => kalshi_page rest
      | Some yes_pct =>
          if Qle_bool yes_pct 0 then kalshi_page rest
          else
            {| platform := "Kalshi";
               event_title := Py.get_str m "event_ticker" "";
               market_title := Py.get_str m "title" "";
               ticker := Py.get_str m "ticker" "";
               event_ticker := Py.get_str m "event_ticker" "";
               yes_price := Py.py_round yes_pct 1;
               volume := Py.safe_float float_of_string
                           (Some (default (Py.JNum 0) (m !! "volume"))) 0;
               open_interest := Py.safe_float float_of_string
                           (Some (default (Py.JNum 0) (m !! "open_interest"))) 0;
               category := Py.get_str m "category" "Other";
               end_date := Py.get_str m "close_time"
                             (Py.get_str m "expiration_time" "");
               subtitle := Py.get_str m "subtitle" "";
               url := "https://kalshi.com/markets/" ++
                      Py.str_lower (Py.get_str m "ticker" "")
            |} :: kalshi_page rest
      end
  end.
End Kalshi.

End Scanner.

(** ** [api/bots.py] *)

Module Bots.

Definition INITIAL_BANKROLL : Q := 10000.

Definition normalize_title (t : string) : string :=
  string_of_list_ascii (normalize_chars (list_ascii_of_string t)).

(** A market snapshot, as the fetchers build it. *)
Module Market.
Record t : Type := {
  platform : string;
  title : string;
  event_title : string;
  ticker : string;
  yes_pct : Q;
  volume : Q;
  volume_24hr : Q;
  liquidity : Q;
  end_date : string;
  category : string;
  url : string
}.
End Market.

Section Kalshi.
Variable float_of_string : string -> option Q.

(** Lines 269-275 of [fetch_kalshi_markets]: the price of one record. *)
Definition kalshi_yes_pct (m : gmap string Py.jval) : Q :=
  match Py.safe_float_opt float_of_string (m !! "yes_price") with
  | Some yes_price => yes_price
  | None =>
      let yes_bid := Py.safe_float float_of_string (m !! "yes_bid") 0 in
      let yes_ask := Py.safe_float float_of_string (m !! "yes_ask") 0 in
      if Py.truthy yes_bid && Py.truthy yes_ask
      then (yes_bid + yes_ask) / 2
      else 0
  end.

(** The body of the loop of [fetch_kalshi_markets] over one page. *)
Fixpoint kalshi_page (ms : list (gmap string Py.jval)) : list Market.t :=
  match ms with
  | [] => []
  | m :: rest =>
      let yes_pct := kalshi_yes_pct m in
      if Qle_bool yes_pct 0 then kalshi_page rest
      else
        {| Market.platform := "Kalshi";
           Market.title := Py.get_str m "title" "";
           Market.event_title := Py.get_str m "event_ticker" "";
           Market.ticker := Py.get_str m "ticker" "";
           Market.yes_pct := Py.py_round yes_pct 1;
           Market.volume := Py.safe_float float_of_string
                              (Some (default (Py.JNum 0) (m !! "volume"))) 0;
           Market.volume_24hr := 0;
           Market.liquidity := Py.safe_float float_of_string
                              (Some (default (Py.JNum 0) (m !! "open_interest"))) 0;
           Market.end_date := Py.get_str m "close_time"
                                (Py.get_str m "expiration_time" "");
           Market.category := Py.get_str m "category" "Other";
           Market.url := "https://kalshi.com/markets/" ++
                         Py.str_lower (Py.get_str m "ticker" "")
        |} :: kalshi_page rest
  end.
End Kalshi.

(** *** Trading constants *)

Definition MIN_TRADEABLE_PRICE : Q := 5.
Definition MAX_TRADEABLE_PRICE : Q := 95.
Definition MAX_BET_PER_TRADE : Q := 800.
Definition SLIPPAGE_PCT : Q := 2.
Definition FEES_PCT : Q := 1.

Inductive direction : Type := BUY_YES | BUY_NO | ARB.

(** *** Kelly criterion *)

(** The statements of [kelly_size] after the two fractions are known. *)
Definition kelly_choose (f_yes f_no bankroll kelly_fraction : Q)
  : Q * option direction :=
  if Py.Qltb 0 f_yes && Qle_bool f_no f_yes then
    let bet := bankroll * f_yes * kelly_fraction in
    let bet := Qmin (Qmin bet (bankroll * (15 # 100))) MAX_BET_PER_TRADE in
    let bet := bet * (1 - FEES_PCT / 100) in
    (Py.py_round bet 2, Some BUY_YES)
  else if Py.Qltb 0 f_no then
    let bet := bankroll * f_no * kelly_fraction in
    let bet := Qmin (Qmin bet (bankroll * (15 # 100))) MAX_BET_PER_TRADE in
    let bet := bet * (1 - FEES_PCT / 100) in
    (Py.py_round bet 2, Some BUY_NO)
  else (0, None).

Definition kelly_f_yes (estimated_prob market_price : Q) : Q :=
  let b_yes := (1 / market_price) - 1 in
  (b_yes * estimated_prob - (1 - estimated_prob)) / b_yes.

Definition kelly_f_no (estimated_prob market_price : Q) : Q :=
  let no_price := 1 - market_price in
  let no_prob := 1 - estimated_prob in
  let b_no := (1 / no_price) - 1 in
  (b_no * no_prob - (1 - no_prob)) / b_no.

(** The side a rounding residue decides for: [Some true] is "BUY_YES",
    [Some false] is "BUY_NO", [None] is no trade. *)
Definition residue_side (side : option bool) : option direction :=
  match side with
  | Some true => Some BUY_YES
  | Some false => Some BUY_NO
  | None => None
  end.

Section Kelly.
(** Lines 393-399 compute the two fractions in floating point.  When
    [estimated_prob] equals [market_price] both fractions are exactly 0, and
    what Python compares with 0 and with each other are the rounding
    residues of the computation ([kelly_size(0.05, 0.05, 10000, 0.25)] is
    [(0.0, "BUY_YES")]).  [tie_side estimated_prob market_price] is the side
    these residues decide for; the stake they give rounds to 0 cents for
    every bankroll below 10^13. *)
Variable tie_side : Q -> Q -> option bool.

Definition kelly_size (estimated_prob market_price bankroll kelly_fraction : Q)
  : Q * option direction :=
  if Qle_bool estimated_prob (1 # 100) || Qle_bool (99 # 100) estimated_prob
     || Qle_bool market_price (1 # 100) || Qle_bool (99 # 100) market_price
  then (0, None)
  else
    let f_yes := kelly_f_yes estimated_prob market_price in
    let f_no := kelly_f_no estimated_prob market_price in
    if Qeq_bool estimated_prob market_price
    then (0, residue_side (tie_side estimated_prob market_price))
    else kelly_choose f_yes f_no bankroll kelly_fraction.
End Kelly.

Definition apply_slippage (market_price : Q) (d : direction) : Q :=
  let slip := SLIPPAGE_PCT / 100 in
  match d with
  | BUY_YES => Qmin (market_price * (1 + slip)) 99
  | BUY_NO => Qmax (market_price * (1 - slip)) 1
  | ARB => market_price
  end.

(** *** Records of the engine *)

Module ArbDetail.
Record t : Type := {
  buy_platform : string;
  buy_price : Q;
  sell_platform : string;
  sell_price : Q;
  spread : Q
}.
End ArbDetail.

(** A proposal, as the strategy functions build it. *)
Module Trade.
Record t : Type := {
  market : string;
  platform : string;
  url : string;
  category : string;
  direction : Bots.direction;
  market_price : Q;
  estimated_prob : Q;
  edge_pp : Q;
  bet_amount : Q;
  kelly_fraction : Q;
  source : string;
  rationale : string;
  confidence : string;
  arb_detail : option ArbDetail.t
}.
End Trade.

Module TradeRecord.
Record t : Type := {
  id : string;
  bot_id : string;
  bot_name : string;
  timestamp : string;
  market : string;
  platform : string;
  url : string;
  category : string;
  direction : Bots.direction;
  entry_price : Q;
  estimated_prob : Q;
  edge_pp : Q;
  bet_amount : Q;
  kelly_fraction : Q;
  source : string;
  rationale : string;
  confidence : string;
  status : string;
  pnl : Q;
  arb_detail : option ArbDetail.t
}.
End TradeRecord.

Module Position.
Record t : Type := {
  trade_id : string;
  market : string;
  direction : Bots.direction;
  entry_price : Q;
  current_price : Q;
  bet_amount : Q;
  timestamp : string;
  platform : string;
  url : string;
  (** only in positions read back from a stored state *)
  arb_detail : option ArbDetail.t
}.

(** [pos["current_price"] = new_price] *)
Definition set_current_price (pos : t) (new_price : Q) : t :=
  {| trade_id := trade_id pos; market := market pos;
     direction := direction pos; entry_price := entry_price pos;
     current_price := new_price; bet_amount := bet_amount pos;
     timestamp := timestamp pos; platform := platform pos;
     url := url pos; arb_detail := arb_detail pos |}.
End Position.

Module BotState.
Record t : Type := {
  bankroll : Q;
  total_trades : Z;
  winning_trades : Z;
  total_pnl : Q;
  peak_bankroll : Q;
  positions : list Position.t;
  equity_curve : list (string * Q)
}.
End BotState.

Module Bot.
Record t : Type := {
  id : string;
  name : string;
  strategy : string;
  (** the keys of the definition other than ["params"] *)
  keys : list string;
  (** [params.get("max_positions")] *)
  max_positions : option Z;
  (** the other entries of [params], read by the strategies only *)
  params : gmap string Q
}.
End Bot.

Module BotResult.
Record t : Type := {
  bot : Bot.t;
  bankroll : Q;
  total_equity : Q;
  total_trades : Z;
  winning_trades : Z;
  win_rate : Q;
  total_pnl : Q;
  unrealized_pnl : Q;
  return_pct : Q;
  peak_bankroll : Q;
  drawdown_pct : Q;
  open_positions : nat;
  positions : list Position.t;
  equity_curve : list (string * Q);
  new_trades : list TradeRecord.t
}.

(** The keys of the dictionary appended to [bot_results]. *)
Definition keys (bot_keys : list string) : list string :=
  List.filter (fun k => negb (String.eqb k "params")) bot_keys ++
  ["bankroll"; "total_equity"; "total_trades"; "winning_trades"; "win_rate";
   "total_pnl"; "unrealized_pnl"; "return_pct"; "peak_bankroll";
   "drawdown_pct"; "open_positions"; "positions"; "equity_curve";
   "new_trades"; "strategy_params"].
End BotResult.

Module EngineResult.
Record t : Type := {
  lastUpdated : string;
  totalMarkets : nat;
  polymarketCount : nat;
  kalshiCount : nat;
  bots : list BotResult.t;
  recentTrades : list TradeRecord.t;
  newTradesCount : nat;
  (** what [save_state] and [save_trades] are called with *)
  saved_state : gmap string BotState.t;
  saved_trades : list TradeRecord.t
}.

(** The keys of the dictionary [run_bot_engine] returns. *)
Definition keys : list string :=
  ["timestamp"; "lastUpdated"; "lastUpdatedHuman"; "totalMarkets";
   "polymarketCount"; "kalshiCount"; "bots"; "recentTrades";
   "newTradesCount"].
End EngineResult.

(** A strategy function: the bot, all markets, the two venues' markets and
    the bot's state, to a ranked list of proposals, or an exception. *)
Definition strategy_fn : Type :=
  Bot.t -> list Market.t -> list Market.t -> list Market.t -> BotState.t ->
  Py.exc (list Trade.t).

(** *** Main engine *)

Section Engine.
Local Open Scope list_scope.

(** [hashlib.md5(s.encode()).hexdigest()] *)
Variable md5_hexdigest : string -> string.
(** [now.isoformat()] and [now.strftime("%Y-%m-%dT%H:%M:%SZ")] *)
Variable now_iso : string.
Variable now_stamp : string.
(** The side of the rounding error of [abs(a - b)], see [Py.compare_gap]. *)
Variable gap_error : Q -> Q -> comparison.
Variable STRATEGY_MAP : gmap string strategy_fn.

(** Lines 840-842: the keys of the positions held when the cycle starts. *)
Fixpoint existing_market_keys (positions : list Position.t) : gset string :=
  match positions with
  | [] => ∅
  | pos :: rest =>
      {[ normalize_title (Position.market pos) ]} ∪ existing_market_keys rest
  end.

Definition max_pos (bot : Bot.t) : Z := default 5%Z (Bot.max_positions bot).

Definition make_trade_record (bot : Bot.t) (trade : Trade.t) : TradeRecord.t :=
  let slipped_entry :=
    apply_slippage (Trade.market_price trade) (Trade.direction trade) in
  {| TradeRecord.id :=
       substring 0 12
         (md5_hexdigest
            (Bot.id bot ++ ":" ++ Trade.market trade ++ ":" ++ now_iso)%string);
     TradeRecord.bot_id := Bot.id bot;
     TradeRecord.bot_name := Bot.name bot;
     TradeRecord.timestamp := now_stamp;
     TradeRecord.market := Trade.market trade;
     TradeRecord.platform := Trade.platform trade;
     TradeRecord.url := Trade.url trade;
     TradeRecord.category := Trade.category trade;
     TradeRecord.direction := Trade.direction trade;
     TradeRecord.entry_price := Py.py_round slipped_entry 2;
     TradeRecord.estimated_prob := Trade.estimated_prob trade;
     TradeRecord.edge_pp := Trade.edge_pp trade;
     TradeRecord.bet_amount := Trade.bet_amount trade;
     TradeRecord.kelly_fraction := Trade.kelly_fraction trade;
     TradeRecord.source := Trade.source trade;
     TradeRecord.rationale := Trade.rationale trade;
     TradeRecord.confidence := Trade.confidence trade;
     TradeRecord.status := "OPEN";
     TradeRecord.pnl := 0;
     TradeRecord.arb_detail := Trade.arb_detail trade |}.

Definition make_position (trade : Trade.t) (trade_record : TradeRecord.t)
  : Position.t :=
  let slipped_entry :=
    apply_slippage (Trade.market_price trade) (Trade.direction trade) in
  {| Position.trade_id := TradeRecord.id trade_record;
     Position.market := Trade.market trade;
     Position.direction := Trade.direction trade;
     Position.entry_price := Py.py_round slipped_entry 2;
     Position.current_price := Trade.market_price trade;
     Position.bet_amount := Trade.bet_amount trade;
     Position.timestamp := TradeRecord.timestamp trade_record;
     Position.platform := Trade.platform trade;
     Position.url := Trade.url trade;
     Position.arb_detail := None |}.

(** Lines 870-878: the three updates of [bot_state] for an admitted trade. *)
Definition book_trade (bot_state : BotState.t) (trade : Trade.t)
    (trade_record : TradeRecord.t) : BotState.t :=
  {| BotState.bankroll := BotState.bankroll bot_state - Trade.bet_amount trade;
     BotState.total_trades := (BotState.total_trades bot_state + 1)%Z;
     BotState.winning_trades := BotState.winning_trades bot_state;
     BotState.total_pnl := BotState.total_pnl bot_state;
     BotState.peak_bankroll := BotState.peak_bankroll bot_state;
     BotState.positions :=
       BotState.positions bot_state ++ [make_position trade trade_record];
     BotState.equity_curve := BotState.equity_curve bot_state |}.

(** Lines 845-878: the loop over [proposed_trades].  [keys] is the set built
    before the loop; [bot_state] and [executed_trades] are the two objects
    the loop mutates.  [continue] goes on with the rest, [break] returns. *)
Fixpoint execute_trades (bot : Bot.t) (keys : gset string) (proposed_trades : list Trade.t)
    (bot_state : BotState.t) (executed_trades : list TradeRecord.t)
  : BotState.t * list TradeRecord.t :=
  match proposed_trades with
  | [] => (bot_state, executed_trades)
  | trade :: rest =>
      let trade_key := normalize_title (Trade.market trade) in
      if bool_decide (trade_key ∈ keys) then
        execute_trades bot keys rest bot_state executed_trades
      else
        let current_positions :=
          Z.of_nat (List.length (BotState.positions bot_state)) in
        if (max_pos bot <=? current_positions
                            + Z.of_nat (List.length executed_trades))%Z
        then (bot_state, executed_trades)
        else
          let trade_record := make_trade_record bot trade in
          execute_trades bot keys rest
                (book_trade bot_state trade trade_record)
                (executed_trades ++ [trade_record])
  end.

(** Lines 884-887: the first market with the position's title. *)
Fixpoint exact_match (pos_title_lower : string) (all_markets : list Market.t)
  : option Market.t :=
  match all_markets with
  | [] => None
  | mkt :: rest =>
      if String.eqb (Py.str_lower (Py.str_strip (Market.title mkt))) pos_title_lower
      then Some mkt
      else exact_match pos_title_lower rest
  end.

(** Lines 888-892: what the loop does with the market it found. *)
Definition mark (exact_match : option Market.t) (pos : Position.t) : Position.t :=
  match exact_match with
  | Some mkt =>
      let new_price := Market.yes_pct mkt in
      let old_price := Position.current_price pos in
      match Py.compare_gap gap_error new_price old_price 15 with
      | Gt => pos
      | _ => Position.set_current_price pos new_price
      end
  | None => pos
  end.

(** Lines 882-892: the body of the price-update loop, for one position. *)
Definition update_price (all_markets : list Market.t) (pos : Position.t)
  : Position.t :=
  let pos_title_lower := Py.str_lower (Py.str_strip (Position.market pos)) in
  mark (exact_match pos_title_lower all_markets) pos.

Definition update_prices (all_markets : list Market.t)
    (positions : list Position.t) : list Position.t :=
  map (update_price all_markets) positions.

(** Lines 897-922: what one position adds to [unrealized_pnl]. *)
Definition position_pnl (pos : Position.t) : Q :=
  let entry := Position.entry_price pos in
  let current := Position.current_price pos in
  let bet := Position.bet_amount pos in
  if Qle_bool entry 0 || Qle_bool 100 entry || Qle_bool current 0 then 0
  else
    match Position.direction pos with
    | BUY_YES =>
        let exit_price := current * (1 - SLIPPAGE_PCT / 100) in
        let shares := bet / (entry / 100) in
        let current_value := shares * (exit_price / 100) in
        current_value - bet
    | BUY_NO =>
        let no_entry := 100 - entry in
        let no_current := 100 - current in
        if Qle_bool no_entry 0 then 0
        else
          let exit_price := no_current * (1 - SLIPPAGE_PCT / 100) in
          let shares := bet / (no_entry / 100) in
          let current_value := shares * (exit_price / 100) in
          current_value - bet
    | ARB =>
        match Position.arb_detail pos with
        | Some d =>
            let raw_spread := ArbDetail.spread d / 100 in
            let net_spread := raw_spread - (2 * FEES_PCT / 100) in
            bet * Qmax net_spread 0
        | None => 0
        end
    end.

Definition unrealized_pnl (positions : list Position.t) : Q :=
  fold_left (fun acc pos => acc + position_pnl pos) positions 0.

(** [sum(p["bet_amount"] for p in positions)] *)
Definition open_stakes (positions : list Position.t) : Q :=
  fold_left (fun acc p => acc + Position.bet_amount p) positions 0.

(** Lines 927-931: append one sample, keep the last 168. *)
Definition push_equity (equity_curve : list (string * Q)) (current_equity : Q)
  : list (string * Q) :=
  let equity_curve := equity_curve ++ [(now_stamp, Py.py_round current_equity 2)] in
  if (168 <? List.length equity_curve)%nat
  then skipn (List.length equity_curve - 168) equity_curve
  else equity_curve.

(** Lines 894-955, after the price update has left [positions]: the new
    state, the trades executed and the entry of [bot_results]. *)
Definition settle (bot : Bot.t) (bot_state : BotState.t)
    (executed_trades : list TradeRecord.t) (positions : list Position.t)
  : BotState.t * list TradeRecord.t * BotResult.t :=
  let unrealized := unrealized_pnl positions in
  let current_equity :=
    BotState.bankroll bot_state + open_stakes positions + unrealized in
  let peak := Qmax (BotState.peak_bankroll bot_state) current_equity in
  let equity_curve := push_equity (BotState.equity_curve bot_state) current_equity in
  let bot_state :=
    {| BotState.bankroll := BotState.bankroll bot_state;
       BotState.total_trades := BotState.total_trades bot_state;
       BotState.winning_trades := BotState.winning_trades bot_state;
       BotState.total_pnl := BotState.total_pnl bot_state;
       BotState.peak_bankroll := peak;
       BotState.positions := positions;
       BotState.equity_curve := equity_curve |} in
  let win_rate :=
    if (0 <? BotState.total_trades bot_state)%Z
    then inject_Z (BotState.winning_trades bot_state)
         / inject_Z (BotState.total_trades bot_state) * 100
    else 0 in
  (bot_state, executed_trades,
   {| BotResult.bot := bot;
      BotResult.bankroll := Py.py_round (BotState.bankroll bot_state) 2;
      BotResult.total_equity := Py.py_round current_equity 2;
      BotResult.total_trades := BotState.total_trades bot_state;
      BotResult.winning_trades := BotState.winning_trades bot_state;
      BotResult.win_rate := Py.py_round win_rate 1;
      BotResult.total_pnl := Py.py_round (BotState.total_pnl bot_state) 2;
      BotResult.unrealized_pnl := Py.py_round unrealized 2;
      BotResult.return_pct :=
        Py.py_round ((current_equity - INITIAL_BANKROLL) / INITIAL_BANKROLL * 100) 2;
      BotResult.peak_bankroll := Py.py_round peak 2;
      BotResult.drawdown_pct :=
        if Py.Qltb 0 peak
        then Py.py_round ((peak - current_equity) / peak * 100) 2
        else 0;
      BotResult.open_positions := List.length positions;
      BotResult.positions := positions;
      BotResult.equity_curve := equity_curve;
      BotResult.new_trades := executed_trades |}).

(** Lines 835-955 for one bot whose strategy function is [strategy]. *)
Definition run_bot (bot : Bot.t) (strategy : strategy_fn)
    (all_markets poly_markets kalshi_markets : list Market.t)
    (bot_state : BotState.t)
  : BotState.t * list TradeRecord.t * BotResult.t :=
  let proposed_trades :=
    Py.try_except
      (strategy bot all_markets poly_markets kalshi_markets bot_state) [] in
  let keys := existing_market_keys (BotState.positions bot_state) in
  let '(bot_state, executed_trades) := execute_trades bot keys proposed_trades bot_state [] in
  let positions := update_prices all_markets (BotState.positions bot_state) in
  settle bot bot_state executed_trades positions.

Definition fresh_state : BotState.t :=
  {| BotState.bankroll := INITIAL_BANKROLL;
     BotState.total_trades := 0;
     BotState.winning_trades := 0;
     BotState.total_pnl := 0;
     BotState.peak_bankroll := INITIAL_BANKROLL;
     BotState.positions := [];
     BotState.equity_curve := [(now_stamp, INITIAL_BANKROLL)] |}.

(** Lines 824-955: the loop over [BOTS], threading [state], [bot_results]
    and [new_trades]. *)
Fixpoint run_bots (bots : list Bot.t)
    (all_markets poly_markets kalshi_markets : list Market.t)
    (state : gmap string BotState.t) (bot_results : list BotResult.t)
    (new_trades : list TradeRecord.t)
  : gmap string BotState.t * list BotResult.t * list TradeRecord.t :=
  match bots with
  | [] => (state, bot_results, new_trades)
  | bot :: rest =>
      let bot_state := default fresh_state (state !! Bot.id bot) in
      match STRATEGY_MAP !! Bot.strategy bot with
      | None =>
          run_bots rest all_markets poly_markets kalshi_markets
                   (<[Bot.id bot := bot_state]> state) bot_results new_trades
      | Some strategy =>
          let '(bot_state, executed_trades, result) :=
            run_bot bot strategy all_markets poly_markets kalshi_markets bot_state in
          run_bots rest all_markets poly_markets kalshi_markets
                   (<[Bot.id bot := bot_state]> state)
                   (bot_results ++ [result])
                   (new_trades ++ executed_trades)
      end
  end.

(** [l[-n:]] for [n > 0] *)
Definition last_n {A : Type} (n : nat) (l : list A) : list A :=
  skipn (List.length l - n) l.

(** [sorted(l, key=lambda t: t["timestamp"], reverse=True)]: stable. *)
Fixpoint insert_by_timestamp (t : TradeRecord.t) (l : list TradeRecord.t)
  : list TradeRecord.t :=
  match l with
  | [] => [t]
  | h :: rest =>
      if String.ltb (TradeRecord.timestamp t) (TradeRecord.timestamp h)
      then h :: insert_by_timestamp t rest
      else t :: l
  end.

Definition sorted_newest_first (l : list TradeRecord.t) : list TradeRecord.t :=
  fold_right insert_by_timestamp [] l.

(** Lines 957-973, after the loop over [BOTS] has left [state],
    [bot_results] and [new_trades]; [M] is the type of a market. *)
Definition engine_result {M : Type} (poly_markets kalshi_markets : list M)
    (all_trades : list TradeRecord.t)
    (after_bots : gmap string BotState.t * list BotResult.t * list TradeRecord.t)
  : EngineResult.t :=
  let all_markets := poly_markets ++ kalshi_markets in
  let '(state, bot_results, new_trades) := after_bots in
  let all_trades := all_trades ++ new_trades in
  let all_trades :=
    if (500 <? List.length all_trades)%nat then last_n 500 all_trades
    else all_trades in
  {| EngineResult.lastUpdated := now_stamp;
     EngineResult.totalMarkets := List.length all_markets;
     EngineResult.polymarketCount := List.length poly_markets;
     EngineResult.kalshiCount := List.length kalshi_markets;
     EngineResult.bots := bot_results;
     EngineResult.recentTrades :=
       firstn 50 (sorted_newest_first (new_trades ++ last_n 50 all_trades));
     EngineResult.newTradesCount := List.length new_trades;
     EngineResult.saved_state := state;
     EngineResult.saved_trades := all_trades |}.

(** [run_bot_engine], from the point where the markets, the stored state
    and the stored trades have been read. *)
Definition run_bot_engine (BOTS : list Bot.t)
    (poly_markets kalshi_markets : list Market.t)
    (state : gmap string BotState.t) (all_trades : list TradeRecord.t)
  : EngineResult.t :=
  let all_markets := poly_markets ++ kalshi_markets in
  engine_result poly_markets kalshi_markets all_trades
    (run_bots BOTS all_markets poly_markets kalshi_markets state [] []).
End Engine.

End Bots.

(** * Vocabulary of the properties *)

(** The record of the test fixture with a one-sided book: bid 0, ask 55. *)
Definition one_sided_book : gmap string Py.jval :=
  <["ticker" := Py.JStr "MKT-C"]>
    (<["title" := Py.JStr "Market C"]>
       (<["yes_bid" := Py.JNum 0]> (<["yes_ask" := Py.JNum 55]> ∅))).

(** The cap of [kelly_size]: [min(bankroll * 0.15, MAX_BET_PER_TRADE)]. *)
Definition kelly_cap (bankroll : Q) : Q :=
  Qmin (bankroll * (15 # 100)) Bots.MAX_BET_PER_TRADE.

(** [p in t]: [p] is a substring of [t]. *)
Fixpoint occurs (p t : list ascii) : bool :=
  match t with
  | [] => Py.starts_with p []
  | _ :: t' => Py.starts_with p t || occurs p t'
  end.

(** One of the noise phrases is a substring of [t]. *)
Definition contains_noise (t : list ascii) : bool :=
  existsb (fun noise => occurs (list_ascii_of_string noise) t) noise_words.

(** Two adjacent characters of [t] are white space. *)
Fixpoint has_double_space (t : list ascii) : bool :=
  match t with
  | a :: ((b :: _) as t') => Py.is_space a && Py.is_space b || has_double_space t'
  | _ => false
  end.

(** A title a further pass has nothing to remove from. *)
Definition settled (t : string) : bool :=
  negb (contains_noise (list_ascii_of_string t))
  && negb (has_double_space (list_ascii_of_string t)).

(** The characters of a normalised title: [[a-z0-9]] and the blank. *)
Definition is_clean_char (c : ascii) : bool :=
  Py.is_lower_alnum c || Ascii.eqb c " ".

Abbreviation clean := (Forall (fun c => is_clean_char c = true)).

(** The proposals the loop of [execute_trades] books, in order: [n_pos] and
    [n_exec] are the lengths of the position list and of [executed_trades]
    when the loop reaches [proposed_trades]. *)
Fixpoint admitted (max_pos : Z) (keys : gset string)
    (proposed_trades : list Bots.Trade.t) (n_pos n_exec : nat)
  : list Bots.Trade.t :=
  match proposed_trades with
  | [] => []
  | trade :: rest =>
      if bool_decide (Bots.normalize_title (Bots.Trade.market trade) ∈ keys)
      then admitted max_pos keys rest n_pos n_exec
      else if (max_pos <=? Z.of_nat n_pos + Z.of_nat n_exec)%Z then []
      else trade :: admitted max_pos keys rest (S n_pos) (S n_exec)
  end.

(** The normalised market keys of a list of positions, with repetitions. *)
Definition position_keys (positions : list Bots.Position.t) : list string :=
  map (fun pos => Bots.normalize_title (Bots.Position.market pos)) positions.

(** [book_trade] for each of [trades], in order. *)
Definition book_trades (md5_hexdigest : string -> string) (now_iso now_stamp : string)
    (bot : Bots.Bot.t) (bot_state : Bots.BotState.t)
    (trades : list Bots.Trade.t) : Bots.BotState.t :=
  fold_left
    (fun st trade =>
       Bots.book_trade st trade
         (Bots.make_trade_record md5_hexdigest now_iso now_stamp bot trade))
    trades bot_state.

(** Sum of the stakes of a list of proposals. *)
Definition total_bets (trades : list Bots.Trade.t) : Q :=
  fold_left (fun acc t => acc + Bots.Trade.bet_amount t) trades 0.

(** The fixtures of [tests/test_issue2_cycles.py]. *)
Definition test_bot (max_positions : Z) : Bots.Bot.t :=
  {| Bots.Bot.id := "testbot";
     Bots.Bot.name := "Test Bot";
     Bots.Bot.strategy := "test_strategy";
     Bots.Bot.keys :=
       ["id"; "name"; "strategy"; "strategy_name"; "title"; "personality";
        "emoji"; "color"; "accent"; "params"];
     Bots.Bot.max_positions := Some max_positions;
     Bots.Bot.params := {[ "kelly_fraction" := 25 # 100 ]} |}.

Definition test_trade (market : string) : Bots.Trade.t :=
  {| Bots.Trade.market := market;
     Bots.Trade.platform := "Polymarket";
     Bots.Trade.url := "https://example.com";
     Bots.Trade.category := "Other";
     Bots.Trade.direction := Bots.BUY_YES;
     Bots.Trade.market_price := 40;
     Bots.Trade.estimated_prob := 55;
     Bots.Trade.edge_pp := 15;
     Bots.Trade.bet_amount := 100;
     Bots.Trade.kelly_fraction := 25 # 100;
     Bots.Trade.source := "Test Source";
     Bots.Trade.rationale := "Test rationale";
     Bots.Trade.confidence := "HIGH";
     Bots.Trade.arb_detail := None |}.

Definition test_state : Bots.BotState.t :=
  {| Bots.BotState.bankroll := 10000;
     Bots.BotState.total_trades := 0;
     Bots.BotState.winning_trades := 0;
     Bots.BotState.total_pnl := 0;
     Bots.BotState.peak_bankroll := 10000;
     Bots.BotState.positions := [];
     Bots.BotState.equity_curve := [("2026-02-28T10:00:00Z", 10000)] |}.

(** The position and the market have the same title, up to surrounding
    white space and letter case: the test of the price-update loop. *)
Definition same_title (pos : Bots.Position.t) (mkt : Bots.Market.t) : Prop :=
  Py.str_lower (Py.str_strip (Bots.Market.title mkt))
  = Py.str_lower (Py.str_strip (Bots.Position.market pos)).

(** [mkt] is the first market of [all_markets] with the title of [pos]. *)
Definition first_with_title (pos : Bots.Position.t)
    (all_markets : list Bots.Market.t) (mkt : Bots.Market.t) : Prop :=
  exists before after : list Bots.Market.t,
    all_markets = (before ++ mkt :: after)%list
    /\ same_title pos mkt
    /\ List.Forall (fun m => ~ same_title pos m) before.

(** The market's price is within 15 points of the position's mark. *)
Definition within_15 (pos : Bots.Position.t) (mkt : Bots.Market.t) : Prop :=
  Qabs (Bots.Market.yes_pct mkt - Bots.Position.current_price pos) <= 15.

(** The distance between the market's price and the position's mark. *)
Definition price_gap (pos : Bots.Position.t) (mkt : Bots.Market.t) : Q :=
  Qabs (Bots.Market.yes_pct mkt - Bots.Position.current_price pos).

(** At a distance of exactly 15 points, Python's [abs(new_price - old_price)]
    is not above 15. *)
Definition float_gap_within (gap_error : Q -> Q -> comparison)
    (pos : Bots.Position.t) (mkt : Bots.Market.t) : Prop :=
  gap_error (Bots.Market.yes_pct mkt) (Bots.Position.current_price pos) <> Gt.

(** The two positions agree on every field but [current_price]. *)
Definition same_except_price (p q : Bots.Position.t) : Prop :=
  Bots.Position.trade_id p = Bots.Position.trade_id q
  /\ Bots.Position.market p = Bots.Position.market q
  /\ Bots.Position.direction p = Bots.Position.direction q
  /\ Bots.Position.entry_price p = Bots.Position.entry_price q
  /\ Bots.Position.bet_amount p = Bots.Position.bet_amount q
  /\ Bots.Position.timestamp p = Bots.Position.timestamp q
  /\ Bots.Position.platform p = Bots.Position.platform q
  /\ Bots.Position.url p = Bots.Position.url q
  /\ Bots.Position.arb_detail p = Bots.Position.arb_detail q.

(** The position and the market have the same normalised title. *)
Definition same_normalized_title (pos : Bots.Position.t) (mkt : Bots.Market.t) : Prop :=
  Bots.normalize_title (Bots.Market.title mkt)
  = Bots.normalize_title (Bots.Position.market pos).

(** The mark-to-market rule with "a snapshot exists": the mark becomes the
    price of a snapshot with the position's normalised title and within 15
    points whenever there is one, it stays otherwise, and nothing else
    changes. *)
Definition marks_on_any_match (gap_error : Q -> Q -> comparison)
    (all_markets : list Bots.Market.t) (pos : Bots.Position.t) : Prop :=
  let pos' := Bots.update_price gap_error all_markets pos in
  ((exists mkt, In mkt all_markets /\ same_normalized_title pos mkt
                /\ within_15 pos mkt) ->
   exists mkt, In mkt all_markets /\ same_normalized_title pos mkt
               /\ within_15 pos mkt
               /\ Bots.Position.current_price pos' == Bots.Market.yes_pct mkt)
  /\ (~ (exists mkt, In mkt all_markets /\ same_normalized_title pos mkt
                     /\ within_15 pos mkt) ->
      Bots.Position.current_price pos' = Bots.Position.current_price pos)
  /\ same_except_price pos pos'.

Definition test_market (title : string) (yes_pct : Q) : Bots.Market.t :=
  {| Bots.Market.platform := "Polymarket";
     Bots.Market.title := title;
     Bots.Market.event_title := "";
     Bots.Market.ticker := "";
     Bots.Market.yes_pct := yes_pct;
     Bots.Market.volume := 1000;
     Bots.Market.volume_24hr := 0;
     Bots.Market.liquidity := 0;
     Bots.Market.end_date := "";
     Bots.Market.category := "Other";
     Bots.Market.url := "https://example.com" |}.

Definition test_position (market : string) (current_price : Q) : Bots.Position.t :=
  {| Bots.Position.trade_id := "p1";
     Bots.Position.market := market;
     Bots.Position.direction := Bots.BUY_YES;
     Bots.Position.entry_price := 40;
     Bots.Position.current_price := current_price;
     Bots.Position.bet_amount := 100;
     Bots.Position.timestamp := "2026-02-28T10:00:00Z";
     Bots.Position.platform := "Polymarket";
     Bots.Position.url := "https://example.com";
     Bots.Position.arb_detail := None |}.

(** The bots of the roster whose strategy tag is in the strategy table. *)
Definition with_strategy (STRATEGY_MAP : gmap string Bots.strategy_fn)
    (bots : list Bots.Bot.t) : list Bots.Bot.t :=
  List.filter
    (fun bot =>
       match STRATEGY_MAP !! Bots.Bot.strategy bot with
       | Some _ => true
       | None => false
       end)
    bots.

(** A strategy that raises, one that proposes nothing and one that always
    proposes the test trade. *)
Definition raising_strategy : Bots.strategy_fn := fun _ _ _ _ _ => Py.Raise.

Definition silent_strategy : Bots.strategy_fn := fun _ _ _ _ _ => Py.Ok [].

Definition test_strategy (market : string) : Bots.strategy_fn :=
  fun _ _ _ _ _ => Py.Ok [test_trade market].

Definition failing_bot : Bots.Bot.t :=
  {| Bots.Bot.id := "failing";
     Bots.Bot.name := "Failing Bot";
     Bots.Bot.strategy := "failing_strategy";
     Bots.Bot.keys := Bots.Bot.keys (test_bot 2);
     Bots.Bot.max_positions := Some 2%Z;
     Bots.Bot.params := ∅ |}.

(** The stored state of the first test: one open position, bankroll 9900. *)
Definition held_state : Bots.BotState.t :=
  {| Bots.BotState.bankroll := 9900;
     Bots.BotState.total_trades := 1;
     Bots.BotState.winning_trades := 0;
     Bots.BotState.total_pnl := 0;
     Bots.BotState.peak_bankroll := 10000;
     Bots.BotState.positions := [test_position "Will test happen?" 40];
     Bots.BotState.equity_curve := [("2026-02-28T10:00:00Z", 10000)] |}.

(** * [api/bots.py]: references, title matching and the arbitrage strategy *)

Module Strategy.

(** [kw in t] for two strings. *)
Definition str_in (kw t : string) : bool :=
  occurs (list_ascii_of_string kw) (list_ascii_of_string t).

(** [t.split()]: the maximal runs of characters that are not white space;
    [word] is the run being read. *)
Fixpoint split_from (word t : list ascii) : list (list ascii) :=
  match t with
  | [] => match word with [] => [] | _ :: _ => [word] end
  | c :: t' =>
      if Py.is_space c
      then match word with
           | [] => split_from [] t'
           | _ :: _ => word :: split_from [] t'
           end
      else split_from (word ++ [c]) t'
  end.

Definition split (t : string) : list string :=
  map string_of_list_ascii (split_from [] (list_ascii_of_string t)).

Definition keyword_overlap (t1 t2 : string) : Q :=
  let words1 : gset string := list_to_set (split t1) in
  let words2 : gset string := list_to_set (split t2) in
  if bool_decide (words1 = ∅) || bool_decide (words2 = ∅) then 0
  else
    let intersection := words1 ∩ words2 in
    inject_Z (Z.of_nat (size intersection))
    / inject_Z (Z.of_nat (Nat.min (size words1) (size words2))).

(** An entry of [REFERENCE_PROBS]. *)
Module Reference.
Record t : Type := {
  id : string;
  prob : Q;
  source : string;
  require_all : list string;
  require_any : list string;
  exclude : list string
}.
End Reference.

Definition REFERENCE_PROBS : list Reference.t :=
  [ {| Reference.id := "fed_march_nochange"; Reference.prob := 96;
       Reference.source := "CME FedWatch";
       Reference.require_all := ["fed"; "march"];
       Reference.require_any := ["no change"; "hold"; "unchanged"];
       Reference.exclude := ["chair"; "nominate"; "powell"; "warsh"; "decrease"; "cut";
                             "bps"; "25"; "50"; "75"; "100"; "increase"; "hike"] |};
    {| Reference.id := "fed_april_nochange"; Reference.prob := 82;
       Reference.source := "CME FedWatch";
       Reference.require_all := ["fed"; "april"];
       Reference.require_any := ["no change"; "hold"; "unchanged"];
       Reference.exclude := ["chair"; "nominate"; "decrease"; "cut"; "bps";
                             "increase"; "hike"] |};
    {| Reference.id := "fed_rate_cuts_2026"; Reference.prob := 47;
       Reference.source := "CME FedWatch";
       Reference.require_all := ["fed"; "rate"; "cut"];
       Reference.require_any := ["2026"; "by end of"; "total"];
       Reference.exclude := ["chair"; "nominate"; "march"; "april"; "may"; "january"] |};
    {| Reference.id := "recession_2026"; Reference.prob := 30;
       Reference.source := "RSM/JPMorgan consensus";
       Reference.require_all := ["recession"];
       Reference.require_any := ["2026"; "us"; "united states"];
       Reference.exclude := ["global"; "china"; "europe"; "germany"; "uk"; "japan"] |};
    {| Reference.id := "dem_house_2026"; Reference.prob := 85;
       Reference.source := "Polling consensus";
       Reference.require_all := ["house"];
       Reference.require_any := ["democrat"; "democratic party"; "2026 midterm"];
       Reference.exclude := ["senate"; "white house"; "speaker"; "majority leader"] |};
    {| Reference.id := "china_taiwan_invade"; Reference.prob := 4;
       Reference.source := "ASPI/CFR analysts";
       Reference.require_all := ["china"; "taiwan"];
       Reference.require_any := ["invade"; "invasion"; "attack"; "blockade"];
       Reference.exclude := ["gta"; "game"; "esport"] |};
    {| Reference.id := "ukraine_ceasefire"; Reference.prob := 36;
       Reference.source := "Brookings consensus";
       Reference.require_all := ["ceasefire"];
       Reference.require_any := ["ukraine"; "russia"];
       Reference.exclude := ["israel"; "iran"; "gaza"; "gta"; "eurovision"; "broken";
                             "game"] |};
    {| Reference.id := "arsenal_epl"; Reference.prob := 83;
       Reference.source := "OddsChecker (-500)";
       Reference.require_all := ["arsenal"; "premier league"];
       Reference.require_any := [];
       Reference.exclude := ["champions league"; "ucl"; "fa cup"; "game"; "esport"] |};
    {| Reference.id := "f1_russell"; Reference.prob := 33;
       Reference.source := "Ladbrokes (2/1)";
       Reference.require_all := ["russell"];
       Reference.require_any := ["f1"; "formula 1"; "drivers championship"];
       Reference.exclude := ["game"; "esport"; "lol"; "valorant"] |};
    {| Reference.id := "okc_nba"; Reference.prob := 30;
       Reference.source := "Yahoo Sports (+230)";
       Reference.require_all := ["thunder"];
       Reference.require_any := ["nba"; "nba champion"];
       Reference.exclude := ["game"; "esport"; "round"; "series"] |};
    {| Reference.id := "us_iran_strike"; Reference.prob := 78;
       Reference.source := "Polymarket consensus";
       Reference.require_all := ["strike"; "iran"];
       Reference.require_any := ["us"; "united states"; "israel"];
       Reference.exclude := ["next strike on"; "february"; "ceasefire broken"; "game"] |};
    {| Reference.id := "khamenei_out"; Reference.prob := 12;
       Reference.source := "Expert consensus";
       Reference.require_all := ["khamenei"];
       Reference.require_any := ["out"; "supreme leader"; "leave"; "no longer"];
       Reference.exclude := ["game"] |};
    {| Reference.id := "openai_ipo"; Reference.prob := 50;
       Reference.source := "Analyst reports";
       Reference.require_all := ["openai"; "ipo"];
       Reference.require_any := [];
       Reference.exclude := ["market cap"; "closing"; "less than"; "revenue"] |};
    {| Reference.id := "spain_world_cup"; Reference.prob := 20;
       Reference.source := "BetMGM (+400)";
       Reference.require_all := ["spain"; "world cup"];
       Reference.require_any := [];
       Reference.exclude := ["game"; "esport"; "group stage"] |};
    {| Reference.id := "warsh_fed_chair"; Reference.prob := 93;
       Reference.source := "Market consensus";
       Reference.require_all := ["warsh"];
       Reference.require_any := ["fed chair"; "nominate"; "federal reserve"; "chairman"];
       Reference.exclude := ["confirmed"; "hassett"; "rate"; "cut"; "bps"] |} ].

(** The loop of [find_reference] over a table, [t] being the lower-cased
    title. *)
Fixpoint find_in (refs : list Reference.t) (t : string) : option Reference.t :=
  match refs with
  | [] => None
  | ref :: rest =>
      if negb (forallb (fun kw => str_in kw t) (Reference.require_all ref))
      then find_in rest t
      else if match Reference.require_any ref with [] => false | _ :: _ => true end
              && negb (existsb (fun kw => str_in kw t) (Reference.require_any ref))
      then find_in rest t
      else if existsb (fun kw => str_in kw t) (Reference.exclude ref)
      then find_in rest t
      else Some ref
  end.

Definition find_reference (title : string) : option Reference.t :=
  find_in REFERENCE_PROBS (Py.str_lower title).

Definition esport_keywords : list string :=
  ["lol:"; "dota"; "csgo"; "cs2"; "valorant"; "overwatch"; "league of legends";
   "game winner"; "map winner"; "round winner"; "esport"; "fearx"; "t1 vs";
   "gen.g"; "cloud9"; "fnatic vs"; "navi vs"; "g2 vs"; "100 thieves";
   "total kills"; "in game 1"; "in game 2"; "in game 3"; "in game 4"; "in game 5";
   "first blood"; "first tower"; "first baron"; "dragon"; "rift herald"].

Definition is_tradeable (mkt : Bots.Market.t) : bool :=
  let price := Bots.Market.yes_pct mkt in
  if Py.Qltb price Bots.MIN_TRADEABLE_PRICE || Py.Qltb Bots.MAX_TRADEABLE_PRICE price
  then false
  else
    let title_lower := Py.str_lower (Bots.Market.title mkt) in
    if existsb (fun kw => str_in kw title_lower) esport_keywords then false
    else true.

End Strategy.

(** The three tests of [find_reference] on one entry, [t] being the
    lower-cased title. *)
Definition ref_matches (t : string) (ref : Strategy.Reference.t) : bool :=
  forallb (fun kw => Strategy.str_in kw t) (Strategy.Reference.require_all ref)
  && (match Strategy.Reference.require_any ref with
      | [] => true
      | _ :: _ => existsb (fun kw => Strategy.str_in kw t)
                          (Strategy.Reference.require_any ref)
      end)
  && negb (existsb (fun kw => Strategy.str_in kw t) (Strategy.Reference.exclude ref)).

(** * [api/bots.py]: the cross-platform arbitrage strategy *)

Module Arbitrage.

(** A Polymarket snapshot: the common keys, and the truth values of
    [pm.get("active", True)] and [pm.get("closed")]. *)
Module PolyMarket.
Record t : Type := {
  market : Bots.Market.t;
  active : bool;
  closed : bool
}.
End PolyMarket.

(** [params[key]]: a missing key raises [KeyError]. *)
Definition getitem (params : gmap string Q) (key : string) : Py.exc Q :=
  match params !! key with
  | Some v => Py.Ok v
  | None => Py.Raise
  end.

(** [l[:n]] for an integer [n] of either sign. *)
Definition slice_to {A : Type} (n : Z) (l : list A) : list A :=
  if (0 <=? n)%Z then firstn (Z.to_nat n) l
  else firstn (Z.to_nat (Z.of_nat (List.length l) + n)) l.

(** [trades.sort(key=lambda t: -t["edge_pp"])]: the sort is stable. *)
Fixpoint insert_by_edge (t : Bots.Trade.t) (l : list Bots.Trade.t) : list Bots.Trade.t :=
  match l with
  | [] => [t]
  | h :: rest =>
      if Py.Qltb (Bots.Trade.edge_pp t) (Bots.Trade.edge_pp h)
      then h :: insert_by_edge t rest
      else t :: l
  end.

Definition sort_by_edge (trades : list Bots.Trade.t) : list Bots.Trade.t :=
  fold_right insert_by_edge [] trades.

(** Lines 526-532: the first trade of every normalised title. *)
Fixpoint unique_by_title (seen : gset string) (trades : list Bots.Trade.t)
  : list Bots.Trade.t :=
  match trades with
  | [] => []
  | t :: rest =>
      let key := Bots.normalize_title (Bots.Trade.market t) in
      if bool_decide (key ∈ seen) then unique_by_title seen rest
      else t :: unique_by_title ({[ key ]} ∪ seen) rest
  end.

Section Strategy.
(** The side of the rounding error of [abs(gap)], see [Py.compare_gap]. *)
Variable gap_error : Q -> Q -> comparison.
(** [format(x, spec)] of a float, as the f-strings call it. *)
Variable format_float : string -> Q -> string.

(** Lines 494-524: one pair of markets that passed the tradeable tests.
    [Ok None] is [continue]. *)
Definition arb_pair (params : gmap string Q) (bankroll : Q)
    (pm km : Bots.Market.t) : Py.exc (option Bots.Trade.t) :=
  let pm_norm := Bots.normalize_title (Bots.Market.title pm) in
  let km_norm := Bots.normalize_title (Bots.Market.title km) in
  let overlap := Strategy.keyword_overlap pm_norm km_norm in
  if Py.Qltb overlap (1 # 2) then Py.Ok None
  else
    let gap := Bots.Market.yes_pct pm - Bots.Market.yes_pct km in
    let abs_gap := Qabs gap in
    match getitem params "min_spread" with
    | Py.Raise => Py.Raise
    | Py.Ok min_spread =>
        if Py.gap_lt gap_error (Bots.Market.yes_pct pm) (Bots.Market.yes_pct km)
                     min_spread
        then Py.Ok None
        else
          let '(buy_platform, buy_price, sell_platform, sell_price, buy_url) :=
            if Py.Qltb 0 gap
            then ("Kalshi", Bots.Market.yes_pct km, "Polymarket",
                  Bots.Market.yes_pct pm, Bots.Market.url km)
            else ("Polymarket", Bots.Market.yes_pct pm, "Kalshi",
                  Bots.Market.yes_pct km, Bots.Market.url pm) in
          let spread_pct := abs_gap / 100 in
          match getitem params "kelly_fraction" with
          | Py.Raise => Py.Raise
          | Py.Ok kelly_fraction =>
              let bet_amount := bankroll * spread_pct * kelly_fraction in
              let bet_amount := Qmin bet_amount (bankroll * (20 # 100)) in
              if Py.Qltb bet_amount 10 then Py.Ok None
              else
                Py.Ok (Some
                  {| Bots.Trade.market := Bots.Market.title pm;
                     Bots.Trade.platform := buy_platform ++ " → " ++ sell_platform;
                     Bots.Trade.url := buy_url;
                     Bots.Trade.category := Bots.Market.category pm;
                     Bots.Trade.direction := Bots.ARB;
                     Bots.Trade.market_price := Bots.Market.yes_pct pm;
                     Bots.Trade.estimated_prob := Bots.Market.yes_pct km;
                     Bots.Trade.edge_pp := Py.py_round abs_gap 1;
                     Bots.Trade.bet_amount := Py.py_round bet_amount 2;
                     Bots.Trade.kelly_fraction := kelly_fraction;
                     Bots.Trade.source := buy_platform ++ " vs " ++ sell_platform;
                     Bots.Trade.rationale :=
                       "SPREAD DETECTED: " ++ buy_platform ++ " has YES at "
                       ++ format_float ".0f" buy_price ++ "¢, " ++ sell_platform
                       ++ " at " ++ format_float ".0f" sell_price ++ "¢. That's a "
                       ++ format_float ".0f" abs_gap ++ "¢ spread. Buy YES on "
                       ++ buy_platform ++ ", buy NO on " ++ sell_platform
                       ++ " — guaranteed " ++ format_float ".0f" abs_gap
                       ++ "¢ profit per contract regardless of outcome. Execution risk: settlement timing and platform fees reduce effective spread.";
                     Bots.Trade.confidence :=
                       if Py.gap_lt gap_error (Bots.Market.yes_pct pm)
                                    (Bots.Market.yes_pct km) 10
                       then "MEDIUM" else "HIGH";
                     Bots.Trade.arb_detail :=
                       Some {| Bots.ArbDetail.buy_platform := buy_platform;
                               Bots.ArbDetail.buy_price := buy_price;
                               Bots.ArbDetail.sell_platform := sell_platform;
                               Bots.ArbDetail.sell_price := sell_price;
                               Bots.ArbDetail.spread := Py.py_round abs_gap 1 |} |})
          end
    end.

(** Lines 490-524: the loop over [kalshi_markets] for one Polymarket
    market; the result is what the loop appends to [trades]. *)
Fixpoint arb_inner (params : gmap string Q) (bankroll : Q) (pm : Bots.Market.t)
    (kalshi_markets : list Bots.Market.t) : Py.exc (list Bots.Trade.t) :=
  match kalshi_markets with
  | [] => Py.Ok []
  | km :: rest =>
      if negb (Strategy.is_tradeable km) then arb_inner params bankroll pm rest
      else
        match arb_pair params bankroll pm km with
        | Py.Raise => Py.Raise
        | Py.Ok found =>
            match arb_inner params bankroll pm rest with
            | Py.Raise => Py.Raise
            | Py.Ok more =>
                Py.Ok (match found with Some t => t :: more | None => more end)
            end
        end
  end.

(** Lines 484-524: the loop over [poly_markets]. *)
Fixpoint arb_outer (params : gmap string Q) (bankroll : Q)
    (poly_markets : list PolyMarket.t) (kalshi_markets : list Bots.Market.t)
  : Py.exc (list Bots.Trade.t) :=
  match poly_markets with
  | [] => Py.Ok []
  | pm :: rest =>
      if PolyMarket.closed pm || negb (PolyMarket.active pm)
      then arb_outer params bankroll rest kalshi_markets
      else if negb (Strategy.is_tradeable (PolyMarket.market pm))
      then arb_outer params bankroll rest kalshi_markets
      else
        match arb_inner params bankroll (PolyMarket.market pm) kalshi_markets with
        | Py.Raise => Py.Raise
        | Py.Ok found =>
            match arb_outer params bankroll rest kalshi_markets with
            | Py.Raise => Py.Raise
            | Py.Ok more => Py.Ok (found ++ more)%list
            end
        end
  end.

Definition strategy_cross_platform_arb (bot : Bots.Bot.t)
    (poly_markets : list PolyMarket.t) (kalshi_markets : list Bots.Market.t)
    (state : Bots.BotState.t) : Py.exc (list Bots.Trade.t) :=
  match arb_outer (Bots.Bot.params bot) (Bots.BotState.bankroll state)
                  poly_markets kalshi_markets with
  | Py.Raise => Py.Raise
  | Py.Ok trades =>
      let trades := sort_by_edge trades in
      let unique := unique_by_title ∅ trades in
      match Bots.Bot.max_positions bot with
      | None => Py.Raise
      | Some max_positions => Py.Ok (slice_to max_positions unique)
      end
  end.
End Strategy.

End Arbitrage.

(** The venue to buy YES on and the venue to buy NO on, for the prices of
    the two venues: YES is bought where it is cheaper, on Polymarket when the
    prices are equal. *)
Definition arb_legs (pm km : Bots.Market.t) (d : Bots.ArbDetail.t) (url : string)
  : Prop :=
  (Bots.Market.yes_pct km < Bots.Market.yes_pct pm
   /\ Bots.ArbDetail.buy_platform d = "Kalshi"
   /\ Bots.ArbDetail.buy_price d = Bots.Market.yes_pct km
   /\ Bots.ArbDetail.sell_platform d = "Polymarket"
   /\ Bots.ArbDetail.sell_price d = Bots.Market.yes_pct pm
   /\ url = Bots.Market.url km)
  \/ (Bots.Market.yes_pct pm <= Bots.Market.yes_pct km
      /\ Bots.ArbDetail.buy_platform d = "Polymarket"
      /\ Bots.ArbDetail.buy_price d = Bots.Market.yes_pct pm
      /\ Bots.ArbDetail.sell_platform d = "Kalshi"
      /\ Bots.ArbDetail.sell_price d = Bots.Market.yes_pct km
      /\ url = Bots.Market.url pm).

(** The fields of an ARB proposal for the Polymarket market [pm] and the
    Kalshi market [km], the text of the rationale apart: [gap] is the
    distance between the two prices. *)
Definition arb_fields (params : gmap string Q) (bankroll : Q)
    (pm km : Bots.Market.t) (t : Bots.Trade.t) : Prop :=
  let gap := Qabs (Bots.Market.yes_pct pm - Bots.Market.yes_pct km) in
  Bots.Trade.direction t = Bots.ARB
  /\ Bots.Trade.market t = Bots.Market.title pm
  /\ Bots.Trade.category t = Bots.Market.category pm
  /\ Bots.Trade.market_price t = Bots.Market.yes_pct pm
  /\ Bots.Trade.estimated_prob t = Bots.Market.yes_pct km
  /\ Bots.Trade.edge_pp t = Py.py_round gap 1
  /\ (exists min_spread, params !! "min_spread" = Some min_spread /\ min_spread <= gap)
  /\ (exists kelly_fraction,
        params !! "kelly_fraction" = Some kelly_fraction
        /\ Bots.Trade.kelly_fraction t = kelly_fraction
        /\ Bots.Trade.bet_amount t
           = Py.py_round (Qmin (bankroll * (gap / 100) * kelly_fraction)
                               (bankroll * (20 # 100))) 2)
  /\ 10 <= Bots.Trade.bet_amount t
  /\ Bots.Trade.bet_amount t <= bankroll * (20 # 100) + (1 # 200)
  /\ (Bots.Trade.confidence t = "HIGH" /\ 10 <= gap
      \/ Bots.Trade.confidence t = "MEDIUM" /\ gap <= 10)
  /\ (exists d,
        Bots.Trade.arb_detail t = Some d
        /\ Bots.ArbDetail.spread d = Py.py_round gap 1
        /\ arb_legs pm km d (Bots.Trade.url t)
        /\ Bots.Trade.platform t
           = (Bots.ArbDetail.buy_platform d ++ " → " ++ Bots.ArbDetail.sell_platform d)%string
        /\ Bots.Trade.source t
           = (Bots.ArbDetail.buy_platform d ++ " vs " ++ Bots.ArbDetail.sell_platform d)%string).

(** What every proposal of the arbitrage strategy satisfies, for the
    parameters, the bankroll and the two market lists it was computed
    from. *)
Definition arb_proposal_ok (params : gmap string Q) (bankroll : Q)
    (poly_markets : list Arbitrage.PolyMarket.t) (kalshi_markets : list Bots.Market.t)
    (t : Bots.Trade.t) : Prop :=
  exists pm km,
    In pm poly_markets /\ In km kalshi_markets
    /\ Arbitrage.PolyMarket.active pm = true
    /\ Arbitrage.PolyMarket.closed pm = false
    /\ Strategy.is_tradeable (Arbitrage.PolyMarket.market pm) = true
    /\ Strategy.is_tradeable km = true
    /\ 1 # 2 <= Strategy.keyword_overlap
                  (Bots.normalize_title
                     (Bots.Market.title (Arbitrage.PolyMarket.market pm)))
                  (Bots.normalize_title (Bots.Market.title km))
    /\ 5 <= Bots.Trade.market_price t /\ Bots.Trade.market_price t <= 95
    /\ 5 <= Bots.Trade.estimated_prob t /\ Bots.Trade.estimated_prob t <= 95
    /\ arb_fields params bankroll (Arbitrage.PolyMarket.market pm) km t.

(** The edge of a proposal is the rounded distance between its two
    prices. *)
Definition edge_of_prices (t : Bots.Trade.t) : Prop :=
  Bots.Trade.edge_pp t
  = Py.py_round (Qabs (Bots.Trade.market_price t - Bots.Trade.estimated_prob t)) 1.

(** The list is in the order of falling [edge_pp]. *)
Fixpoint ranked_by_edge (trades : list Bots.Trade.t) : Prop :=
  match trades with
  | [] => True
  | t :: rest =>
      List.Forall (fun u => Bots.Trade.edge_pp u <= Bots.Trade.edge_pp t) rest
      /\ ranked_by_edge rest
  end.

(** A bot with the parameters of the arbitrage bot of [BOTS], and one market
    listed on both venues. *)
Definition arb_bot : Bots.Bot.t :=
  {| Bots.Bot.id := "mako";
     Bots.Bot.name := "Mako the Shark";
     Bots.Bot.strategy := "cross_platform_arb";
     Bots.Bot.keys :=
       ["id"; "name"; "animal"; "emoji"; "title"; "personality"; "strategy";
        "strategy_name"; "strategy_desc"; "params"; "color"; "accent"];
     Bots.Bot.max_positions := Some 8%Z;
     Bots.Bot.params :=
       <["min_spread" := 5]>
         (<["kelly_fraction" := 1 # 2]> {[ "min_volume" := 20000 ]}) |}.

Definition fed_on_polymarket : Arbitrage.PolyMarket.t :=
  {| Arbitrage.PolyMarket.market := test_market "Will the Fed cut rates in March?" 60;
     Arbitrage.PolyMarket.active := true;
     Arbitrage.PolyMarket.closed := false |}.

Definition fed_on_kalshi : Bots.Market.t := test_market "Fed cut rates March" 50.

(** * [api/bots.py]: the high-conviction strategy *)

Module Conviction.

Section Strategy.
(** What the rounding residues of [kelly_size] decide at a tie. *)
Variable tie_side : Q -> Q -> option bool.
(** [format(x, spec)] of a number, as the f-strings call it. *)
Variable format_float : string -> Q -> string.

(** Lines 623-648: the body of the loop for one market.  [Ok None] is
    [continue]. *)
Definition consider (params : gmap string Q) (bankroll : Q) (mkt : Bots.Market.t)
  : Py.exc (option Bots.Trade.t) :=
  if negb (Strategy.is_tradeable mkt) then Py.Ok None
  else
    match Strategy.find_reference (Bots.Market.title mkt) with
    | None => Py.Ok None
    | Some ref =>
        let edge_pp := Qabs (Bots.Market.yes_pct mkt - Strategy.Reference.prob ref) in
        match Arbitrage.getitem params "min_edge" with
        | Py.Raise => Py.Raise
        | Py.Ok min_edge =>
            if Py.Qltb edge_pp min_edge then Py.Ok None
            else
              match Arbitrage.getitem params "min_volume" with
              | Py.Raise => Py.Raise
              | Py.Ok min_volume =>
                  if Py.Qltb (Bots.Market.volume mkt) min_volume then Py.Ok None
                  else
                    let ref_prob := Strategy.Reference.prob ref / 100 in
                    let market_price := Bots.Market.yes_pct mkt / 100 in
                    match Arbitrage.getitem params "kelly_fraction" with
                    | Py.Raise => Py.Raise
                    | Py.Ok kelly_fraction =>
                        let '(bet_amount, direction) :=
                          Bots.kelly_size tie_side ref_prob market_price bankroll kelly_fraction in
                        if Py.Qltb bet_amount 50 then Py.Ok None
                        else
                          let is_underpriced :=
                            Py.Qltb (Bots.Market.yes_pct mkt)
                                    (Strategy.Reference.prob ref) in
                          Py.Ok (Some
                            {| Bots.Trade.market := Bots.Market.title mkt;
                               Bots.Trade.platform := Bots.Market.platform mkt;
                               Bots.Trade.url := Bots.Market.url mkt;
                               Bots.Trade.category := Bots.Market.category mkt;
                               Bots.Trade.direction :=
                                 match direction with
                                 | Some d => d
                                 | None =>
                                     if is_underpriced then Bots.BUY_YES
                                     else Bots.BUY_NO
                                 end;
                               Bots.Trade.market_price := Bots.Market.yes_pct mkt;
                               Bots.Trade.estimated_prob := Strategy.Reference.prob ref;
                               Bots.Trade.edge_pp := Py.py_round edge_pp 1;
                               Bots.Trade.bet_amount := Py.py_round bet_amount 2;
                               Bots.Trade.kelly_fraction := kelly_fraction;
                               Bots.Trade.source := Strategy.Reference.source ref;
                               Bots.Trade.rationale :=
                                 "MASSIVE EDGE: " ++ format_float ".0f" edge_pp
                                 ++ "pp between market ("
                                 ++ format_float ".0f" (Bots.Market.yes_pct mkt)
                                 ++ "%) and reference ("
                                 ++ format_float "" (Strategy.Reference.prob ref)
                                 ++ "%). This is the kind of trade you SIZE UP on. Full Kelly. $"
                                 ++ format_float ",.0f" bet_amount
                                 ++ " on the line. "
                                 ++ (if is_underpriced
                                     then "The market is sleeping on this — buying YES hard."
                                     else "The crowd is way too bullish — fading this with conviction.")
                                 ++ " Volume $"
                                 ++ format_float ",.0f" (Bots.Market.volume mkt)
                                 ++ " means we can get filled. LET'S GO.";
                               Bots.Trade.confidence := "MAXIMUM";
                               Bots.Trade.arb_detail := None |})
                    end
              end
        end
    end.

(** Lines 622-648: the loop over [markets]; the result is [trades]. *)
Fixpoint consider_all (params : gmap string Q) (bankroll : Q)
    (markets : list Bots.Market.t) : Py.exc (list Bots.Trade.t) :=
  match markets with
  | [] => Py.Ok []
  | mkt :: rest =>
      match consider params bankroll mkt with
      | Py.Raise => Py.Raise
      | Py.Ok found =>
          match consider_all params bankroll rest with
          | Py.Raise => Py.Raise
          | Py.Ok more =>
              Py.Ok (match found with Some t => t :: more | None => more end)
          end
      end
  end.

Definition strategy_high_conviction (bot : Bots.Bot.t)
    (markets poly_markets kalshi_markets : list Bots.Market.t)
    (state : Bots.BotState.t) : Py.exc (list Bots.Trade.t) :=
  match consider_all (Bots.Bot.params bot) (Bots.BotState.bankroll state) markets with
  | Py.Raise => Py.Raise
  | Py.Ok trades =>
      let trades := Arbitrage.sort_by_edge trades in
      match Bots.Bot.max_positions bot with
      | None => Py.Raise
      | Some max_positions => Py.Ok (Arbitrage.slice_to max_positions trades)
      end
  end.
End Strategy.

End Conviction.

(** A bot with the parameters of the high-conviction bot of [BOTS], and a
    market the reference table knows. *)
Definition conviction_bot : Bots.Bot.t :=
  {| Bots.Bot.id := "pepper";
     Bots.Bot.name := "Pepper the Honeybadger";
     Bots.Bot.strategy := "high_conviction";
     Bots.Bot.keys :=
       ["id"; "name"; "animal"; "emoji"; "title"; "personality"; "strategy";
        "strategy_name"; "strategy_desc"; "params"; "color"; "accent"];
     Bots.Bot.max_positions := Some 3%Z;
     Bots.Bot.params :=
       <["min_edge" := 15]>
         (<["kelly_fraction" := 1]> {[ "min_volume" := 100000 ]}) |}.

Definition fed_hold_market : Bots.Market.t :=
  {| Bots.Market.platform := "Polymarket";
     Bots.Market.title := "Will the Fed hold rates in March?";
     Bots.Market.event_title := "";
     Bots.Market.ticker := "";
     Bots.Market.yes_pct := 60;
     Bots.Market.volume := 200000;
     Bots.Market.volume_24hr := 0;
     Bots.Market.liquidity := 0;
     Bots.Market.end_date := "";
     Bots.Market.category := "Economics";
     Bots.Market.url := "https://example.com" |}.

(** * [api/bots.py]: the strategies that follow one market list *)

Module StrategyLoop.

(** Sequencing of statements that may raise. *)
Definition bind {A B : Type} (m : Py.exc A) (k : A -> Py.exc B) : Py.exc B :=
  match m with
  | Py.Ok a => k a
  | Py.Raise => Py.Raise
  end.

(** [for x in l: ...] where the body appends one proposal to [trades]
    ([Ok (Some t)]), goes on to the next element ([Ok None]) or raises. *)
Fixpoint collect {A : Type} (body : A -> Py.exc (option Bots.Trade.t)) (l : list A)
  : Py.exc (list Bots.Trade.t) :=
  match l with
  | [] => Py.Ok []
  | x :: rest =>
      bind (body x) (fun found =>
      bind (collect body rest) (fun more =>
      Py.Ok (match found with Some t => t :: more | None => more end)))
  end.

(** The last two lines of a strategy:
    [trades.sort(key=lambda t: -t["edge_pp"])] and
    [return trades[:params["max_positions"]]]. *)
Definition best (bot : Bots.Bot.t) (trades : list Bots.Trade.t)
  : Py.exc (list Bots.Trade.t) :=
  let trades := Arbitrage.sort_by_edge trades in
  match Bots.Bot.max_positions bot with
  | None => Py.Raise
  | Some max_positions => Py.Ok (Arbitrage.slice_to max_positions trades)
  end.

(** Truth value of a string. *)
Definition nonempty (s : string) : bool :=
  match s with
  | EmptyString => false
  | String _ _ => true
  end.

End StrategyLoop.

Notation "'let*' x ':=' m 'in' k" := (StrategyLoop.bind m (fun x => k))
  (at level 10, x name, m at level 100, k at level 200, only parsing).

(** ** [strategy_contrarian_value] *)

Module Contrarian.

Section Strategy.
(** What the rounding residues of [kelly_size] decide at a tie. *)
Variable tie_side : Q -> Q -> option bool.
(** [format(x, spec)] of a number, as the f-strings call it. *)
Variable format_float : string -> Q -> string.
(** Lines 458-459: the days from now to the end date; [Raise] when the date
    does not parse or cannot be compared with the clock. *)
Variable days_left : string -> Py.exc Q.

(** Lines 444-477: the body of the loop for one market. *)
Definition consider (params : gmap string Q) (bankroll : Q) (mkt : Bots.Market.t)
  : Py.exc (option Bots.Trade.t) :=
  if negb (Strategy.is_tradeable mkt) then Py.Ok None
  else
    match Strategy.find_reference (Bots.Market.title mkt) with
    | None => Py.Ok None
    | Some ref =>
        let market_price := Bots.Market.yes_pct mkt / 100 in
        let ref_prob := Strategy.Reference.prob ref / 100 in
        let edge_pp := Qabs (Bots.Market.yes_pct mkt - Strategy.Reference.prob ref) in
        let* min_edge := Arbitrage.getitem params "min_edge" in
        if Py.Qltb edge_pp min_edge then Py.Ok None
        else
          let* min_volume := Arbitrage.getitem params "min_volume" in
          if Py.Qltb (Bots.Market.volume mkt) min_volume then Py.Ok None
          else
            let too_close :=
              if StrategyLoop.nonempty (Bots.Market.end_date mkt)
              then match days_left (Bots.Market.end_date mkt) with
                   | Py.Ok days =>
                       Py.Qltb days (default 7 (params !! "min_days_to_expiry"))
                   | Py.Raise => false
                   end
              else false in
            if too_close then Py.Ok None
            else
              let* kelly_fraction := Arbitrage.getitem params "kelly_fraction" in
              let '(bet_amount, direction) :=
                Bots.kelly_size tie_side ref_prob market_price bankroll kelly_fraction in
              if Py.Qltb bet_amount 10 then Py.Ok None
              else
                let is_underpriced :=
                  Py.Qltb (Bots.Market.yes_pct mkt) (Strategy.Reference.prob ref) in
                Py.Ok (Some
                  {| Bots.Trade.market := Bots.Market.title mkt;
                     Bots.Trade.platform := Bots.Market.platform mkt;
                     Bots.Trade.url := Bots.Market.url mkt;
                     Bots.Trade.category := Bots.Market.category mkt;
                     Bots.Trade.direction :=
                       if is_underpriced then Bots.BUY_YES else Bots.BUY_NO;
                     Bots.Trade.market_price := Bots.Market.yes_pct mkt;
                     Bots.Trade.estimated_prob := Strategy.Reference.prob ref;
                     Bots.Trade.edge_pp := Py.py_round edge_pp 1;
                     Bots.Trade.bet_amount := Py.py_round bet_amount 2;
                     Bots.Trade.kelly_fraction := kelly_fraction;
                     Bots.Trade.source := Strategy.Reference.source ref;
                     Bots.Trade.rationale :=
                       "Market prices this at "
                       ++ format_float ".0f" (Bots.Market.yes_pct mkt)
                       ++ "% but " ++ Strategy.Reference.source ref ++ " suggests "
                       ++ format_float "" (Strategy.Reference.prob ref)
                       ++ "%. That's a " ++ format_float ".0f" edge_pp ++ "pp edge. "
                       ++ (if is_underpriced
                           then "Buying YES — the market is undervaluing this outcome."
                           else "Buying NO — the market is overvaluing this outcome.")
                       ++ " Volume ($" ++ format_float ",.0f" (Bots.Market.volume mkt)
                       ++ ") is adequate for execution. Using "
                       ++ format_float ".0f" (kelly_fraction * 100)
                       ++ "% Kelly sizing for downside protection.";
                     Bots.Trade.confidence :=
                       if Qle_bool 12 edge_pp then "HIGH" else "MEDIUM";
                     Bots.Trade.arb_detail := None |})
    end.

Definition strategy_contrarian_value (bot : Bots.Bot.t)
    (markets poly_markets kalshi_markets : list Bots.Market.t)
    (state : Bots.BotState.t) : Py.exc (list Bots.Trade.t) :=
  let* trades :=
    StrategyLoop.collect
      (consider (Bots.Bot.params bot) (Bots.BotState.bankroll state)) markets in
  StrategyLoop.best bot trades.
End Strategy.

End Contrarian.

(** ** [strategy_momentum_narrative] *)

Module Momentum.

Section Strategy.
(** What the rounding residues of [kelly_size] decide at a tie. *)
Variable tie_side : Q -> Q -> option bool.
Variable format_float : string -> Q -> string.
(** [str(n)] of an integer. *)
Variable format_int : Z -> string.

(** Lines 539-573: the body of the loop for one Polymarket market. *)
Definition consider (params : gmap string Q) (bankroll : Q)
    (pm : Arbitrage.PolyMarket.t) : Py.exc (option Bots.Trade.t) :=
  let mkt := Arbitrage.PolyMarket.market pm in
  if Arbitrage.PolyMarket.closed pm || negb (Arbitrage.PolyMarket.active pm)
  then Py.Ok None
  else if negb (Strategy.is_tradeable mkt) then Py.Ok None
  else
    let* min_volume_24h := Arbitrage.getitem params "min_volume_24h" in
    if Py.Qltb (Bots.Market.volume_24hr mkt) min_volume_24h then Py.Ok None
    else if Qle_bool (Bots.Market.volume mkt) 0 then Py.Ok None
    else if Py.Qltb (Bots.Market.volume mkt * (3 # 2)) (Bots.Market.volume_24hr mkt)
    then Py.Ok None
    else if Py.Qltb (Bots.Market.volume mkt) 50000 then Py.Ok None
    else
      let surge_ratio :=
        if Py.Qltb 0 (Bots.Market.volume mkt)
        then Bots.Market.volume_24hr mkt / Bots.Market.volume mkt
        else 0 in
      if Py.Qltb surge_ratio (2 # 100) then Py.Ok None
      else
        match Strategy.find_reference (Bots.Market.title mkt) with
        | None => Py.Ok None
        | Some ref =>
            let edge_pp :=
              Qabs (Bots.Market.yes_pct mkt - Strategy.Reference.prob ref) in
            let* min_edge := Arbitrage.getitem params "min_edge" in
            if Py.Qltb edge_pp min_edge then Py.Ok None
            else
              let est_prob := Strategy.Reference.prob ref / 100 in
              let* kelly_fraction := Arbitrage.getitem params "kelly_fraction" in
              let '(bet_amount, direction) :=
                Bots.kelly_size tie_side est_prob (Bots.Market.yes_pct mkt / 100) bankroll
                                kelly_fraction in
              if Py.Qltb bet_amount 10 then Py.Ok None
              else
                Py.Ok (Some
                  {| Bots.Trade.market := Bots.Market.title mkt;
                     Bots.Trade.platform := Bots.Market.platform mkt;
                     Bots.Trade.url := Bots.Market.url mkt;
                     Bots.Trade.category := Bots.Market.category mkt;
                     Bots.Trade.direction := default Bots.BUY_YES direction;
                     Bots.Trade.market_price := Bots.Market.yes_pct mkt;
                     Bots.Trade.estimated_prob := Strategy.Reference.prob ref;
                     Bots.Trade.edge_pp := Py.py_round edge_pp 1;
                     Bots.Trade.bet_amount := Py.py_round bet_amount 2;
                     Bots.Trade.kelly_fraction := kelly_fraction;
                     Bots.Trade.source :=
                       "Volume surge: $"
                       ++ format_float ",.0f" (Bots.Market.volume_24hr mkt)
                       ++ " in 24h (" ++ format_float ".1f" (surge_ratio * 100)
                       ++ "% of total)";
                     Bots.Trade.rationale :=
                       "Volume surge detected: $"
                       ++ format_float ",.0f" (Bots.Market.volume_24hr mkt)
                       ++ " traded in the last 24h ("
                       ++ format_float ".1f" (surge_ratio * 100)
                       ++ "% of all-time volume). Reference data from "
                       ++ Strategy.Reference.source ref ++ " suggests "
                       ++ format_float "" (Strategy.Reference.prob ref)
                       ++ "% vs market at "
                       ++ format_int (Py.round_half_even (Bots.Market.yes_pct mkt))
                       ++ "%. When volume spikes like this, the market is repricing in real-time. Getting ahead of the crowd.";
                     Bots.Trade.confidence :=
                       if Qle_bool 8 edge_pp || Qle_bool (5 # 100) surge_ratio
                       then "HIGH" else "MEDIUM";
                     Bots.Trade.arb_detail := None |})
        end.

Definition strategy_momentum_narrative (bot : Bots.Bot.t)
    (poly_markets : list Arbitrage.PolyMarket.t) (state : Bots.BotState.t)
  : Py.exc (list Bots.Trade.t) :=
  let* trades :=
    StrategyLoop.collect
      (consider (Bots.Bot.params bot) (Bots.BotState.bankroll state))
      poly_markets in
  StrategyLoop.best bot trades.
End Strategy.

End Momentum.

(** ** [strategy_statistical_value] *)

Module Statistical.

Section Strategy.
(** What the rounding residues of [kelly_size] decide at a tie. *)
Variable tie_side : Q -> Q -> option bool.
Variable format_float : string -> Q -> string.
(** Lines 594-595: the days from now to the end date; [Raise] when the date
    does not parse or cannot be compared with the clock. *)
Variable days_left : string -> Py.exc Q.

(** Lines 582-615: the body of the loop for one market. *)
Definition consider (params : gmap string Q) (bankroll : Q) (mkt : Bots.Market.t)
  : Py.exc (option Bots.Trade.t) :=
  if negb (Strategy.is_tradeable mkt) then Py.Ok None
  else
    match Strategy.find_reference (Bots.Market.title mkt) with
    | None => Py.Ok None
    | Some ref =>
        let edge_pp := Qabs (Bots.Market.yes_pct mkt - Strategy.Reference.prob ref) in
        let* min_edge := Arbitrage.getitem params "min_edge" in
        if Py.Qltb edge_pp min_edge then Py.Ok None
        else
          let* min_volume := Arbitrage.getitem params "min_volume" in
          if Py.Qltb (Bots.Market.volume mkt) min_volume then Py.Ok None
          else
            let too_close :=
              if StrategyLoop.nonempty (Bots.Market.end_date mkt)
              then match days_left (Bots.Market.end_date mkt) with
                   | Py.Ok days =>
                       Py.Qltb days (default 14 (params !! "min_days_to_expiry"))
                   | Py.Raise => false
                   end
              else false in
            if too_close then Py.Ok None
            else
              let ref_prob := Strategy.Reference.prob ref / 100 in
              let market_price := Bots.Market.yes_pct mkt / 100 in
              let* kelly_fraction := Arbitrage.getitem params "kelly_fraction" in
              let '(bet_amount, direction) :=
                Bots.kelly_size tie_side ref_prob market_price bankroll kelly_fraction in
              if Py.Qltb bet_amount 10 then Py.Ok None
              else
                let is_underpriced :=
                  Py.Qltb (Bots.Market.yes_pct mkt) (Strategy.Reference.prob ref) in
                Py.Ok (Some
                  {| Bots.Trade.market := Bots.Market.title mkt;
                     Bots.Trade.platform := Bots.Market.platform mkt;
                     Bots.Trade.url := Bots.Market.url mkt;
                     Bots.Trade.category := Bots.Market.category mkt;
                     Bots.Trade.direction :=
                       match direction with
                       | Some d => d
                       | None => if is_underpriced then Bots.BUY_YES else Bots.BUY_NO
                       end;
                     Bots.Trade.market_price := Bots.Market.yes_pct mkt;
                     Bots.Trade.estimated_prob := Strategy.Reference.prob ref;
                     Bots.Trade.edge_pp := Py.py_round edge_pp 1;
                     Bots.Trade.bet_amount := Py.py_round bet_amount 2;
                     Bots.Trade.kelly_fraction := kelly_fraction;
                     Bots.Trade.source := Strategy.Reference.source ref;
                     Bots.Trade.rationale :=
                       "Bayesian analysis: Prior from " ++ Strategy.Reference.source ref
                       ++ " = " ++ format_float "" (Strategy.Reference.prob ref)
                       ++ "%. Market likelihood = "
                       ++ format_float ".0f" (Bots.Market.yes_pct mkt)
                       ++ "%. The " ++ format_float ".0f" edge_pp
                       ++ "pp divergence exceeds my 10pp threshold. Historical base rates for similar events support the reference estimate. "
                       ++ (if is_underpriced
                           then "The market appears to be discounting information that base rates clearly support."
                           else "The market is pricing in too much certainty relative to historical precedent.")
                       ++ " Using conservative 20% Kelly — discipline over conviction.";
                     Bots.Trade.confidence :=
                       if Qle_bool 15 edge_pp then "HIGH" else "MEDIUM";
                     Bots.Trade.arb_detail := None |})
    end.

Definition strategy_statistical_value (bot : Bots.Bot.t)
    (markets poly_markets kalshi_markets : list Bots.Market.t)
    (state : Bots.BotState.t) : Py.exc (list Bots.Trade.t) :=
  let* trades :=
    StrategyLoop.collect
      (consider (Bots.Bot.params bot) (Bots.BotState.bankroll state)) markets in
  StrategyLoop.best bot trades.
End Strategy.

End Statistical.

(** ** [strategy_tail_risk] *)

Module TailRisk.

Section Strategy.
(** What the rounding residues of [kelly_size] decide at a tie. *)
Variable tie_side : Q -> Q -> option bool.
Variable format_float : string -> Q -> string.

(** Lines 663-671: [edge_pp] and [est_prob] of a long shot; [Ok None] is
    [continue]. *)
Definition low_estimate (params : gmap string Q) (ref : option Strategy.Reference.t)
    (yes_pct : Q) : Py.exc (option (Q * Q)) :=
  match ref with
  | Some ref =>
      let* min_mispricing := Arbitrage.getitem params "min_mispricing" in
      if Py.Qltb (yes_pct + min_mispricing) (Strategy.Reference.prob ref)
      then Py.Ok (Some (Strategy.Reference.prob ref - yes_pct,
                        Strategy.Reference.prob ref / 100))
      else Py.Ok None
  | None => Py.Ok (Some (5, (yes_pct + 5) / 100))
  end.

(** Lines 687-695: the same for a market priced as near-certain. *)
Definition high_estimate (params : gmap string Q) (ref : option Strategy.Reference.t)
    (yes_pct : Q) : Py.exc (option (Q * Q)) :=
  match ref with
  | Some ref =>
      let* min_mispricing := Arbitrage.getitem params "min_mispricing" in
      if Py.Qltb (Strategy.Reference.prob ref) (yes_pct - min_mispricing)
      then Py.Ok (Some (yes_pct - Strategy.Reference.prob ref,
                        Strategy.Reference.prob ref / 100))
      else Py.Ok None
  | None => Py.Ok (Some (5, (yes_pct - 5) / 100))
  end.

(** Lines 675-685 and 699-709: the proposal, but for its direction and its
    rationale. *)
Definition proposal (mkt : Bots.Market.t) (ref : option Strategy.Reference.t)
    (direction : Bots.direction) (edge_pp est_prob bet_amount kelly_fraction : Q)
    (rationale : string) : Bots.Trade.t :=
  {| Bots.Trade.market := Bots.Market.title mkt;
     Bots.Trade.platform := Bots.Market.platform mkt;
     Bots.Trade.url := Bots.Market.url mkt;
     Bots.Trade.category := Bots.Market.category mkt;
     Bots.Trade.direction := direction;
     Bots.Trade.market_price := Bots.Market.yes_pct mkt;
     Bots.Trade.estimated_prob :=
       match ref with
       | Some ref => Strategy.Reference.prob ref
       | None => Py.py_round (est_prob * 100) 1
       end;
     Bots.Trade.edge_pp := Py.py_round edge_pp 1;
     Bots.Trade.bet_amount := Py.py_round bet_amount 2;
     Bots.Trade.kelly_fraction := kelly_fraction;
     Bots.Trade.source :=
       match ref with
       | Some ref => Strategy.Reference.source ref
       | None => "Tail risk premium model"
       end;
     Bots.Trade.rationale := rationale;
     Bots.Trade.confidence :=
       match ref with
       | None => "LOW"
       | Some _ => "MEDIUM"
       end;
     Bots.Trade.arb_detail := None |}.

(** Lines 663-685: the long shot. *)
Definition long_shot (params : gmap string Q) (bankroll : Q) (mkt : Bots.Market.t)
    (ref : option Strategy.Reference.t) : Py.exc (option Bots.Trade.t) :=
  let yes_pct := Bots.Market.yes_pct mkt in
  let* estimate := low_estimate params ref yes_pct in
  match estimate with
  | None => Py.Ok None
  | Some (edge_pp, est_prob) =>
      let* kelly_fraction := Arbitrage.getitem params "kelly_fraction" in
      let '(bet_amount, direction) :=
        Bots.kelly_size tie_side est_prob (yes_pct / 100) bankroll kelly_fraction in
      if Py.Qltb bet_amount 5 then Py.Ok None
      else
        Py.Ok (Some (proposal mkt ref Bots.BUY_YES edge_pp est_prob bet_amount
                       kelly_fraction
                       ("Long shot at " ++ format_float ".0f" yes_pct ++ "%. "
                        ++ match ref with
                           | Some ref =>
                               "Reference suggests "
                               ++ format_float "" (Strategy.Reference.prob ref)
                               ++ "% — significantly higher."
                           | None => "Markets systematically underprice tail events."
                           end
                        ++ " Buying YES at " ++ format_float ".0f" yes_pct
                        ++ "¢ means risking " ++ format_float ".0f" yes_pct
                        ++ "¢ to win " ++ format_float ".0f" (100 - yes_pct)
                        ++ "¢. That's a "
                        ++ format_float ".1f" ((100 - yes_pct) / yes_pct)
                        ++ "x payoff. Using small size (10% Kelly) because most long shots don't hit — but when they do, the asymmetry is powerful.")))
  end.

(** Lines 687-709: the near-certainty. *)
Definition near_certain (params : gmap string Q) (bankroll : Q) (mkt : Bots.Market.t)
    (ref : option Strategy.Reference.t) : Py.exc (option Bots.Trade.t) :=
  let yes_pct := Bots.Market.yes_pct mkt in
  let* estimate := high_estimate params ref yes_pct in
  match estimate with
  | None => Py.Ok None
  | Some (edge_pp, est_prob) =>
      let* kelly_fraction := Arbitrage.getitem params "kelly_fraction" in
      let '(bet_amount, direction) :=
        Bots.kelly_size tie_side (1 - est_prob) ((100 - yes_pct) / 100) bankroll
                        kelly_fraction in
      if Py.Qltb bet_amount 5 then Py.Ok None
      else
        Py.Ok (Some (proposal mkt ref Bots.BUY_NO edge_pp est_prob bet_amount
                       kelly_fraction
                       ("Market at " ++ format_float ".0f" yes_pct
                        ++ "% — priced as near-certain. "
                        ++ match ref with
                           | Some ref =>
                               "But reference suggests only "
                               ++ format_float "" (Strategy.Reference.prob ref)
                               ++ "%."
                           | None => "Markets systematically overprice near-certainties."
                           end
                        ++ " Buying NO at " ++ format_float ".0f" (100 - yes_pct)
                        ++ "¢ to capture the tail risk premium. If the upset happens, this pays "
                        ++ format_float ".0f" yes_pct ++ "¢ on a "
                        ++ format_float ".0f" (100 - yes_pct)
                        ++ "¢ investment. The world is more uncertain than "
                        ++ format_float ".0f" yes_pct ++ "% implies.")))
  end.

(** Lines 656-709: the body of the loop for one market.  The chained
    comparison [2 <= yes_pct <= params["low_threshold"]] reads the threshold
    only when its first half holds. *)
Definition consider (params : gmap string Q) (bankroll : Q) (mkt : Bots.Market.t)
  : Py.exc (option Bots.Trade.t) :=
  if negb (Strategy.is_tradeable mkt) then Py.Ok None
  else
    let* min_volume := Arbitrage.getitem params "min_volume" in
    if Py.Qltb (Bots.Market.volume mkt) min_volume then Py.Ok None
    else
      let ref := Strategy.find_reference (Bots.Market.title mkt) in
      let yes_pct := Bots.Market.yes_pct mkt in
      let* is_low :=
        if Qle_bool 2 yes_pct
        then let* low_threshold := Arbitrage.getitem params "low_threshold" in
             Py.Ok (Qle_bool yes_pct low_threshold)
        else Py.Ok false in
      if is_low then long_shot params bankroll mkt ref
      else
        let* high_threshold := Arbitrage.getitem params "high_threshold" in
        if Qle_bool high_threshold yes_pct then near_certain params bankroll mkt ref
        else Py.Ok None.

Definition strategy_tail_risk (bot : Bots.Bot.t)
    (markets poly_markets kalshi_markets : list Bots.Market.t)
    (state : Bots.BotState.t) : Py.exc (list Bots.Trade.t) :=
  let* trades :=
    StrategyLoop.collect
      (consider (Bots.Bot.params bot) (Bots.BotState.bankroll state)) markets in
  StrategyLoop.best bot trades.
End Strategy.

End TailRisk.

(** * [guess_category], the same in [api/bots.py] and [api/scanner.py] *)

Module Category.

(** [any(w in t for w in words)] *)
Definition any_in (words : list string) (t : string) : bool :=
  existsb (fun w => Strategy.str_in w t) words.

Definition politics : list string :=
  ["election"; "trump"; "democrat"; "republican"; "house"; "senate"; "congress";
   "president"; "governor"; "vote"; "impeach"; "nominate"; "fed chair"].

Definition economics : list string :=
  ["fed"; "rate"; "inflation"; "cpi"; "gdp"; "recession"; "unemployment";
   "bitcoin"; "crypto"; "s&p"; "stock"; "gold"; "tariff"].

Definition geopolitics : list string :=
  ["war"; "ceasefire"; "ukraine"; "russia"; "china"; "taiwan"; "iran"; "strike";
   "nuclear"; "nato"; "invasion"; "khamenei"].

Definition sports : list string :=
  ["nba"; "nfl"; "mlb"; "nhl"; "f1"; "formula"; "premier league";
   "champions league"; "world cup"; "march madness"; "ncaa"; "pga"; "masters";
   "super bowl"; "arsenal"; "manchester"].

Definition tech : list string :=
  ["ai"; "gpt"; "claude"; "gemini"; "openai"; "anthropic"; "google"; "spacex";
   "tesla"; "nvidia"; "apple"; "ipo"; "tech"].

Definition entertainment : list string :=
  ["oscar"; "grammy"; "emmy"; "box office"; "movie"; "film"; "actor"; "actress";
   "director"].

Definition guess_category (title : string) : string :=
  let t := Py.str_lower title in
  if any_in politics t then "Politics"
  else if any_in economics t then "Economics"
  else if any_in geopolitics t then "Geopolitics"
  else if any_in sports t then "Sports"
  else if any_in tech t then "Tech"
  else if any_in entertainment t then "Entertainment"
  else "Other".

End Category.

(** * [api/bots.py]: the engine on the records it is handed *)

(** The records of [Bots] hold a string under ["title"] and a number under
    ["bankroll"].  [fetch_kalshi_markets] stores [m.get("title", "")], which
    is [None] when the venue sends null, and a stored state is what the
    store returns.  This module runs the engine on such records: a method
    call on a title that is not a string raises, and so does
    [bot_state["bankroll"]] on a state without the key. *)

Module Raw.

Module Market.
(** [title_is_str] is false when ["title"] is [None]; the title of [market]
    is then never read. *)
Record t : Type := {
  market : Bots.Market.t;
  title_is_str : bool;
}.
End Market.

Module BotState.
(** [has_bankroll] is false when the key ["bankroll"] is missing; the
    bankroll of [state] is then never read. *)
Record t : Type := {
  state : Bots.BotState.t;
  has_bankroll : bool;
}.
End BotState.

Definition strategy_fn : Type :=
  Bots.Bot.t -> list Market.t -> list Market.t -> list Market.t -> BotState.t ->
  Py.exc (list Bots.Trade.t).

(** The receiver of [mkt["title"].strip()] and of
    [mkt.get("title", "").lower()]. *)
Definition title (mkt : Market.t) : Py.exc string :=
  if Market.title_is_str mkt then Py.Ok (Bots.Market.title (Market.market mkt))
  else Py.Raise.

(** [is_tradeable], lines 414-426. *)
Definition is_tradeable (mkt : Market.t) : Py.exc bool :=
  let price := Bots.Market.yes_pct (Market.market mkt) in
  if Py.Qltb price Bots.MIN_TRADEABLE_PRICE || Py.Qltb Bots.MAX_TRADEABLE_PRICE price
  then Py.Ok false
  else
    match title mkt with
    | Py.Raise => Py.Raise
    | Py.Ok title =>
        let title_lower := Py.str_lower title in
        if existsb (fun kw => Strategy.str_in kw title_lower) Strategy.esport_keywords
        then Py.Ok false
        else Py.Ok true
    end.

Section Engine.
Local Open Scope list_scope.

Variable md5_hexdigest : string -> string.
Variable now_iso : string.
Variable now_stamp : string.
Variable gap_error : Q -> Q -> comparison.
Variable STRATEGY_MAP : gmap string strategy_fn.

(** Lines 884-887: the first market with the position's title. *)
Fixpoint exact_match (pos_title_lower : string) (all_markets : list Market.t)
  : Py.exc (option Bots.Market.t) :=
  match all_markets with
  | [] => Py.Ok None
  | mkt :: rest =>
      match title mkt with
      | Py.Raise => Py.Raise
      | Py.Ok title =>
          if String.eqb (Py.str_lower (Py.str_strip title)) pos_title_lower
          then Py.Ok (Some (Market.market mkt))
          else exact_match pos_title_lower rest
      end
  end.

(** Lines 882-892: the body of the price-update loop, for one position. *)
Definition update_price (all_markets : list Market.t) (pos : Bots.Position.t)
  : Py.exc Bots.Position.t :=
  let pos_title_lower := Py.str_lower (Py.str_strip (Bots.Position.market pos)) in
  match exact_match pos_title_lower all_markets with
  | Py.Raise => Py.Raise
  | Py.Ok found => Py.Ok (Bots.mark gap_error found pos)
  end.

(** Lines 881-892: the loop over the positions. *)
Fixpoint update_prices (all_markets : list Market.t)
    (positions : list Bots.Position.t) : Py.exc (list Bots.Position.t) :=
  match positions with
  | [] => Py.Ok []
  | pos :: rest =>
      match update_price all_markets pos with
      | Py.Raise => Py.Raise
      | Py.Ok pos =>
          match update_prices all_markets rest with
          | Py.Raise => Py.Raise
          | Py.Ok rest => Py.Ok (pos :: rest)
          end
      end
  end.

(** Lines 835-955 for one bot.  Without the key ["bankroll"] line 870 raises
    at the first trade admitted, and line 924 raises when none is: no path
    reaches line 926. *)
Definition run_bot (bot : Bots.Bot.t) (strategy : strategy_fn)
    (all_markets poly_markets kalshi_markets : list Market.t)
    (bot_state : BotState.t)
  : Py.exc (Bots.BotState.t * list Bots.TradeRecord.t * Bots.BotResult.t) :=
  let proposed_trades :=
    Py.try_except
      (strategy bot all_markets poly_markets kalshi_markets bot_state) [] in
  if BotState.has_bankroll bot_state then
    let bot_state := BotState.state bot_state in
    let keys := Bots.existing_market_keys (Bots.BotState.positions bot_state) in
    let '(bot_state, executed_trades) :=
      Bots.execute_trades md5_hexdigest now_iso now_stamp
        bot keys proposed_trades bot_state [] in
    match update_prices all_markets (Bots.BotState.positions bot_state) with
    | Py.Raise => Py.Raise
    | Py.Ok positions =>
        Py.Ok (Bots.settle now_stamp bot bot_state executed_trades positions)
    end
  else Py.Raise.

Definition fresh_state : BotState.t :=
  {| BotState.state := Bots.fresh_state now_stamp;
     BotState.has_bankroll := true |}.

(** Lines 824-955: the loop over [BOTS]. *)
Fixpoint run_bots (bots : list Bots.Bot.t)
    (all_markets poly_markets kalshi_markets : list Market.t)
    (state : gmap string BotState.t) (bot_results : list Bots.BotResult.t)
    (new_trades : list Bots.TradeRecord.t)
  : Py.exc (gmap string BotState.t * list Bots.BotResult.t
            * list Bots.TradeRecord.t) :=
  match bots with
  | [] => Py.Ok (state, bot_results, new_trades)
  | bot :: rest =>
      let bot_state := default fresh_state (state !! Bots.Bot.id bot) in
      match STRATEGY_MAP !! Bots.Bot.strategy bot with
      | None =>
          run_bots rest all_markets poly_markets kalshi_markets
                   (<[Bots.Bot.id bot := bot_state]> state) bot_results new_trades
      | Some strategy =>
          match run_bot bot strategy all_markets poly_markets kalshi_markets
                        bot_state with
          | Py.Raise => Py.Raise
          | Py.Ok (bot_state, executed_trades, result) =>
              run_bots rest all_markets poly_markets kalshi_markets
                       (<[Bots.Bot.id bot :=
                            {| BotState.state := bot_state;
                               BotState.has_bankroll := true |}]> state)
                       (bot_results ++ [result])
                       (new_trades ++ executed_trades)
          end
      end
  end.

(** [run_bot_engine], from the point where the markets, the stored state
    and the stored trades have been read.  No statement of lines 824-973 is
    inside a [try] but the strategy call: an exception of the loop leaves
    the function.  A state the loop did not raise on has its bankroll. *)
Definition run_bot_engine (BOTS : list Bots.Bot.t)
    (poly_markets kalshi_markets : list Market.t)
    (state : gmap string BotState.t) (all_trades : list Bots.TradeRecord.t)
  : Py.exc Bots.EngineResult.t :=
  let all_markets := poly_markets ++ kalshi_markets in
  match run_bots BOTS all_markets poly_markets kalshi_markets state [] [] with
  | Py.Raise => Py.Raise
  | Py.Ok (state, bot_results, new_trades) =>
      Py.Ok (Bots.engine_result now_stamp poly_markets kalshi_markets all_trades
               (BotState.state <$> state, bot_results, new_trades))
  end.
End Engine.

End Raw.

(** A snapshot whose title is the string of [mkt], and one whose title is
    [None]. *)
Definition with_title (mkt : Bots.Market.t) : Raw.Market.t :=
  {| Raw.Market.market := mkt; Raw.Market.title_is_str := true |}.

Definition without_title (mkt : Bots.Market.t) : Raw.Market.t :=
  {| Raw.Market.market := mkt; Raw.Market.title_is_str := false |}.

(** A stored state with its bankroll. *)
Definition with_bankroll (bot_state : Bots.BotState.t) : Raw.BotState.t :=
  {| Raw.BotState.state := bot_state; Raw.BotState.has_bankroll := true |}.

(** What a strategy function does on records with string titles and a
    bankroll. *)
Definition on_typed_records (strategy : Raw.strategy_fn) : Bots.strategy_fn :=
  fun bot all_markets poly_markets kalshi_markets bot_state =>
    strategy bot (map with_title all_markets) (map with_title poly_markets)
      (map with_title kalshi_markets) (with_bankroll bot_state).

(** The search of [all_markets] for the title of [pos] comes to a snapshot
    whose title is [None] before it finds the title. *)
Definition meets_null_title (all_markets : list Raw.Market.t)
    (pos : Bots.Position.t) : Prop :=
  exists (before : list Bots.Market.t) (mkt : Raw.Market.t) (after : list Raw.Market.t),
    all_markets = (map with_title before ++ mkt :: after)%list
    /\ Raw.Market.title_is_str mkt = false
    /\ List.Forall (fun m => ~ same_title pos m) before.

(** A stored state on which the step of its bot cannot finish: it has no
    bankroll, or the price update of one of its positions meets a snapshot
    without a title. *)
Definition unfinishable (all_markets : list Raw.Market.t)
    (bot_state : Raw.BotState.t) : Prop :=
  Raw.BotState.has_bankroll bot_state = false
  \/ (exists pos,
        In pos (Bots.BotState.positions (Raw.BotState.state bot_state))
        /\ meets_null_title all_markets pos).

(** A strategy that, like the loops of the strategies, asks [is_tradeable]
    about the first market before anything else, and proposes nothing. *)
Definition screening_strategy : Raw.strategy_fn :=
  fun _ all_markets _ _ _ =>
    match all_markets with
    | [] => Py.Ok []
    | mkt :: _ =>
        match Raw.is_tradeable mkt with
        | Py.Raise => Py.Raise
        | Py.Ok _ => Py.Ok []
        end
    end.

(** What a proposal priced against the reference table satisfies, whichever
    strategy made it.  The market is tradeable and known to the table; the
    proposal copies the title, the venue, the link, the category and the
    price of the market and the probability of the reference; its edge is
    the distance between the price and that probability, rounded to one
    decimal; its stake is the stake of [kelly_size] for that probability,
    that price, the bankroll and the Kelly fraction of [params], rounded to
    cents, and lies between [floor] and the cap of [kelly_size]; and it buys
    the side the reference favours. *)
Definition reference_proposal_ok (tie_side : Q -> Q -> option bool)
    (floor bankroll : Q) (params : gmap string Q) (mkt : Bots.Market.t)
    (ref : Strategy.Reference.t) (t : Bots.Trade.t) : Prop :=
  Strategy.is_tradeable mkt = true
  /\ Strategy.find_reference (Bots.Market.title mkt) = Some ref
  /\ Bots.Trade.market t = Bots.Market.title mkt
  /\ Bots.Trade.platform t = Bots.Market.platform mkt
  /\ Bots.Trade.url t = Bots.Market.url mkt
  /\ Bots.Trade.category t = Bots.Market.category mkt
  /\ Bots.Trade.market_price t = Bots.Market.yes_pct mkt
  /\ Bots.Trade.estimated_prob t = Strategy.Reference.prob ref
  /\ Bots.Trade.edge_pp t
     = Py.py_round (Qabs (Bots.Market.yes_pct mkt - Strategy.Reference.prob ref)) 1
  /\ Bots.Trade.arb_detail t = None
  /\ (exists kelly_fraction,
        params !! "kelly_fraction" = Some kelly_fraction
        /\ Bots.Trade.kelly_fraction t = kelly_fraction
        /\ Bots.Trade.bet_amount t
           = Py.py_round
               (fst (Bots.kelly_size tie_side (Strategy.Reference.prob ref / 100)
                       (Bots.Market.yes_pct mkt / 100) bankroll kelly_fraction)) 2)
  /\ (Bots.Trade.direction t = Bots.BUY_YES
      /\ Bots.Trade.market_price t < Bots.Trade.estimated_prob t
      \/ Bots.Trade.direction t = Bots.BUY_NO
         /\ Bots.Trade.estimated_prob t < Bots.Trade.market_price t)
  /\ floor <= Bots.Trade.bet_amount t
  /\ Bots.Trade.bet_amount t <= kelly_cap bankroll.

(** The edge and the volume of the market reach [min_edge] and
    [min_volume]. *)
Definition passes_edge_and_volume (params : gmap string Q) (mkt : Bots.Market.t)
    (ref : Strategy.Reference.t) : Prop :=
  (exists min_edge,
     params !! "min_edge" = Some min_edge
     /\ min_edge <= Qabs (Bots.Market.yes_pct mkt - Strategy.Reference.prob ref))
  /\ (exists min_volume,
        params !! "min_volume" = Some min_volume
        /\ min_volume <= Bots.Market.volume mkt).

(** What every proposal of the high-conviction strategy satisfies, for the
    parameters, the bankroll and the market list it was computed from. *)
Definition conviction_proposal_ok (tie_side : Q -> Q -> option bool)
    (params : gmap string Q) (bankroll : Q) (markets : list Bots.Market.t)
    (t : Bots.Trade.t) : Prop :=
  exists mkt ref,
    In mkt markets
    /\ reference_proposal_ok tie_side 50 bankroll params mkt ref t
    /\ passes_edge_and_volume params mkt ref
    /\ Bots.Trade.source t = Strategy.Reference.source ref
    /\ 5 <= Bots.Trade.market_price t /\ Bots.Trade.market_price t <= 95
    /\ Bots.Trade.confidence t = "MAXIMUM".

(** The proposals of the contrarian and of the statistical strategy:
    [high_edge] is the edge from which the confidence is "HIGH",
    [default_days] the days to expiry asked for when [params] does not say. *)
Definition value_proposal_ok (tie_side : Q -> Q -> option bool)
    (high_edge default_days : Q) (params : gmap string Q)
    (days_left : string -> Py.exc Q) (bankroll : Q)
    (markets : list Bots.Market.t) (t : Bots.Trade.t) : Prop :=
  exists mkt ref,
    In mkt markets
    /\ reference_proposal_ok tie_side 10 bankroll params mkt ref t
    /\ passes_edge_and_volume params mkt ref
    /\ Bots.Trade.source t = Strategy.Reference.source ref
    /\ (let edge := Qabs (Bots.Market.yes_pct mkt - Strategy.Reference.prob ref) in
        Bots.Trade.confidence t = "HIGH" /\ high_edge <= edge
        \/ Bots.Trade.confidence t = "MEDIUM" /\ edge < high_edge)
    /\ (forall days,
          Bots.Market.end_date mkt <> ""
          -> days_left (Bots.Market.end_date mkt) = Py.Ok days
          -> default default_days (params !! "min_days_to_expiry") <= days).

(** The proposals of the momentum strategy. *)
Definition momentum_proposal_ok (tie_side : Q -> Q -> option bool)
    (format_float : string -> Q -> string) (params : gmap string Q) (bankroll : Q)
    (poly_markets : list Arbitrage.PolyMarket.t) (t : Bots.Trade.t) : Prop :=
  exists pm ref,
    In pm poly_markets
    /\ Arbitrage.PolyMarket.closed pm = false
    /\ Arbitrage.PolyMarket.active pm = true
    /\ reference_proposal_ok tie_side 10 bankroll params
         (Arbitrage.PolyMarket.market pm) ref t
    /\ (let mkt := Arbitrage.PolyMarket.market pm in
        let edge := Qabs (Bots.Market.yes_pct mkt - Strategy.Reference.prob ref) in
        let volume := Bots.Market.volume mkt in
        let volume_24hr := Bots.Market.volume_24hr mkt in
        50000 <= volume
        /\ volume_24hr <= volume * (3 # 2)
        /\ volume * (2 # 100) <= volume_24hr
        /\ (exists min_volume_24h,
              params !! "min_volume_24h" = Some min_volume_24h
              /\ min_volume_24h <= volume_24hr)
        /\ (exists min_edge, params !! "min_edge" = Some min_edge /\ min_edge <= edge)
        /\ Bots.Trade.source t
           = ("Volume surge: $" ++ format_float ",.0f" volume_24hr
              ++ " in 24h (" ++ format_float ".1f" (volume_24hr / volume * 100)
              ++ "% of total)")%string
        /\ (Bots.Trade.confidence t = "HIGH"
            /\ (8 <= edge \/ volume * (5 # 100) <= volume_24hr)
            \/ Bots.Trade.confidence t = "MEDIUM"
               /\ edge < 8 /\ volume_24hr < volume * (5 # 100))).

(** The estimate, the edge, the source, the confidence and the stake of a
    tail proposal.  [away prob] says that the reference is more than
    [min_mispricing] beyond the price on the side bought, [edge prob] is the
    distance from the price to the reference on that side, [moved] the price
    moved by 5 points to that side, and [stake est] the stake of
    [kelly_size] when the estimate is [est] percent. *)
Definition tail_estimate (params : gmap string Q) (ref : option Strategy.Reference.t)
    (away : Q -> Q -> Prop) (edge : Q -> Q) (moved : Q) (stake : Q -> Q)
    (t : Bots.Trade.t) : Prop :=
  match ref with
  | Some ref =>
      Bots.Trade.estimated_prob t = Strategy.Reference.prob ref
      /\ Bots.Trade.source t = Strategy.Reference.source ref
      /\ Bots.Trade.confidence t = "MEDIUM"
      /\ Bots.Trade.edge_pp t = Py.py_round (edge (Strategy.Reference.prob ref)) 1
      /\ Bots.Trade.bet_amount t
         = Py.py_round (stake (Strategy.Reference.prob ref / 100)) 2
      /\ exists min_mispricing,
           params !! "min_mispricing" = Some min_mispricing
           /\ away min_mispricing (Strategy.Reference.prob ref)
  | None =>
      Bots.Trade.estimated_prob t = Py.py_round moved 1
      /\ Bots.Trade.source t = "Tail risk premium model"
      /\ Bots.Trade.confidence t = "LOW"
      /\ Bots.Trade.edge_pp t = Py.py_round 5 1
      /\ Bots.Trade.bet_amount t = Py.py_round (stake (moved / 100)) 2
  end.

(** The proposals of the tail-risk strategy: a long shot bought, or a
    near-certainty sold. *)
Definition tail_proposal_ok (tie_side : Q -> Q -> option bool)
    (params : gmap string Q) (bankroll : Q)
    (markets : list Bots.Market.t) (t : Bots.Trade.t) : Prop :=
  exists mkt kelly_fraction low,
    In mkt markets
    /\ Strategy.is_tradeable mkt = true
    /\ (exists min_volume,
          params !! "min_volume" = Some min_volume
          /\ min_volume <= Bots.Market.volume mkt)
    /\ params !! "kelly_fraction" = Some kelly_fraction
    /\ params !! "low_threshold" = Some low
    /\ Bots.Trade.kelly_fraction t = kelly_fraction
    /\ Bots.Trade.market t = Bots.Market.title mkt
    /\ Bots.Trade.platform t = Bots.Market.platform mkt
    /\ Bots.Trade.url t = Bots.Market.url mkt
    /\ Bots.Trade.category t = Bots.Market.category mkt
    /\ Bots.Trade.market_price t = Bots.Market.yes_pct mkt
    /\ Bots.Trade.arb_detail t = None
    /\ 5 <= Bots.Trade.bet_amount t
    /\ Bots.Trade.bet_amount t <= kelly_cap bankroll
    /\ (let yes_pct := Bots.Market.yes_pct mkt in
        let ref := Strategy.find_reference (Bots.Market.title mkt) in
        Bots.Trade.direction t = Bots.BUY_YES
        /\ yes_pct <= low
        /\ tail_estimate params ref
             (fun min_mispricing prob => yes_pct + min_mispricing < prob)
             (fun prob => prob - yes_pct) (yes_pct + 5)
             (fun est =>
                fst (Bots.kelly_size tie_side est (yes_pct / 100) bankroll
                       kelly_fraction))
             t
        \/ Bots.Trade.direction t = Bots.BUY_NO
           /\ low < yes_pct
           /\ (exists high, params !! "high_threshold" = Some high /\ high <= yes_pct)
           /\ tail_estimate params ref
                (fun min_mispricing prob => prob < yes_pct - min_mispricing)
                (fun prob => yes_pct - prob) (yes_pct - 5)
                (fun est =>
                   fst (Bots.kelly_size tie_side (1 - est) ((100 - yes_pct) / 100)
                          bankroll kelly_fraction))
                t).

(** The labels [guess_category] can return. *)
Definition category_labels : list string :=
  ["Politics"; "Economics"; "Geopolitics"; "Sports"; "Tech"; "Entertainment";
   "Other"].

(** Bots with the parameters of [BOTS], and markets for them. *)
Definition bot_with (id strategy : string) (max_positions : Z)
    (params : gmap string Q) : Bots.Bot.t :=
  {| Bots.Bot.id := id;
     Bots.Bot.name := id;
     Bots.Bot.strategy := strategy;
     Bots.Bot.keys :=
       ["id"; "name"; "animal"; "emoji"; "title"; "personality"; "strategy";
        "strategy_name"; "strategy_desc"; "params"; "color"; "accent"];
     Bots.Bot.max_positions := Some max_positions;
     Bots.Bot.params := params |}.

Definition contrarian_bot : Bots.Bot.t :=
  bot_with "tiago" "contrarian_value" 5
    (<["min_edge" := 8]>
       (<["kelly_fraction" := 25 # 100]>
          (<["min_volume" := 50000]> {[ "min_days_to_expiry" := 7 ]}))).

Definition momentum_bot : Bots.Bot.t :=
  bot_with "freya" "momentum_narrative" 6
    (<["volume_surge_ratio" := 2]>
       (<["kelly_fraction" := 33 # 100]>
          (<["min_volume_24h" := 30000]> {[ "min_edge" := 3 ]}))).

Definition statistical_bot : Bots.Bot.t :=
  bot_with "ollie" "statistical_value" 4
    (<["min_edge" := 10]>
       (<["kelly_fraction" := 20 # 100]>
          (<["min_volume" := 30000]> {[ "min_days_to_expiry" := 14 ]}))).

Definition tail_bot : Bots.Bot.t :=
  bot_with "ming" "tail_risk" 6
    (<["low_threshold" := 15]>
       (<["high_threshold" := 85]>
          (<["min_mispricing" := 5]>
             (<["kelly_fraction" := 10 # 100]> {[ "min_volume" := 25000 ]})))).

Definition fed_hold_dated : Bots.Market.t :=
  {| Bots.Market.platform := "Polymarket";
     Bots.Market.title := "Will the Fed hold rates in March?";
     Bots.Market.event_title := "";
     Bots.Market.ticker := "";
     Bots.Market.yes_pct := 60;
     Bots.Market.volume := 200000;
     Bots.Market.volume_24hr := 40000;
     Bots.Market.liquidity := 0;
     Bots.Market.end_date := "2026-06-30T00:00:00Z";
     Bots.Market.category := "Economics";
     Bots.Market.url := "https://example.com" |}.

Definition fed_hold_live : Arbitrage.PolyMarket.t :=
  {| Arbitrage.PolyMarket.market := fed_hold_dated;
     Arbitrage.PolyMarket.active := true;
     Arbitrage.PolyMarket.closed := false |}.

Definition snow_in_miami : Bots.Market.t :=
  {| Bots.Market.platform := "Kalshi";
     Bots.Market.title := "Will it snow in Miami?";
     Bots.Market.event_title := "";
     Bots.Market.ticker := "";
     Bots.Market.yes_pct := 8;
     Bots.Market.volume := 30000;
     Bots.Market.volume_24hr := 0;
     Bots.Market.liquidity := 0;
     Bots.Market.end_date := "";
     Bots.Market.category := "Other";
     Bots.Market.url := "https://example.com" |}.

(** * Properties *)

(** ** Kalshi price extraction *)

Lemma from_book_ask_only fos (bid : option Py.jval) :
  bid = None \/ bid = Some (Py.JNum 0) ->
  Scanner.from_book (Scanner._normalize_to_cents fos bid)
                    (Scanner._normalize_to_cents fos (Some (Py.JNum 55)))
  = Some 55.
Proof. intros [-> | ->]; reflexivity. Qed.

(** C1. For a Kalshi record without [yes_price] whose book is one-sided, with
    [yes_bid] zero or missing and [yes_ask] = 55, the scanner's extractor
    resolves the price 55 and the scanner's fetcher keeps the market; the
    fetcher of [bots.py], which feeds the engine, computes the price 0 and
    drops the market, against [TestBotsKalshiIntegration]. *)
Theorem kalshi_one_sided_book (fos : string -> option Q) (m : gmap string Py.jval) :
  m !! "yes_price" = None ->
  m !! "yes_bid" = None \/ m !! "yes_bid" = Some (Py.JNum 0) ->
  m !! "yes_ask" = Some (Py.JNum 55) ->
  Scanner.extract_kalshi_yes_pct fos m = Some 55
  /\ List.length (Scanner.kalshi_page fos [m]) = 1%nat
  /\ Bots.kalshi_yes_pct fos m = 0
  /\ Bots.kalshi_page fos [m] = [].
Proof.
  intros Hprice Hbid Hask.
  assert (Hx : Scanner.extract_kalshi_yes_pct fos m = Some 55).
  { unfold Scanner.extract_kalshi_yes_pct. rewrite Hprice, Hask.
    rewrite (from_book_ask_only fos _ Hbid). reflexivity. }
  assert (Hb : Bots.kalshi_yes_pct fos m = 0).
  { unfold Bots.kalshi_yes_pct. rewrite Hprice, Hask.
    destruct Hbid as [-> | ->]; reflexivity. }
  split; [exact Hx|]. split.
  - cbn [Scanner.kalshi_page]. rewrite Hx. reflexivity.
  - split; [exact Hb|]. cbn [Bots.kalshi_page]. rewrite Hb. reflexivity.
Qed.

Lemma kalshi_one_sided_book_fixture :
  Scanner.extract_kalshi_yes_pct (fun _ => None) one_sided_book = Some 55
  /\ List.length (Scanner.kalshi_page (fun _ => None) [one_sided_book]) = 1%nat
  /\ Bots.kalshi_yes_pct (fun _ => None) one_sided_book = 0
  /\ Bots.kalshi_page (fun _ => None) [one_sided_book] = [].
Proof.
  apply (kalshi_one_sided_book (fun _ => None) one_sided_book).
  - vm_compute. reflexivity.
  - right. vm_compute. reflexivity.
  - vm_compute. reflexivity.
Defined.

(** ** Rounding *)

Lemma Qltb_true (a b : Q) : Py.Qltb a b = true <-> a < b.
Proof.
  unfold Py.Qltb. rewrite negb_true_iff.
  split.
  - intros H. apply Qnot_le_lt. intros Hle. apply Qle_bool_iff in Hle. congruence.
  - intros H. destruct (Qle_bool b a) eqn:E; [|reflexivity].
    apply Qle_bool_iff in E. exfalso. exact (Qlt_not_le _ _ H E).
Qed.

Lemma Qltb_false (a b : Q) : Py.Qltb a b = false <-> b <= a.
Proof.
  unfold Py.Qltb. rewrite negb_false_iff. apply Qle_bool_iff.
Qed.

Lemma Qle_bool_false (a b : Q) : Qle_bool a b = false <-> b < a.
Proof.
  rewrite <- Qltb_true. unfold Py.Qltb. now rewrite negb_true_iff.
Qed.

Lemma round_half_even_upper (t : Q) : inject_Z (Py.round_half_even t) <= t + (1 # 2).
Proof.
  unfold Py.round_half_even.
  pose proof (Qfloor_le t) as Hf.
  destruct (Qcompare (t - inject_Z (Qfloor t)) (1 # 2)) eqn:E.
  - apply Qeq_alt in E.
    destruct (Z.even (Qfloor t)).
    + lra.
    + rewrite inject_Z_plus. change (inject_Z 1) with 1. lra.
  - lra.
  - apply Qgt_alt in E. rewrite inject_Z_plus. change (inject_Z 1) with 1. lra.
Qed.

Lemma round_half_even_lower (t : Q) : t - (1 # 2) <= inject_Z (Py.round_half_even t).
Proof.
  unfold Py.round_half_even.
  pose proof (Qlt_floor t) as Hf.
  rewrite inject_Z_plus in Hf. change (inject_Z 1) with 1 in Hf.
  destruct (Qcompare (t - inject_Z (Qfloor t)) (1 # 2)) eqn:E.
  - apply Qeq_alt in E.
    destruct (Z.even (Qfloor t)).
    + lra.
    + rewrite inject_Z_plus. change (inject_Z 1) with 1. lra.
  - apply Qlt_alt in E. lra.
  - rewrite inject_Z_plus. change (inject_Z 1) with 1. lra.
Qed.

Lemma round_half_even_nonneg (t : Q) : 0 <= t -> (0 <= Py.round_half_even t)%Z.
Proof.
  intros Ht. unfold Py.round_half_even.
  assert (Hf : (0 <= Qfloor t)%Z).
  { change 0%Z with (Qfloor 0). now apply Qfloor_resp_le. }
  destruct (Qcompare _ _); [destruct (Z.even _)|..]; lia.
Qed.

Lemma py_round2_upper (x : Q) : Py.py_round x 2 <= x + (1 # 200).
Proof.
  unfold Py.py_round. change (inject_Z (10 ^ Z.of_nat 2)) with 100.
  pose proof (round_half_even_upper (x * 100)) as H.
  apply Qle_shift_div_r; [reflexivity|]. lra.
Qed.

Lemma py_round2_nonneg (x : Q) : 0 <= x -> 0 <= Py.py_round x 2.
Proof.
  intros Hx. unfold Py.py_round. change (inject_Z (10 ^ Z.of_nat 2)) with 100.
  apply Qle_shift_div_l; [reflexivity|].
  assert (H : (0 <= Py.round_half_even (x * 100))%Z).
  { apply round_half_even_nonneg. lra. }
  rewrite Zle_Qle in H. change (inject_Z 0) with 0 in H. lra.
Qed.

(** ** Kelly sizing *)

Lemma kelly_f_yes_closed (p m : Q) :
  0 < m -> m < 1 -> Bots.kelly_f_yes p m == (p - m) / (1 - m).
Proof.
  intros H0 H1. unfold Bots.kelly_f_yes. field.
  repeat split; intros E; lra.
Qed.

Lemma kelly_f_no_closed (p m : Q) :
  0 < m -> m < 1 -> Bots.kelly_f_no p m == (m - p) / m.
Proof.
  intros H0 H1. unfold Bots.kelly_f_no. field.
  repeat split; intros E; lra.
Qed.

Lemma Qdiv_pos_iff (a d : Q) : 0 < d -> (0 < a / d <-> 0 < a).
Proof.
  intros Hd. unfold Qdiv.
  pose proof (Qinv_lt_0_compat d Hd) as Hi.
  split; intros H; nra.
Qed.

Lemma kelly_f_yes_pos (p m : Q) :
  0 < m -> m < 1 -> (0 < Bots.kelly_f_yes p m <-> m < p).
Proof.
  intros H0 H1. rewrite (kelly_f_yes_closed p m H0 H1).
  rewrite Qdiv_pos_iff by lra. split; lra.
Qed.

Lemma kelly_f_no_pos (p m : Q) :
  0 < m -> m < 1 -> (0 < Bots.kelly_f_no p m <-> p < m).
Proof.
  intros H0 H1. rewrite (kelly_f_no_closed p m H0 H1).
  rewrite Qdiv_pos_iff by lra. split; lra.
Qed.

Lemma kelly_bet_bounds (bankroll f k : Q) :
  0 <= bankroll -> 0 < f -> 0 < k ->
  let bet := Qmin (Qmin (bankroll * f * k) (bankroll * (15 # 100)))
                  Bots.MAX_BET_PER_TRADE in
  0 <= bet * (1 - Bots.FEES_PCT / 100)
  /\ bet * (1 - Bots.FEES_PCT / 100) <= kelly_cap bankroll * (99 # 100).
Proof.
  intros Hb Hf Hk bet.
  assert (Hfee : 1 - Bots.FEES_PCT / 100 == 99 # 100) by reflexivity.
  assert (H1 : 0 <= bankroll * f * k).
  { apply Qmult_le_0_compat; [apply Qmult_le_0_compat|]; lra. }
  assert (Hlo : 0 <= bet).
  { unfold bet. apply Q.min_glb; [apply Q.min_glb|]; [exact H1 | lra | discriminate]. }
  assert (Hhi : bet <= kelly_cap bankroll).
  { unfold bet, kelly_cap. apply Q.min_glb.
    - eapply Qle_trans; [apply Q.le_min_l|apply Q.le_min_r].
    - apply Q.le_min_r. }
  rewrite Hfee. split; nra.
Qed.

Lemma kelly_choose_yes (fy fn bankroll k : Q) :
  0 < fy -> fn <= fy ->
  Bots.kelly_choose fy fn bankroll k =
  (Py.py_round (Qmin (Qmin (bankroll * fy * k) (bankroll * (15 # 100)))
                     Bots.MAX_BET_PER_TRADE * (1 - Bots.FEES_PCT / 100)) 2,
   Some Bots.BUY_YES).
Proof.
  intros H1 H2. unfold Bots.kelly_choose.
  apply Qltb_true in H1. apply Qle_bool_iff in H2. now rewrite H1, H2.
Qed.

Lemma kelly_choose_no (fy fn bankroll k : Q) :
  fy <= 0 -> 0 < fn ->
  Bots.kelly_choose fy fn bankroll k =
  (Py.py_round (Qmin (Qmin (bankroll * fn * k) (bankroll * (15 # 100)))
                     Bots.MAX_BET_PER_TRADE * (1 - Bots.FEES_PCT / 100)) 2,
   Some Bots.BUY_NO).
Proof.
  intros H1 H2. unfold Bots.kelly_choose.
  apply Qltb_false in H1. apply Qltb_true in H2. now rewrite H1, H2.
Qed.

Lemma kelly_choose_none (fy fn bankroll k : Q) :
  fy <= 0 -> fn <= 0 -> Bots.kelly_choose fy fn bankroll k = (0, None).
Proof.
  intros H1 H2. unfold Bots.kelly_choose.
  apply Qltb_false in H1. apply Qltb_false in H2. now rewrite H1, H2.
Qed.

Section KellySpec.
Variable tie_side : Q -> Q -> option bool.

Local Abbreviation kelly_size := (Bots.kelly_size tie_side).

Lemma kelly_guard (p m bankroll k : Q) :
  p <= 1 # 100 \/ 99 # 100 <= p \/ m <= 1 # 100 \/ 99 # 100 <= m ->
  kelly_size p m bankroll k = (0, None).
Proof.
  intros H. unfold Bots.kelly_size.
  destruct H as [H | [H | [H | H]]]; apply Qle_bool_iff in H; rewrite H;
    rewrite ?orb_true_r; reflexivity.
Qed.

Lemma kelly_in_range (p m bankroll k : Q) :
  1 # 100 < p -> p < 99 # 100 -> 1 # 100 < m -> m < 99 # 100 -> ~ p == m ->
  kelly_size p m bankroll k =
  Bots.kelly_choose (Bots.kelly_f_yes p m) (Bots.kelly_f_no p m) bankroll k.
Proof.
  intros H1 H2 H3 H4 Hne. unfold Bots.kelly_size.
  apply Qle_bool_false in H1, H2, H3, H4. rewrite H1, H2, H3, H4. cbn [orb].
  destruct (Qeq_bool p m) eqn:E; [|reflexivity].
  apply Qeq_bool_iff in E. contradiction.
Qed.

Lemma kelly_at_tie (p m bankroll k : Q) :
  1 # 100 < p -> p < 99 # 100 -> 1 # 100 < m -> m < 99 # 100 -> p == m ->
  kelly_size p m bankroll k = (0, Bots.residue_side (tie_side p m)).
Proof.
  intros H1 H2 H3 H4 He. unfold Bots.kelly_size.
  apply Qle_bool_false in H1, H2, H3, H4. rewrite H1, H2, H3, H4. cbn [orb].
  apply Qeq_bool_iff in He. now rewrite He.
Qed.

Lemma residue_side_cases (side : option bool) :
  Bots.residue_side side = Some Bots.BUY_YES
  \/ Bots.residue_side side = Some Bots.BUY_NO
  \/ Bots.residue_side side = None.
Proof. destruct side as [[]|]; cbn; auto. Qed.

Lemma kelly_stake_bounds (bankroll f k : Q) :
  0 <= bankroll -> 0 < f -> 0 < k ->
  let stake :=
    Py.py_round (Qmin (Qmin (bankroll * f * k) (bankroll * (15 # 100)))
                      Bots.MAX_BET_PER_TRADE * (1 - Bots.FEES_PCT / 100)) 2 in
  0 <= stake /\ stake <= kelly_cap bankroll * (99 # 100) + (1 # 200).
Proof.
  intros Hb Hf Hk stake.
  destruct (kelly_bet_bounds bankroll f k Hb Hf Hk) as [Hlo Hhi].
  split.
  - now apply py_round2_nonneg.
  - unfold stake. eapply Qle_trans; [apply py_round2_upper|]. lra.
Qed.

Lemma kelly_cap_half (bankroll : Q) :
  10 # 3 <= bankroll -> 1 # 2 <= kelly_cap bankroll.
Proof.
  intros H. unfold kelly_cap. apply Q.min_glb; [lra | discriminate].
Qed.

Lemma kelly_choose_bounds (fy fn bankroll k : Q) :
  0 <= bankroll -> 0 < k ->
  let stake := fst (Bots.kelly_choose fy fn bankroll k) in
  let dir := snd (Bots.kelly_choose fy fn bankroll k) in
  0 <= stake /\ stake <= kelly_cap bankroll * (99 # 100) + (1 # 200)
  /\ (dir = Some Bots.BUY_YES \/ dir = Some Bots.BUY_NO \/ dir = None).
Proof.
  intros Hb Hk. cbv zeta. unfold Bots.kelly_choose.
  assert (Hcap : 0 <= kelly_cap bankroll).
  { unfold kelly_cap. apply Q.min_glb; [lra | discriminate]. }
  destruct (Py.Qltb 0 fy) eqn:Ey; [destruct (Qle_bool fn fy)|]; cbn [andb].
  - apply Qltb_true in Ey. cbn [fst snd].
    destruct (kelly_stake_bounds bankroll fy k Hb Ey Hk) as [H1 H2]. auto.
  - destruct (Py.Qltb 0 fn) eqn:En; cbn [fst snd].
    + apply Qltb_true in En.
      destruct (kelly_stake_bounds bankroll fn k Hb En Hk) as [H1 H2]. auto.
    + split; [lra|]. split; [lra|auto].
  - destruct (Py.Qltb 0 fn) eqn:En; cbn [fst snd].
    + apply Qltb_true in En.
      destruct (kelly_stake_bounds bankroll fn k Hb En Hk) as [H1 H2]. auto.
    + split; [lra|]. split; [lra|auto].
Qed.

(** C5 (amended). For [p] and [m] strictly between 0.01 and 0.99, a bankroll
    that is not negative and a Kelly fraction in (0,1], [kelly_size] returns a
    stake that is at least 0 and at most 0.99 times the cap
    min(0.15 * bankroll, 800) plus the half cent of the rounding, hence at most
    the cap itself once the bankroll is 10/3 or more; the direction is
    BUY_YES, BUY_NO or none.  Outside the band the result is (0, none).  When
    [p] differs from [m] the result is the one the decision rule gives for
    the two Kelly fractions: YES when its fraction is positive and not
    smaller than the other (so equal positive fractions go to YES), NO when
    its fraction is positive and the larger, and no trade when no fraction is
    positive. *)
Theorem kelly_size_spec (p m bankroll k : Q) :
  1 # 100 < p -> p < 99 # 100 -> 1 # 100 < m -> m < 99 # 100 ->
  0 <= bankroll -> 0 < k -> k <= 1 ->
  let stake := fst (kelly_size p m bankroll k) in
  let dir := snd (kelly_size p m bankroll k) in
  0 <= stake
  /\ stake <= kelly_cap bankroll * (99 # 100) + (1 # 200)
  /\ (10 # 3 <= bankroll -> stake <= kelly_cap bankroll)
  /\ (dir = Some Bots.BUY_YES \/ dir = Some Bots.BUY_NO \/ dir = None)
  /\ (forall p' m' : Q,
        p' <= 1 # 100 \/ 99 # 100 <= p' \/ m' <= 1 # 100 \/ 99 # 100 <= m' ->
        kelly_size p' m' bankroll k = (0, None))
  /\ (~ p == m ->
      kelly_size p m bankroll k
      = Bots.kelly_choose (Bots.kelly_f_yes p m) (Bots.kelly_f_no p m) bankroll k)
  /\ (forall fy fn : Q, 0 < fy -> fn <= fy ->
        snd (Bots.kelly_choose fy fn bankroll k) = Some Bots.BUY_YES)
  /\ (forall fy fn : Q, 0 < fn -> fy < fn ->
        snd (Bots.kelly_choose fy fn bankroll k) = Some Bots.BUY_NO)
  /\ (forall fy fn : Q, fy <= 0 -> fn <= 0 ->
        Bots.kelly_choose fy fn bankroll k = (0, None)).
Proof.
  intros Hp1 Hp2 Hm1 Hm2 Hb Hk0 Hk1 stake dir.
  assert (Hcap : 0 <= kelly_cap bankroll).
  { unfold kelly_cap. apply Q.min_glb; [lra | discriminate]. }
  assert (Hmain : 0 <= stake
                  /\ stake <= kelly_cap bankroll * (99 # 100) + (1 # 200)
                  /\ (dir = Some Bots.BUY_YES \/ dir = Some Bots.BUY_NO \/ dir = None)).
  { unfold stake, dir. destruct (Qeq_dec p m) as [He | Hne].
    - rewrite (kelly_at_tie p m bankroll k Hp1 Hp2 Hm1 Hm2 He). cbn [fst snd].
      split; [lra|]. split; [lra|]. apply residue_side_cases.
    - rewrite (kelly_in_range p m bankroll k Hp1 Hp2 Hm1 Hm2 Hne).
      now apply kelly_choose_bounds. }
  destruct Hmain as (Hs0 & Hs1 & Hdir).
  split; [exact Hs0|]. split; [exact Hs1|]. split.
  { intros Hbig. pose proof (kelly_cap_half bankroll Hbig). lra. }
  split; [exact Hdir|]. split.
  { intros p' m'. apply kelly_guard. }
  split.
  { intros Hne. now apply kelly_in_range. }
  split.
  { intros fy fn Hy Hle. now rewrite (kelly_choose_yes fy fn bankroll k Hy Hle). }
  split.
  { intros fy fn Hn Hlt. unfold Bots.kelly_choose.
    assert (E : Py.Qltb 0 fy && Qle_bool fn fy = false).
    { apply andb_false_iff. right. now apply Qle_bool_false. }
    rewrite E. apply Qltb_true in Hn. now rewrite Hn. }
  intros fy fn. apply kelly_choose_none.
Qed.

End KellySpec.

Lemma kelly_size_spec_example :
  let stake := fst (Bots.kelly_size (fun _ _ => None) (55 # 100) (40 # 100) 10000 (25 # 100)) in
  let dir := snd (Bots.kelly_size (fun _ _ => None) (55 # 100) (40 # 100) 10000 (25 # 100)) in
  stake == 61875 # 100 /\ dir = Some Bots.BUY_YES /\ stake <= kelly_cap 10000.
Proof.
  pose proof (kelly_size_spec (fun _ _ => None) (55 # 100) (40 # 100) 10000 (25 # 100)
                eq_refl eq_refl eq_refl eq_refl
                ltac:(discriminate) eq_refl ltac:(discriminate))
    as (_ & _ & Hcap & _).
  split; [vm_compute; reflexivity|]. split.
  - vm_compute. reflexivity.
  - apply Hcap. discriminate.
Defined.

(** At a bankroll of 0.04 the 15% cap is 0.006, the capped and fee-reduced bet
    0.00594, and rounding to cents gives a stake of 0.01, whatever the
    rounding residues decide at a tie. *)
Lemma kelly_stake_exceeds_cap :
  ~ (exists tie_side : Q -> Q -> option bool,
       forall p m bankroll k : Q,
         1 # 100 < p -> p < 99 # 100 -> 1 # 100 < m -> m < 99 # 100 ->
         0 <= bankroll -> 0 < k -> k <= 1 ->
         fst (Bots.kelly_size tie_side p m bankroll k) <= kelly_cap bankroll).
Proof.
  intros [tie_side H].
  pose proof (H (9 # 10) (1 # 10) (1 # 25) 1
                eq_refl eq_refl eq_refl eq_refl
                ltac:(discriminate) eq_refl ltac:(discriminate)) as Hc.
  vm_compute in Hc. apply Hc. reflexivity.
Qed.

(** ** Title normalisation *)

Lemma clean_char_not_upper (c : ascii) :
  is_clean_char c = true -> Py.is_upper c = false.
Proof. destruct c as [[] [] [] [] [] [] [] []]; vm_compute; congruence. Qed.

Lemma clean_char_title (c : ascii) :
  is_clean_char c = true -> Py.is_title_char c = true.
Proof. destruct c as [[] [] [] [] [] [] [] []]; vm_compute; congruence. Qed.

Lemma clean_space_is_blank (c : ascii) :
  is_clean_char c = true -> Py.is_space c = true -> c = " "%char.
Proof. destruct c as [[] [] [] [] [] [] [] []]; vm_compute; congruence. Qed.

Lemma title_char_nonspace_clean (c : ascii) :
  Py.is_title_char c = true -> Py.is_space c = false -> is_clean_char c = true.
Proof. destruct c as [[] [] [] [] [] [] [] []]; vm_compute; congruence. Qed.

Lemma lower_clean (t : list ascii) : clean t -> Py.lower t = t.
Proof.
  induction 1 as [|c t Hc _ IH]; [reflexivity|].
  cbn [Py.lower map]. unfold Py.lower in IH. rewrite IH.
  unfold Py.lower_char. now rewrite (clean_char_not_upper c Hc).
Qed.

Lemma sub_non_title_chars_clean (t : list ascii) :
  clean t -> Py.sub_non_title_chars t = t.
Proof.
  induction 1 as [|c t Hc _ IH]; [reflexivity|].
  unfold Py.sub_non_title_chars in *. cbn [List.filter].
  now rewrite (clean_char_title c Hc), IH.
Qed.

Lemma sub_spaces_from_clean (b : bool) (t : list ascii) :
  Forall (fun c => Py.is_title_char c = true) t -> clean (Py.sub_spaces_from b t).
Proof.
  intros H. revert b. induction H as [|c t Hc _ IH]; intros b; [constructor|].
  cbn [Py.sub_spaces_from]. destruct (Py.is_space c) eqn:E.
  - destruct b; [apply IH|]. constructor; [reflexivity|apply IH].
  - constructor; [now apply title_char_nonspace_clean|apply IH].
Qed.

Lemma remove_from_clean (old : list ascii) (k : nat) (t : list ascii) :
  clean t -> clean (Py.remove_from old k t).
Proof.
  intros H. revert k. induction H as [|c t Hc _ IH]; intros k; [constructor|].
  cbn [Py.remove_from]. destruct k; [|apply IH].
  destruct (Py.starts_with old (c :: t)); [apply IH|].
  constructor; [exact Hc|apply IH].
Qed.

Lemma replace_with_empty_clean (old t : list ascii) :
  clean t -> clean (Py.replace_with_empty old t).
Proof.
  intros H. destruct old; [exact H|]. now apply remove_from_clean.
Qed.

Lemma remove_noise_clean (t : list ascii) : clean t -> clean (remove_noise t).
Proof.
  unfold remove_noise. revert t.
  induction noise_words as [|w ws IH]; intros t H; [exact H|].
  cbn [fold_left]. apply IH. now apply replace_with_empty_clean.
Qed.

Lemma lstrip_clean (t : list ascii) : clean t -> clean (Py.lstrip t).
Proof.
  induction 1 as [|c t Hc Ht IH]; [constructor|].
  cbn [Py.lstrip]. destruct (Py.is_space c); [exact IH|now constructor].
Qed.

Lemma rstrip_clean (t : list ascii) : clean t -> clean (Py.rstrip t).
Proof.
  induction 1 as [|c t Hc Ht IH]; [constructor|].
  cbn [Py.rstrip]. destruct (Py.rstrip t) as [|d r].
  - destruct (Py.is_space c); constructor; [exact Hc|constructor].
  - now constructor.
Qed.

Lemma normalize_chars_clean (t : list ascii) : clean (normalize_chars t).
Proof.
  unfold normalize_chars, Py.strip.
  apply rstrip_clean, lstrip_clean, remove_noise_clean, sub_spaces_from_clean.
  unfold Py.sub_non_title_chars.
  apply List.Forall_forall. intros c Hc. apply filter_In in Hc. tauto.
Qed.

(** [strip] is idempotent. *)
Lemma rstrip_cons_nonspace (c : ascii) (t : list ascii) :
  Py.is_space c = false -> Py.rstrip (c :: t) = c :: Py.rstrip t.
Proof.
  intros E. cbn [Py.rstrip]. rewrite E. now destruct (Py.rstrip t).
Qed.

Lemma rstrip_idempotent (t : list ascii) : Py.rstrip (Py.rstrip t) = Py.rstrip t.
Proof.
  induction t as [|c t IH]; [reflexivity|].
  cbn [Py.rstrip]. destruct (Py.rstrip t) as [|d r] eqn:E.
  - destruct (Py.is_space c) eqn:Ec; [reflexivity|].
    cbn [Py.rstrip]. now rewrite Ec.
  - change (Py.rstrip (c :: d :: r)) with
      (match Py.rstrip (d :: r) with
       | [] => if Py.is_space c then [] else [c]
       | x :: l => c :: x :: l
       end).
    now rewrite IH.
Qed.

Lemma lstrip_head (t : list ascii) :
  Py.lstrip t = [] \/
  exists c r, Py.lstrip t = c :: r /\ Py.is_space c = false.
Proof.
  induction t as [|c t IH]; [now left|].
  cbn [Py.lstrip]. destruct (Py.is_space c) eqn:E; [exact IH|].
  right. now exists c, t.
Qed.

Lemma strip_fixed (t : list ascii) :
  Py.lstrip (Py.strip t) = Py.strip t /\ Py.rstrip (Py.strip t) = Py.strip t.
Proof.
  unfold Py.strip. split; [|apply rstrip_idempotent].
  destruct (lstrip_head t) as [-> | (c & r & -> & Hc)]; [reflexivity|].
  rewrite (rstrip_cons_nonspace c r Hc). cbn [Py.lstrip]. now rewrite Hc.
Qed.

Lemma strip_idempotent (t : list ascii) : Py.strip (Py.strip t) = Py.strip t.
Proof.
  destruct (strip_fixed t) as [Hl Hr].
  unfold Py.strip at 1. now rewrite Hl, Hr.
Qed.

(** The stages leave a settled string as it is. *)
Lemma sub_spaces_from_settled (b : bool) (t : list ascii) :
  clean t -> has_double_space t = false ->
  (b = true -> match t with c :: _ => Py.is_space c = false | [] => True end) ->
  Py.sub_spaces_from b t = t.
Proof.
  intros H. revert b. induction H as [|c t Hc Ht IH]; intros b Hd Hb; [reflexivity|].
  assert (Hd' : has_double_space t = false).
  { destruct t; [reflexivity|]. cbn [has_double_space] in Hd.
    now apply orb_false_iff in Hd. }
  cbn [Py.sub_spaces_from]. destruct (Py.is_space c) eqn:E.
  - destruct b; [specialize (Hb eq_refl); cbn in Hb; congruence|].
    rewrite (clean_space_is_blank c Hc E). f_equal.
    apply IH; [exact Hd'|]. intros _. destruct t; [exact I|].
    cbn [has_double_space] in Hd. rewrite E in Hd.
    apply orb_false_iff in Hd. now destruct Hd.
  - f_equal. apply IH; [exact Hd'|]. discriminate.
Qed.

Lemma remove_from_absent (old t : list ascii) :
  occurs old t = false -> Py.remove_from old 0 t = t.
Proof.
  induction t as [|c t IH]; intros H; [reflexivity|].
  cbn [occurs] in H. apply orb_false_iff in H. destruct H as [H1 H2].
  cbn [Py.remove_from]. rewrite H1. f_equal. now apply IH.
Qed.

Lemma replace_with_empty_absent (old t : list ascii) :
  occurs old t = false -> Py.replace_with_empty old t = t.
Proof.
  intros H. destruct old; [reflexivity|]. now apply remove_from_absent.
Qed.

Lemma remove_words_absent (words : list string) (t : list ascii) :
  existsb (fun noise => occurs (list_ascii_of_string noise) t) words = false ->
  fold_left (fun t noise => Py.replace_with_empty (list_ascii_of_string noise) t)
            words t = t.
Proof.
  induction words as [|w ws IH]; intros H; [reflexivity|].
  cbn [existsb] in H. apply orb_false_iff in H. destruct H as [H1 H2].
  cbn [fold_left]. rewrite (replace_with_empty_absent _ _ H1). now apply IH.
Qed.

Lemma normalize_chars_settled (t : list ascii) :
  clean t -> Py.strip t = t ->
  contains_noise t = false -> has_double_space t = false ->
  normalize_chars t = t.
Proof.
  intros Hc Hs Hn Hd. unfold normalize_chars.
  rewrite (lower_clean t Hc), Hs, (sub_non_title_chars_clean t Hc).
  unfold Py.sub_spaces. rewrite (sub_spaces_from_settled false t Hc Hd) by discriminate.
  unfold remove_noise. rewrite (remove_words_absent noise_words t Hn). exact Hs.
Qed.

(** The stages never lengthen a string, and shorten one that is not settled. *)
Lemma lstrip_length (t : list ascii) :
  (List.length (Py.lstrip t) <= List.length t)%nat.
Proof.
  induction t as [|c t IH]; [reflexivity|].
  cbn [Py.lstrip]. destruct (Py.is_space c); cbn [List.length]; lia.
Qed.

Lemma rstrip_length (t : list ascii) :
  (List.length (Py.rstrip t) <= List.length t)%nat.
Proof.
  induction t as [|c t IH]; [reflexivity|].
  cbn [Py.rstrip]. destruct (Py.rstrip t); [destruct (Py.is_space c)|];
    cbn [List.length] in *; lia.
Qed.

Lemma strip_length (t : list ascii) :
  (List.length (Py.strip t) <= List.length t)%nat.
Proof.
  unfold Py.strip. pose proof (rstrip_length (Py.lstrip t)).
  pose proof (lstrip_length t). lia.
Qed.

Lemma sub_spaces_from_length (b : bool) (t : list ascii) :
  (List.length (Py.sub_spaces_from b t) <= List.length t)%nat.
Proof.
  revert b. induction t as [|c t IH]; intros b; [reflexivity|].
  pose proof (IH true). pose proof (IH false).
  cbn [Py.sub_spaces_from]. destruct (Py.is_space c); [destruct b|];
    cbn [List.length]; lia.
Qed.

Lemma sub_spaces_from_in_run (t : list ascii) (c : ascii) :
  Py.is_space c = true ->
  (List.length (Py.sub_spaces_from true (c :: t)) <= List.length t)%nat.
Proof.
  intros E. cbn [Py.sub_spaces_from]. rewrite E. apply sub_spaces_from_length.
Qed.

Lemma sub_spaces_from_shortens (b : bool) (t : list ascii) :
  has_double_space t = true ->
  (List.length (Py.sub_spaces_from b t) < List.length t)%nat.
Proof.
  revert b. induction t as [|c t IH]; intros b H; [discriminate|].
  destruct t as [|d t]; [discriminate|].
  cbn [has_double_space] in H. apply orb_true_iff in H. destruct H as [H | H].
  - apply andb_true_iff in H. destruct H as [Ec Ed].
    pose proof (sub_spaces_from_in_run t d Ed) as Hl.
    change (Py.sub_spaces_from b (c :: d :: t)) with
      (if Py.is_space c
       then if b then Py.sub_spaces_from true (d :: t)
            else " "%char :: Py.sub_spaces_from true (d :: t)
       else c :: Py.sub_spaces_from false (d :: t)).
    rewrite Ec. destruct b; cbn [List.length]; lia.
  - change (Py.sub_spaces_from b (c :: d :: t)) with
      (if Py.is_space c
       then if b then Py.sub_spaces_from true (d :: t)
            else " "%char :: Py.sub_spaces_from true (d :: t)
       else c :: Py.sub_spaces_from false (d :: t)).
    pose proof (IH true H). pose proof (IH false H).
    destruct (Py.is_space c); [destruct b|]; cbn [List.length] in *; lia.
Qed.

Lemma remove_from_length (old : list ascii) (k : nat) (t : list ascii) :
  (List.length (Py.remove_from old k t) <= List.length t)%nat.
Proof.
  revert k. induction t as [|c t IH]; intros k; [reflexivity|].
  cbn [Py.remove_from]. destruct k.
  - destruct (Py.starts_with old (c :: t)); cbn [List.length].
    + specialize (IH (Nat.pred (List.length old))). lia.
    + specialize (IH 0%nat). lia.
  - cbn [List.length]. specialize (IH k). lia.
Qed.

Lemma remove_from_shortens (old t : list ascii) :
  old <> [] -> occurs old t = true ->
  (List.length (Py.remove_from old 0 t) < List.length t)%nat.
Proof.
  intros Hold. induction t as [|c t IH]; intros H.
  - destruct old; [congruence|discriminate].
  - cbn [occurs] in H. cbn [Py.remove_from].
    destruct (Py.starts_with old (c :: t)) eqn:E; cbn [List.length].
    + pose proof (remove_from_length old (Nat.pred (List.length old)) t). lia.
    + cbn [orb] in H. specialize (IH H). lia.
Qed.

Lemma remove_words_length (words : list string) (t : list ascii) :
  (List.length
     (fold_left (fun t noise => Py.replace_with_empty (list_ascii_of_string noise) t)
                words t) <= List.length t)%nat.
Proof.
  revert t. induction words as [|w ws IH]; intros t; [reflexivity|].
  cbn [fold_left]. etransitivity; [apply IH|].
  unfold Py.replace_with_empty. destruct (list_ascii_of_string w); [reflexivity|].
  apply remove_from_length.
Qed.

Lemma remove_words_shortens (words : list string) (t : list ascii) :
  List.Forall (fun w => list_ascii_of_string w <> []) words ->
  existsb (fun noise => occurs (list_ascii_of_string noise) t) words = true ->
  (List.length
     (fold_left (fun t noise => Py.replace_with_empty (list_ascii_of_string noise) t)
                words t) < List.length t)%nat.
Proof.
  intros Hne. revert t. induction Hne as [|w ws Hw _ IH]; intros t H; [discriminate|].
  cbn [existsb] in H. cbn [fold_left].
  destruct (occurs (list_ascii_of_string w) t) eqn:E.
  - pose proof (remove_words_length ws
                  (Py.replace_with_empty (list_ascii_of_string w) t)) as Hl.
    pose proof (remove_from_shortens _ t Hw E) as Hs.
    unfold Py.replace_with_empty in *.
    destruct (list_ascii_of_string w); [congruence|]. lia.
  - rewrite (replace_with_empty_absent _ _ E). apply IH. exact H.
Qed.

Lemma noise_words_nonempty :
  List.Forall (fun w => list_ascii_of_string w <> []) noise_words.
Proof. unfold noise_words. repeat constructor; discriminate. Qed.

Lemma normalize_chars_length (t : list ascii) :
  clean t -> Py.strip t = t ->
  contains_noise t = true \/ has_double_space t = true ->
  (List.length (normalize_chars t) < List.length t)%nat.
Proof.
  intros Hc Hs H. unfold normalize_chars.
  rewrite (lower_clean t Hc), Hs, (sub_non_title_chars_clean t Hc).
  pose proof (strip_length (remove_noise (Py.sub_spaces t))) as H1.
  pose proof (remove_words_length noise_words (Py.sub_spaces t)) as H2.
  fold (remove_noise (Py.sub_spaces t)) in H2.
  pose proof (sub_spaces_from_length false t) as H3. fold (Py.sub_spaces t) in H3.
  destruct (has_double_space t) eqn:Ed.
  - pose proof (sub_spaces_from_shortens false t Ed) as H4.
    fold (Py.sub_spaces t) in H4. lia.
  - destruct H as [H | H]; [|discriminate].
    unfold Py.sub_spaces in *.
    rewrite (sub_spaces_from_settled false t Hc Ed) in * by discriminate.
    pose proof (remove_words_shortens noise_words t noise_words_nonempty H) as H4.
    fold (remove_noise t) in H4. lia.
Qed.

Lemma normalize_chars_stripped (t : list ascii) :
  Py.strip (normalize_chars t) = normalize_chars t.
Proof. unfold normalize_chars. apply strip_idempotent. Qed.

(** C6 (amended). Normalising a normalised title gives it back exactly when it
    is settled, that is, contains none of the noise phrases and no two
    adjacent spaces; [scanner.py] and [bots.py] normalise alike. *)
Theorem normalize_title_idempotent_iff_settled (s : string) :
  (Bots.normalize_title (Bots.normalize_title s) = Bots.normalize_title s
   <-> settled (Bots.normalize_title s) = true)
  /\ Scanner.normalize_title s = Bots.normalize_title s.
Proof.
  split; [|reflexivity].
  unfold Bots.normalize_title, settled.
  rewrite !list_ascii_of_string_of_list_ascii.
  set (r := normalize_chars (list_ascii_of_string s)).
  pose proof (normalize_chars_clean (list_ascii_of_string s)) as Hc.
  pose proof (normalize_chars_stripped (list_ascii_of_string s)) as Hs.
  fold r in Hc, Hs.
  split.
  - intros H. apply (f_equal list_ascii_of_string) in H.
    rewrite !list_ascii_of_string_of_list_ascii in H.
    destruct (contains_noise r) eqn:En.
    + pose proof (normalize_chars_length r Hc Hs (or_introl En)) as Hl.
      rewrite H in Hl. lia.
    + destruct (has_double_space r) eqn:Ed; [|reflexivity].
      pose proof (normalize_chars_length r Hc Hs (or_intror Ed)) as Hl.
      rewrite H in Hl. lia.
  - intros H. apply andb_true_iff in H. destruct H as [Hn Hd].
    apply negb_true_iff in Hn, Hd.
    now rewrite (normalize_chars_settled r Hc Hs Hn Hd).
Qed.

(** The second pass collapses the two spaces left where ["in 2026"] stood. *)
Lemma normalize_title_not_idempotent :
  ~ (forall s : string,
       Bots.normalize_title (Bots.normalize_title s) = Bots.normalize_title s).
Proof.
  intros H. specialize (H "Rain in 2026 today"). vm_compute in H. discriminate H.
Qed.

(** ** Trade admission *)

Section Admission.
Variable md5_hexdigest : string -> string.
Variables now_iso now_stamp : string.

Local Abbreviation execute_trades := (Bots.execute_trades md5_hexdigest now_iso now_stamp).
Local Abbreviation make_trade_record := (Bots.make_trade_record md5_hexdigest now_iso now_stamp).
Local Abbreviation new_position bot :=
  (fun trade => Bots.make_position trade (make_trade_record bot trade)).

Local Abbreviation book_all := (book_trades md5_hexdigest now_iso now_stamp).

Lemma book_all_positions bot trades bot_state :
  Bots.BotState.positions (book_all bot bot_state trades)
  = (Bots.BotState.positions bot_state ++ map (new_position bot) trades)%list.
Proof.
  revert bot_state. induction trades as [|t ts IH]; intros st; cbn [book_trades fold_left map].
  - now rewrite app_nil_r.
  - fold (book_all bot (Bots.book_trade st t (make_trade_record bot t)) ts).
    rewrite IH. cbn [Bots.book_trade Bots.BotState.positions].
    now rewrite <- app_assoc.
Qed.

Lemma execute_trades_admitted bot keys proposed bot_state executed :
  execute_trades bot keys proposed bot_state executed
  = (book_all bot bot_state
       (admitted (Bots.max_pos bot) keys proposed
                 (List.length (Bots.BotState.positions bot_state))
                 (List.length executed)),
     (executed ++ map (make_trade_record bot)
        (admitted (Bots.max_pos bot) keys proposed
                  (List.length (Bots.BotState.positions bot_state))
                  (List.length executed)))%list).
Proof.
  revert bot_state executed.
  induction proposed as [|t ts IH]; intros st ex; cbn [Bots.execute_trades admitted].
  - cbn [book_trades fold_left map]. now rewrite app_nil_r.
  - destruct (bool_decide _); [apply IH|].
    destruct (_ <=? _)%Z.
    + cbn [book_trades fold_left map]. now rewrite app_nil_r.
    + rewrite IH. cbn [Bots.book_trade Bots.BotState.positions].
      rewrite !length_app. cbn [List.length].
      rewrite !Nat.add_1_r. cbn [book_trades fold_left map].
      now rewrite <- app_assoc.
Qed.

Lemma fold_left_Qplus_shift {A : Type} (f : A -> Q) (l : list A) (a : Q) :
  fold_left (fun acc x => acc + f x) l a
  == a + fold_left (fun acc x => acc + f x) l 0.
Proof.
  revert a. induction l as [|x l IH]; intros a; cbn [fold_left]; [ring|].
  rewrite (IH (a + f x)), (IH (0 + f x)). ring.
Qed.

Lemma open_stakes_app (l l' : list Bots.Position.t) :
  Bots.open_stakes (l ++ l') == Bots.open_stakes l + Bots.open_stakes l'.
Proof.
  unfold Bots.open_stakes. rewrite fold_left_app. apply fold_left_Qplus_shift.
Qed.

Lemma open_stakes_new_positions bot (trades : list Bots.Trade.t) :
  Bots.open_stakes (map (new_position bot) trades) == total_bets trades.
Proof.
  unfold Bots.open_stakes, total_bets. generalize 0.
  induction trades as [|t ts IH]; intros a; cbn [map fold_left]; [reflexivity|].
  apply IH.
Qed.

Lemma book_all_bankroll bot trades bot_state :
  Bots.BotState.bankroll (book_all bot bot_state trades)
  == Bots.BotState.bankroll bot_state - total_bets trades.
Proof.
  unfold total_bets. revert bot_state.
  induction trades as [|t ts IH]; intros st; cbn [book_trades fold_left].
  - ring.
  - fold (book_all bot (Bots.book_trade st t (make_trade_record bot t)) ts).
    rewrite IH. cbn [Bots.book_trade Bots.BotState.bankroll].
    rewrite (fold_left_Qplus_shift Bots.Trade.bet_amount ts (0 + _)). ring.
Qed.

Lemma book_all_frame bot trades bot_state :
  Bots.BotState.winning_trades (book_all bot bot_state trades)
    = Bots.BotState.winning_trades bot_state
  /\ Bots.BotState.total_pnl (book_all bot bot_state trades)
    = Bots.BotState.total_pnl bot_state
  /\ Bots.BotState.peak_bankroll (book_all bot bot_state trades)
    = Bots.BotState.peak_bankroll bot_state
  /\ Bots.BotState.equity_curve (book_all bot bot_state trades)
    = Bots.BotState.equity_curve bot_state
  /\ Bots.BotState.total_trades (book_all bot bot_state trades)
    = (Bots.BotState.total_trades bot_state + Z.of_nat (List.length trades))%Z.
Proof.
  revert bot_state. induction trades as [|t ts IH]; intros st;
    cbn [book_trades fold_left List.length].
  - repeat split; lia.
  - fold (book_all bot (Bots.book_trade st t (make_trade_record bot t)) ts).
    destruct (IH (Bots.book_trade st t (make_trade_record bot t)))
      as (-> & -> & -> & -> & ->).
    cbn [Bots.book_trade Bots.BotState.winning_trades Bots.BotState.total_pnl
         Bots.BotState.peak_bankroll Bots.BotState.equity_curve
         Bots.BotState.total_trades].
    repeat split; lia.
Qed.

(** C10. The admission loop appends one position per admitted proposal, with
    that proposal's [bet_amount] as its stake, debits the bankroll by the sum
    of these stakes and changes nothing else, so that bankroll plus open
    stakes is the same before and after. *)
Theorem admission_conserves_value bot keys proposed bot_state executed :
  let trades :=
    admitted (Bots.max_pos bot) keys proposed
             (List.length (Bots.BotState.positions bot_state))
             (List.length executed) in
  let bot_state' := fst (execute_trades bot keys proposed bot_state executed) in
  Bots.BotState.positions bot_state'
    = (Bots.BotState.positions bot_state ++ map (new_position bot) trades)%list
  /\ map Bots.Position.bet_amount (map (new_position bot) trades)
    = map Bots.Trade.bet_amount trades
  /\ Bots.BotState.bankroll bot_state'
     == Bots.BotState.bankroll bot_state - total_bets trades
  /\ Bots.BotState.bankroll bot_state'
       + Bots.open_stakes (Bots.BotState.positions bot_state')
     == Bots.BotState.bankroll bot_state
        + Bots.open_stakes (Bots.BotState.positions bot_state)
  /\ Bots.BotState.total_pnl bot_state' = Bots.BotState.total_pnl bot_state
  /\ Bots.BotState.peak_bankroll bot_state' = Bots.BotState.peak_bankroll bot_state
  /\ (exists poor : Bots.BotState.t,
        0 <= Bots.BotState.bankroll poor
        /\ Bots.BotState.bankroll
             (fst (execute_trades (test_bot 5) ∅ [test_trade "X"] poor [])) < 0).
Proof.
  intros trades st'. unfold st'. rewrite execute_trades_admitted. cbn [fst].
  fold trades.
  pose proof (book_all_positions bot trades bot_state) as Hpos.
  pose proof (book_all_bankroll bot trades bot_state) as Hbank.
  destruct (book_all_frame bot trades bot_state) as (_ & Hpnl & Hpeak & _).
  split; [exact Hpos|]. split; [now rewrite map_map|]. split; [exact Hbank|].
  split; [|split; [exact Hpnl|split; [exact Hpeak|]]].
  - rewrite Hpos, Hbank, open_stakes_app, open_stakes_new_positions. ring.
  - exists {| Bots.BotState.bankroll := 50;
              Bots.BotState.total_trades := 0;
              Bots.BotState.winning_trades := 0;
              Bots.BotState.total_pnl := 0;
              Bots.BotState.peak_bankroll := 10000;
              Bots.BotState.positions := [];
              Bots.BotState.equity_curve := [] |}.
    split; [discriminate|]. vm_compute. reflexivity.
Qed.

(** *** The position cap *)

Lemma admitted_within_cap (max_pos : Z) keys proposed (n_pos n_exec : nat) :
  (Z.of_nat n_pos <= max_pos)%Z ->
  (Z.of_nat n_pos + Z.of_nat (List.length (admitted max_pos keys proposed n_pos n_exec))
   <= max_pos)%Z.
Proof.
  revert n_pos n_exec. induction proposed as [|t ts IH]; intros n_pos n_exec H;
    cbn [admitted].
  - cbn [List.length]. lia.
  - destruct (bool_decide _); [now apply IH|].
    destruct (Z.leb_spec max_pos (Z.of_nat n_pos + Z.of_nat n_exec)) as [Hge | Hlt].
    + cbn [List.length]. lia.
    + cbn [List.length]. specialize (IH (S n_pos) (S n_exec)). lia.
Qed.

Lemma admitted_counted_twice (max_pos : Z) keys proposed (n_pos n_exec : nat) :
  (Z.of_nat n_pos + Z.of_nat n_exec
   + 2 * Z.of_nat (List.length (admitted max_pos keys proposed n_pos n_exec))
   <= Z.max (max_pos + 1) (Z.of_nat n_pos + Z.of_nat n_exec))%Z.
Proof.
  revert n_pos n_exec. induction proposed as [|t ts IH]; intros n_pos n_exec;
    cbn [admitted].
  - cbn [List.length]. lia.
  - destruct (bool_decide _); [now apply IH|].
    destruct (Z.leb_spec max_pos (Z.of_nat n_pos + Z.of_nat n_exec)) as [Hge | Hlt].
    + cbn [List.length]. lia.
    + cbn [List.length]. specialize (IH (S n_pos) (S n_exec)). lia.
Qed.

Variable gap_error : Q -> Q -> comparison.

Lemma update_prices_length all_markets positions :
  List.length (Bots.update_prices gap_error all_markets positions)
  = List.length positions.
Proof. unfold Bots.update_prices. apply length_map. Qed.

Lemma run_bot_positions bot strategy
    all_markets poly_markets kalshi_markets bot_state :
  Bots.BotState.positions
    (fst (fst (Bots.run_bot md5_hexdigest now_iso now_stamp gap_error bot strategy
                 all_markets poly_markets kalshi_markets bot_state)))
  = Bots.update_prices gap_error all_markets
      (Bots.BotState.positions
         (fst (execute_trades bot
                 (Bots.existing_market_keys (Bots.BotState.positions bot_state))
                 (Py.try_except
                    (strategy bot all_markets poly_markets kalshi_markets bot_state) [])
                 bot_state []))).
Proof.
  unfold Bots.run_bot, Bots.settle.
  destruct (execute_trades _ _ _ _ _) as [st' ex']. reflexivity.
Qed.

(** C4. If the agent holds at most [max_positions] positions before the
    admission loop, it holds at most [max_positions] after it, whatever the
    proposals; the same for the whole step of one agent. *)
Theorem positions_within_cap bot keys proposed
    bot_state strategy all_markets poly_markets kalshi_markets :
  (Z.of_nat (List.length (Bots.BotState.positions bot_state)) <= Bots.max_pos bot)%Z ->
  (Z.of_nat (List.length
     (Bots.BotState.positions (fst (execute_trades bot keys proposed bot_state []))))
   <= Bots.max_pos bot)%Z
  /\ (Z.of_nat (List.length
        (Bots.BotState.positions
           (fst (fst (Bots.run_bot md5_hexdigest now_iso now_stamp gap_error bot strategy
                        all_markets poly_markets kalshi_markets bot_state)))))
      <= Bots.max_pos bot)%Z.
Proof.
  intros H.
  assert (Hloop : forall keys proposed,
    (Z.of_nat (List.length
       (Bots.BotState.positions (fst (execute_trades bot keys proposed bot_state []))))
     <= Bots.max_pos bot)%Z).
  { intros ks ps. rewrite execute_trades_admitted. cbn [fst].
    rewrite book_all_positions, length_app, length_map, Nat2Z.inj_add.
    now apply admitted_within_cap. }
  split; [apply Hloop|].
  rewrite run_bot_positions, update_prices_length. apply Hloop.
Qed.

(** C3. The loop compares [max_positions] with the length of the position
    list, which already holds the trades of this cycle, plus the number of
    trades of this cycle: each admitted trade counts twice.  So the positions
    held at the start plus twice the trades admitted never exceed
    [max_positions + 1]; an agent without positions and with
    [max_positions] = 5 that is offered five proposals for five different
    markets admits three of them. *)
Theorem admission_counts_new_trades_twice :
  (forall bot keys proposed bot_state,
     (Z.of_nat (List.length (Bots.BotState.positions bot_state))
      + 2 * Z.of_nat (List.length (snd (execute_trades bot keys proposed bot_state [])))
      <= Z.max (Bots.max_pos bot + 1)
               (Z.of_nat (List.length (Bots.BotState.positions bot_state))))%Z)
  /\ List.length
       (snd (execute_trades (test_bot 5) (Bots.existing_market_keys [])
               [test_trade "Market A"; test_trade "Market B"; test_trade "Market C";
                test_trade "Market D"; test_trade "Market E"]
               test_state []))
     = 3%nat.
Proof.
  split.
  - intros bot keys proposed st. rewrite execute_trades_admitted. cbn [snd].
    rewrite length_app, length_map. cbn [List.length].
    pose proof (admitted_counted_twice (Bots.max_pos bot) keys proposed
                  (List.length (Bots.BotState.positions st)) 0) as H.
    cbn [List.length] in H. lia.
  - vm_compute. reflexivity.
Qed.

(** *** Duplicate markets *)

Lemma admitted_not_held (max_pos : Z) keys proposed (n_pos n_exec : nat) :
  List.Forall (fun trade => Bots.normalize_title (Bots.Trade.market trade) ∉ keys)
              (admitted max_pos keys proposed n_pos n_exec).
Proof.
  revert n_pos n_exec. induction proposed as [|t ts IH]; intros n_pos n_exec;
    cbn [admitted]; [constructor|].
  case_bool_decide as Hin; [apply IH|].
  destruct (_ <=? _)%Z; [constructor|].
  constructor; [exact Hin|apply IH].
Qed.

Lemma existing_market_keys_spec positions (k : string) :
  k ∈ Bots.existing_market_keys positions <-> In k (position_keys positions).
Proof.
  induction positions as [|pos rest IH]; cbn [Bots.existing_market_keys position_keys map].
  - split; [intros H; set_solver|intros []].
  - rewrite elem_of_union, elem_of_singleton, IH. cbn [In]. unfold position_keys.
    intuition congruence.
Qed.

(** C2. The key set is built once, before the loop, and is not extended
    when a trade is admitted: a proposal is never admitted on a market held
    when the cycle starts, but two proposals of one cycle with the same
    normalised key are both admitted, and the agent then holds two positions
    with that key. *)
Theorem duplicate_keys_within_a_cycle :
  (forall bot proposed bot_state,
     List.Forall
       (fun pos => ~ In (Bots.normalize_title (Bots.Position.market pos))
                        (position_keys (Bots.BotState.positions bot_state)))
       (skipn (List.length (Bots.BotState.positions bot_state))
          (Bots.BotState.positions
             (fst (execute_trades bot
                     (Bots.existing_market_keys (Bots.BotState.positions bot_state))
                     proposed bot_state [])))))
  /\ position_keys
       (Bots.BotState.positions
          (fst (execute_trades (test_bot 5)
                  (Bots.existing_market_keys (Bots.BotState.positions test_state))
                  [test_trade "Will test happen?"; test_trade "Will test happen?"]
                  test_state [])))
     = ["test happen"; "test happen"].
Proof.
  split.
  - intros bot proposed st. rewrite execute_trades_admitted. cbn [fst].
    rewrite book_all_positions, skipn_app, Nat.sub_diag, skipn_all, app_nil_l.
    cbn [skipn].
    apply List.Forall_forall. intros pos Hpos. apply in_map_iff in Hpos.
    destruct Hpos as (t & <- & Ht). cbn [Bots.make_position Bots.Position.market].
    rewrite <- existing_market_keys_spec.
    pose proof (admitted_not_held (Bots.max_pos bot)
                  (Bots.existing_market_keys (Bots.BotState.positions st)) proposed
                  (List.length (Bots.BotState.positions st)) 0) as H.
    rewrite List.Forall_forall in H. now apply H.
  - vm_compute. reflexivity.
Qed.

End Admission.

Lemma positions_within_cap_example :
  (Z.of_nat (List.length
     (Bots.BotState.positions
        (fst (Bots.execute_trades (fun s => s) "" "" (test_bot 1)
                (Bots.existing_market_keys (Bots.BotState.positions held_state))
                [test_trade "Will another test happen?"] held_state []))))
   <= 1)%Z.
Proof.
  apply (positions_within_cap (fun s => s) "" "" (fun _ _ => Eq) (test_bot 1)
           (Bots.existing_market_keys (Bots.BotState.positions held_state))
           [test_trade "Will another test happen?"] held_state
           silent_strategy [] [] []).
  vm_compute. discriminate.
Defined.

(** ** Mark to market *)

Lemma exact_match_first pos all_markets mkt :
  first_with_title pos all_markets mkt ->
  Bots.exact_match (Py.str_lower (Py.str_strip (Bots.Position.market pos))) all_markets
  = Some mkt.
Proof.
  intros (before & after & -> & Hm & Hb).
  induction Hb as [|m before Hm' _ IH]; cbn [app Bots.exact_match].
  - apply String.eqb_eq in Hm. now rewrite Hm.
  - destruct (String.eqb_spec (Py.str_lower (Py.str_strip (Bots.Market.title m)))
                (Py.str_lower (Py.str_strip (Bots.Position.market pos)))) as [E|E].
    + contradiction.
    + exact IH.
Qed.

Lemma exact_match_found pos all_markets mkt :
  Bots.exact_match (Py.str_lower (Py.str_strip (Bots.Position.market pos))) all_markets
  = Some mkt ->
  first_with_title pos all_markets mkt.
Proof.
  induction all_markets as [|m ms IH]; cbn [Bots.exact_match]; [discriminate|].
  destruct (String.eqb_spec (Py.str_lower (Py.str_strip (Bots.Market.title m)))
              (Py.str_lower (Py.str_strip (Bots.Position.market pos)))) as [E|E].
  - intros [= <-]. exists [], ms. repeat split; [exact E|constructor].
  - intros H. destruct (IH H) as (before & after & -> & Hm & Hb).
    exists (m :: before), after. repeat split; [exact Hm|now constructor].
Qed.

Lemma exact_match_none pos all_markets :
  List.Forall (fun m => ~ same_title pos m) all_markets ->
  Bots.exact_match (Py.str_lower (Py.str_strip (Bots.Position.market pos))) all_markets
  = None.
Proof.
  induction 1 as [|m ms Hm _ IH]; cbn [Bots.exact_match]; [reflexivity|].
  destruct (String.eqb_spec (Py.str_lower (Py.str_strip (Bots.Market.title m)))
              (Py.str_lower (Py.str_strip (Bots.Position.market pos)))) as [E|E].
  - contradiction.
  - exact IH.
Qed.

Lemma same_except_price_refl pos : same_except_price pos pos.
Proof. repeat split. Qed.

Lemma set_current_price_frame pos new_price :
  same_except_price pos (Bots.Position.set_current_price pos new_price).
Proof. repeat split. Qed.

Section MarkToMarket.
Variable gap_error : Q -> Q -> comparison.

Local Abbreviation update_price := (Bots.update_price gap_error).

Lemma compare_gap_cases (a b bound : Q) :
  match Py.compare_gap gap_error a b bound with
  | Lt => Qabs (a - b) < bound \/ (Qabs (a - b) == bound /\ gap_error a b = Lt)
  | Eq => Qabs (a - b) == bound /\ gap_error a b = Eq
  | Gt => bound < Qabs (a - b) \/ (Qabs (a - b) == bound /\ gap_error a b = Gt)
  end.
Proof.
  unfold Py.compare_gap.
  destruct (Qcompare_spec (Qabs (a - b)) bound) as [E | E | E].
  - destruct (gap_error a b); auto.
  - now left.
  - now left.
Qed.

(** C8 (amended). The price update of one position changes no field other than
    the current mark.  It looks at the first market, in the order of
    [all_markets], whose title equals the position's after trimming and
    lower-casing.  When that market's price is less than 15 points from the
    mark, the mark becomes that price; when it is more than 15 points away,
    or when no market has the title, the position is left as it is; at
    exactly 15 points the mark becomes the price if and only if the
    difference Python computes is not above 15.  Whenever the mark moves, it
    moves to the price of that first market, which is within 15 points. *)
Theorem update_price_spec (all_markets : list Bots.Market.t) (pos : Bots.Position.t) :
  let pos' := update_price all_markets pos in
  same_except_price pos pos'
  /\ (forall mkt, first_with_title pos all_markets mkt -> price_gap pos mkt < 15 ->
        Bots.Position.current_price pos' = Bots.Market.yes_pct mkt)
  /\ (forall mkt, first_with_title pos all_markets mkt -> 15 < price_gap pos mkt ->
        pos' = pos)
  /\ (forall mkt, first_with_title pos all_markets mkt -> price_gap pos mkt == 15 ->
        (float_gap_within gap_error pos mkt ->
         Bots.Position.current_price pos' = Bots.Market.yes_pct mkt)
        /\ (~ float_gap_within gap_error pos mkt -> pos' = pos))
  /\ (List.Forall (fun m => ~ same_title pos m) all_markets -> pos' = pos)
  /\ (pos' = pos
      \/ exists mkt, first_with_title pos all_markets mkt /\ within_15 pos mkt
                     /\ Bots.Position.current_price pos' = Bots.Market.yes_pct mkt).
Proof.
  intros pos'. subst pos'. unfold Bots.update_price, Bots.mark, price_gap,
    float_gap_within, within_15.
  split; [|split; [|split; [|split; [|split]]]].
  - destruct (Bots.exact_match _ _); [|apply same_except_price_refl].
    destruct (Py.compare_gap _ _ _ _);
      [apply set_current_price_frame..|apply same_except_price_refl].
  - intros mkt Hf Hw. rewrite (exact_match_first pos all_markets mkt Hf).
    pose proof (compare_gap_cases (Bots.Market.yes_pct mkt)
                  (Bots.Position.current_price pos) 15) as Hc.
    destruct (Py.compare_gap _ _ _ _); [reflexivity..|].
    exfalso. destruct Hc as [Hc | [Hc _]]; lra.
  - intros mkt Hf Hw. rewrite (exact_match_first pos all_markets mkt Hf).
    pose proof (compare_gap_cases (Bots.Market.yes_pct mkt)
                  (Bots.Position.current_price pos) 15) as Hc.
    destruct (Py.compare_gap _ _ _ _); [exfalso..|reflexivity].
    + destruct Hc as [Hc _]. lra.
    + destruct Hc as [Hc | [Hc _]]; lra.
  - intros mkt Hf Hw. rewrite (exact_match_first pos all_markets mkt Hf).
    pose proof (compare_gap_cases (Bots.Market.yes_pct mkt)
                  (Bots.Position.current_price pos) 15) as Hc.
    destruct (Py.compare_gap _ _ _ _).
    + split; [reflexivity|]. intros Hn. exfalso. apply Hn.
      destruct Hc as [_ ->]. discriminate.
    + split; [reflexivity|]. intros Hn. exfalso. apply Hn.
      destruct Hc as [Hc | [_ ->]]; [lra|discriminate].
    + split; [|reflexivity]. intros Hin. exfalso.
      destruct Hc as [Hc | [_ Hc]]; [lra|contradiction].
  - intros Hn. now rewrite (exact_match_none pos all_markets Hn).
  - destruct (Bots.exact_match _ _) as [mkt|] eqn:Em; [|now left].
    pose proof (compare_gap_cases (Bots.Market.yes_pct mkt)
                  (Bots.Position.current_price pos) 15) as Hc.
    destruct (Py.compare_gap _ _ _ _); [| |now left].
    + right. exists mkt. split; [now apply exact_match_found|].
      split; [|reflexivity]. destruct Hc as [Hc _]. lra.
    + right. exists mkt. split; [now apply exact_match_found|].
      split; [|reflexivity]. destruct Hc as [Hc | [Hc _]]; lra.
Qed.

End MarkToMarket.

Lemma update_price_spec_example :
  Bots.Position.current_price
    (Bots.update_price (fun _ _ => Gt)
       [test_market "Other"  90; test_market " RAIN " 45; test_market "rain" 50]
       (test_position "Rain" 40))
  = 45.
Proof.
  pose proof (update_price_spec (fun _ _ => Gt)
           [test_market "Other" 90; test_market " RAIN " 45; test_market "rain" 50]
           (test_position "Rain" 40)) as (_ & H & _).
  apply (H (test_market " RAIN " 45)).
  - exists [test_market "Other" 90], [test_market "rain" 50].
    split; [reflexivity|]. split; [vm_compute; reflexivity|].
    constructor; [vm_compute; discriminate|constructor].
  - vm_compute. reflexivity.
Defined.

(** Two snapshots carry the position's title; the first is 50 points away
    from the mark, the second 5 points: the mark is kept, whatever the
    rounding errors are. *)
Lemma update_price_first_match_only :
  ~ (exists gap_error : Q -> Q -> comparison,
       marks_on_any_match gap_error
         [test_market "rain" 90; test_market "rain" 45] (test_position "rain" 40)).
Proof.
  intros (gap_error & H & _).
  destruct H as (mkt & Hin & _ & _ & Hprice).
  - exists (test_market "rain" 45).
    split; [right; left; reflexivity|]. split; [reflexivity|].
    vm_compute. discriminate.
  - destruct Hin as [<- | [<- | []]]; vm_compute in Hprice; discriminate Hprice.
Qed.

(** A snapshot whose title differs from the position's only by a noise word
    has the same normalised title, and is not matched. *)
Lemma update_price_ignores_normalized_match (gap_error : Q -> Q -> comparison) :
  let pos := test_position "Will rain" 40 in
  let mkt := test_market "rain" 45 in
  same_normalized_title pos mkt /\ within_15 pos mkt
  /\ Bots.update_price gap_error [mkt] pos = pos.
Proof.
  split; [vm_compute; reflexivity|]. split; [vm_compute; discriminate|].
  vm_compute. reflexivity.
Qed.

(** One-decimal prices exactly 15 points apart: the mark moves when the
    computed difference is 15 or below, and stays when the rounding error
    puts it above, as for 40.2 and 25.2. *)
Lemma update_price_at_15_apart (gap_error : Q -> Q -> comparison) :
  let pos := test_position "rain" (252 # 10) in
  let mkt := test_market "rain" (402 # 10) in
  price_gap pos mkt == 15
  /\ (gap_error (402 # 10) (252 # 10) = Gt ->
      Bots.update_price gap_error [mkt] pos = pos)
  /\ (gap_error (402 # 10) (252 # 10) <> Gt ->
      Bots.Position.current_price (Bots.update_price gap_error [mkt] pos) = 402 # 10).
Proof.
  cbv zeta. split; [vm_compute; reflexivity|].
  unfold Bots.update_price, Bots.mark, Py.compare_gap.
  cbn [Bots.exact_match test_market test_position Bots.Market.title
       Bots.Position.market Bots.Market.yes_pct Bots.Position.current_price].
  change (Py.str_lower (Py.str_strip "rain")) with "rain"%string.
  cbn [String.eqb Ascii.eqb Bool.eqb].
  change (Bots.Market.yes_pct (test_market "rain" (402 # 10))) with (402 # 10).
  change (Qcompare (Qabs ((402 # 10) - (252 # 10))) 15) with Eq.
  split.
  - intros ->. reflexivity.
  - intros H. destruct (gap_error _ _); [reflexivity..|contradiction].
Qed.

(** ** Failure of a strategy function *)

Section Containment.
Variable md5_hexdigest : string -> string.
Variables now_iso now_stamp : string.
Variable gap_error : Q -> Q -> comparison.

Local Abbreviation run_bot := (Bots.run_bot md5_hexdigest now_iso now_stamp gap_error).
Local Abbreviation run_bots := (Bots.run_bots md5_hexdigest now_iso now_stamp gap_error).
Local Abbreviation run_bot_engine :=
  (Bots.run_bot_engine md5_hexdigest now_iso now_stamp gap_error).
Local Abbreviation update_prices := (Bots.update_prices gap_error).
Local Abbreviation raw_run_bot := (Raw.run_bot md5_hexdigest now_iso now_stamp gap_error).
Local Abbreviation raw_run_bots := (Raw.run_bots md5_hexdigest now_iso now_stamp gap_error).
Local Abbreviation raw_run_bot_engine :=
  (Raw.run_bot_engine md5_hexdigest now_iso now_stamp gap_error).

Lemma run_bot_raise bot (strategy : Bots.strategy_fn)
    all_markets poly_markets kalshi_markets bot_state :
  strategy bot all_markets poly_markets kalshi_markets bot_state = Py.Raise ->
  run_bot bot strategy all_markets poly_markets kalshi_markets bot_state
  = run_bot bot silent_strategy all_markets poly_markets kalshi_markets bot_state.
Proof.
  intros H. unfold Bots.run_bot, silent_strategy. now rewrite H.
Qed.

Lemma run_bot_silent bot all_markets poly_markets kalshi_markets bot_state :
  let r := run_bot bot silent_strategy all_markets poly_markets kalshi_markets bot_state in
  snd (fst r) = []
  /\ Bots.BotResult.new_trades (snd r) = []
  /\ Bots.BotState.bankroll (fst (fst r)) = Bots.BotState.bankroll bot_state
  /\ Bots.BotState.total_trades (fst (fst r)) = Bots.BotState.total_trades bot_state
  /\ Bots.BotState.positions (fst (fst r))
     = update_prices all_markets (Bots.BotState.positions bot_state).
Proof.
  cbv zeta. unfold Bots.run_bot, Bots.settle, silent_strategy. cbn. repeat split.
Qed.

Lemma run_bots_isolated (m1 m2 : gmap string Bots.strategy_fn) (i : string)
    all_markets poly_markets kalshi_markets (bots : list Bots.Bot.t) :
  (forall b, In b bots -> Bots.Bot.id b <> i ->
             m1 !! Bots.Bot.strategy b = m2 !! Bots.Bot.strategy b) ->
  forall (s1 s2 : gmap string Bots.BotState.t) r1 r2 t1 t2,
  (forall j, j <> i -> s1 !! j = s2 !! j) ->
  forall j, j <> i ->
    fst (fst (run_bots m1 bots all_markets poly_markets kalshi_markets s1 r1 t1)) !! j
    = fst (fst (run_bots m2 bots all_markets poly_markets kalshi_markets s2 r2 t2)) !! j.
Proof.
  induction bots as [|b rest IH]; intros Hmaps s1 s2 r1 r2 t1 t2 Hagree j Hj.
  - cbn [Bots.run_bots fst]. now apply Hagree.
  - assert (Hrest : forall b', In b' rest -> Bots.Bot.id b' <> i ->
                      m1 !! Bots.Bot.strategy b' = m2 !! Bots.Bot.strategy b').
    { intros b' Hin. apply Hmaps. now right. }
    cbn [Bots.run_bots].
    destruct (decide (Bots.Bot.id b = i)) as [Hid | Hid].
    + destruct (m1 !! Bots.Bot.strategy b) as [f1|];
        destruct (m2 !! Bots.Bot.strategy b) as [f2|];
        repeat match goal with
               | |- context [run_bot ?b ?f ?a ?p ?k ?s] =>
                   destruct (run_bot b f a p k s) as [[? ?] ?]
               end;
        apply IH; try assumption; intros j' Hj';
        rewrite ?lookup_insert_ne by congruence; now apply Hagree.
    + rewrite <- (Hmaps b (or_introl eq_refl) Hid).
      rewrite <- (Hagree (Bots.Bot.id b) Hid).
      destruct (m1 !! Bots.Bot.strategy b) as [f1|].
      * destruct (run_bot b f1 _ _ _ _) as [[bs ex] res].
        apply IH; try assumption. intros j' Hj'.
        destruct (decide (Bots.Bot.id b = j')) as [-> | Hne].
        -- now rewrite !lookup_insert_eq.
        -- rewrite !lookup_insert_ne by assumption. now apply Hagree.
      * apply IH; try assumption. intros j' Hj'.
        destruct (decide (Bots.Bot.id b = j')) as [-> | Hne].
        -- now rewrite !lookup_insert_eq.
        -- rewrite !lookup_insert_ne by assumption. now apply Hagree.
Qed.

Lemma run_bots_results (smap : gmap string Bots.strategy_fn)
    all_markets poly_markets kalshi_markets (bots : list Bots.Bot.t) :
  forall (state : gmap string Bots.BotState.t) results trades,
    map Bots.BotResult.bot
      (snd (fst (run_bots smap bots all_markets poly_markets kalshi_markets
                   state results trades)))
    = (map Bots.BotResult.bot results ++ with_strategy smap bots)%list.
Proof.
  induction bots as [|b rest IH]; intros state results trades;
    cbn [Bots.run_bots with_strategy List.filter].
  - cbn [fst snd]. now rewrite app_nil_r.
  - fold (with_strategy smap rest).
    destruct (smap !! Bots.Bot.strategy b) as [f|]; [|apply IH].
    destruct (run_bot b f _ _ _ _) as [[bs ex] res] eqn:E.
    rewrite IH, map_app. cbn [map].
    assert (Hres : Bots.BotResult.bot res = b).
    { unfold Bots.run_bot, Bots.settle in E.
      destruct (Bots.execute_trades _ _ _ _ _ _ _ _).
      injection E as _ _ <-. reflexivity. }
    rewrite Hres, <- app_assoc. reflexivity.
Qed.

(** *** Records with string titles and a bankroll *)

Lemma exact_match_with_title (t : string) (all_markets : list Bots.Market.t) :
  Raw.exact_match t (map with_title all_markets)
  = Py.Ok (Bots.exact_match t all_markets).
Proof.
  induction all_markets as [|mkt rest IH]; cbn [map Raw.exact_match Bots.exact_match].
  - reflexivity.
  - unfold Raw.title. cbn [with_title Raw.Market.title_is_str Raw.Market.market].
    destruct (String.eqb _ _); [reflexivity|exact IH].
Qed.

Lemma update_prices_with_title (all_markets : list Bots.Market.t)
    (positions : list Bots.Position.t) :
  Raw.update_prices gap_error (map with_title all_markets) positions
  = Py.Ok (update_prices all_markets positions).
Proof.
  induction positions as [|pos rest IH]; cbn [Raw.update_prices].
  - reflexivity.
  - unfold Raw.update_price. rewrite exact_match_with_title, IH. reflexivity.
Qed.

Lemma run_bot_on_typed_records bot (strategy : Raw.strategy_fn)
    all_markets poly_markets kalshi_markets bot_state :
  raw_run_bot bot strategy (map with_title all_markets) (map with_title poly_markets)
    (map with_title kalshi_markets) (with_bankroll bot_state)
  = Py.Ok (run_bot bot (on_typed_records strategy)
             all_markets poly_markets kalshi_markets bot_state).
Proof.
  unfold Raw.run_bot, Bots.run_bot, on_typed_records.
  cbn [with_bankroll Raw.BotState.has_bankroll Raw.BotState.state].
  destruct (Bots.execute_trades _ _ _ _ _ _ _ _) as [st ex].
  now rewrite update_prices_with_title.
Qed.

(** The states, the results and the trades of the loop over [BOTS], with the
    bankroll flag on every state. *)
Local Abbreviation flagged after :=
  (with_bankroll <$> fst (fst after), snd (fst after), snd after).

Lemma run_bots_on_typed_records (raw : gmap string Raw.strategy_fn)
    all_markets poly_markets kalshi_markets (bots : list Bots.Bot.t) :
  forall (state : gmap string Bots.BotState.t) results trades,
    raw_run_bots raw bots (map with_title all_markets) (map with_title poly_markets)
      (map with_title kalshi_markets) (with_bankroll <$> state) results trades
    = Py.Ok (flagged (run_bots (on_typed_records <$> raw) bots
                        all_markets poly_markets kalshi_markets state results trades)).
Proof.
  induction bots as [|b rest IH]; intros state results trades;
    cbn [Raw.run_bots Bots.run_bots].
  - reflexivity.
  - rewrite !lookup_fmap.
    assert (Hdef : default (Raw.fresh_state now_stamp)
                     (with_bankroll <$> state !! Bots.Bot.id b)
                   = with_bankroll (default (Bots.fresh_state now_stamp)
                                      (state !! Bots.Bot.id b))).
    { destruct (state !! Bots.Bot.id b); reflexivity. }
    rewrite Hdef.
    destruct (raw !! Bots.Bot.strategy b) as [f|]; cbn [fmap option_fmap option_map].
    + rewrite run_bot_on_typed_records.
      destruct (run_bot b (on_typed_records f) _ _ _ _) as [[bs ex] res].
      change {| Raw.BotState.state := bs; Raw.BotState.has_bankroll := true |}
        with (with_bankroll bs).
      rewrite <- fmap_insert. apply IH.
    + rewrite <- fmap_insert. apply IH.
Qed.

Lemma state_with_bankroll (state : gmap string Bots.BotState.t) :
  Raw.BotState.state <$> (with_bankroll <$> state) = state.
Proof.
  apply map_eq. intros i. rewrite !lookup_fmap.
  destruct (state !! i); reflexivity.
Qed.

Lemma run_bot_engine_on_typed_records (raw : gmap string Raw.strategy_fn)
    (BOTS : list Bots.Bot.t) (poly_markets kalshi_markets : list Bots.Market.t)
    (state : gmap string Bots.BotState.t) (all_trades : list Bots.TradeRecord.t) :
  raw_run_bot_engine raw BOTS (map with_title poly_markets)
    (map with_title kalshi_markets) (with_bankroll <$> state) all_trades
  = Py.Ok (run_bot_engine (on_typed_records <$> raw) BOTS
             poly_markets kalshi_markets state all_trades).
Proof.
  unfold Raw.run_bot_engine, Bots.run_bot_engine.
  rewrite <- map_app, run_bots_on_typed_records.
  destruct (run_bots _ _ _ _ _ _ _ _) as [[st res] new]. cbn [fst snd].
  rewrite state_with_bankroll. unfold Bots.engine_result.
  now rewrite !length_app, !length_map.
Qed.

(** *** Records on which a step cannot finish *)

Lemma exact_match_meets_null_title (all_markets : list Raw.Market.t)
    (pos : Bots.Position.t) :
  meets_null_title all_markets pos ->
  Raw.exact_match (Py.str_lower (Py.str_strip (Bots.Position.market pos))) all_markets
  = Py.Raise.
Proof.
  intros (before & mkt & after & -> & Hnull & Hbefore).
  induction Hbefore as [|m before Hm _ IH]; cbn [map app Raw.exact_match].
  - unfold Raw.title. now rewrite Hnull.
  - unfold Raw.title. cbn [with_title Raw.Market.title_is_str Raw.Market.market].
    destruct (String.eqb_spec
                (Py.str_lower (Py.str_strip (Bots.Market.title m)))
                (Py.str_lower (Py.str_strip (Bots.Position.market pos)))) as [E | _].
    + now destruct Hm.
    + exact IH.
Qed.

Lemma update_prices_meets_null_title (all_markets : list Raw.Market.t)
    (positions : list Bots.Position.t) (pos : Bots.Position.t) :
  In pos positions -> meets_null_title all_markets pos ->
  Raw.update_prices gap_error all_markets positions = Py.Raise.
Proof.
  intros Hin Hnull. induction positions as [|p rest IH]; [destruct Hin|].
  cbn [Raw.update_prices]. destruct Hin as [-> | Hin].
  - unfold Raw.update_price. now rewrite exact_match_meets_null_title.
  - destruct (Raw.update_price _ _ _); [|reflexivity]. now rewrite IH.
Qed.

Lemma run_bot_unfinishable bot (strategy : Raw.strategy_fn)
    all_markets poly_markets kalshi_markets bot_state :
  unfinishable all_markets bot_state ->
  raw_run_bot bot strategy all_markets poly_markets kalshi_markets bot_state
  = Py.Raise.
Proof.
  intros Hbad. unfold Raw.run_bot.
  destruct (Raw.BotState.has_bankroll bot_state) eqn:Hb; [|reflexivity].
  destruct Hbad as [Hbad | (pos & Hin & Hnull)]; [congruence|].
  rewrite execute_trades_admitted.
  rewrite (update_prices_meets_null_title all_markets _ pos); [reflexivity| |exact Hnull].
  rewrite book_all_positions. apply in_or_app. now left.
Qed.

Lemma run_bots_unfinishable (raw : gmap string Raw.strategy_fn)
    all_markets poly_markets kalshi_markets (bots : list Bots.Bot.t) :
  forall (state : gmap string Raw.BotState.t) results trades bot bot_state,
    In bot bots -> is_Some (raw !! Bots.Bot.strategy bot) ->
    state !! Bots.Bot.id bot = Some bot_state ->
    unfinishable all_markets bot_state ->
    raw_run_bots raw bots all_markets poly_markets kalshi_markets state results trades
    = Py.Raise.
Proof.
  induction bots as [|b rest IH]; intros state results trades bot st Hin Hs Hst Hbad;
    [destruct Hin|].
  cbn [Raw.run_bots].
  destruct (decide (Bots.Bot.id b = Bots.Bot.id bot)) as [Hid | Hid].
  - rewrite Hid, Hst. cbn [default].
    destruct (raw !! Bots.Bot.strategy b) as [f|] eqn:Hf.
    + now rewrite run_bot_unfinishable.
    + destruct Hin as [-> | Hin]; [rewrite Hf in Hs; now destruct Hs|].
      apply (IH _ _ _ bot st Hin Hs); [|exact Hbad].
      now rewrite lookup_insert_eq.
  - destruct Hin as [-> | Hin]; [now destruct Hid|].
    destruct (raw !! Bots.Bot.strategy b) as [f|].
    + destruct (raw_run_bot b f _ _ _ _) as [[[bs ex] res]|]; [|reflexivity].
      apply (IH _ _ _ bot st Hin Hs); [|exact Hbad].
      now rewrite lookup_insert_ne.
    + apply (IH _ _ _ bot st Hin Hs); [|exact Hbad].
      now rewrite lookup_insert_ne.
Qed.

(** C9. When the strategy function of a bot raises, the step of that bot is
    the step with an empty proposal list: no trade is executed and its
    bankroll is untouched.  The states the run saves for the other bots do
    not depend on what the strategy table holds for the failing bot, and the
    result of the run has one entry for every bot of the roster with a known
    strategy, the failing one included.  The run returns its result when
    every title is a string and every stored state has its bankroll,
    whatever the strategies do.  It raises when a bot of the roster with a
    known strategy has a stored state without bankroll, or holds a position
    whose price update meets a snapshot with the title [None] before it
    finds its own title; on such a snapshot priced between 5 and 95
    [is_tradeable] raises, so the strategies that ask it raise as well. *)
Theorem strategy_failure_is_contained (m1 m2 : gmap string Bots.strategy_fn)
    (failing : string) (BOTS : list Bots.Bot.t)
    (poly_markets kalshi_markets : list Bots.Market.t)
    (state : gmap string Bots.BotState.t) (all_trades : list Bots.TradeRecord.t) :
  (forall b, In b BOTS -> Bots.Bot.id b <> failing ->
             m1 !! Bots.Bot.strategy b = m2 !! Bots.Bot.strategy b) ->
  (forall bot (strategy : Bots.strategy_fn) all_markets bot_state,
     strategy bot all_markets poly_markets kalshi_markets bot_state = Py.Raise ->
     let r := run_bot bot strategy all_markets poly_markets kalshi_markets bot_state in
     r = run_bot bot silent_strategy all_markets poly_markets kalshi_markets bot_state
     /\ snd (fst r) = []
     /\ Bots.BotResult.new_trades (snd r) = []
     /\ Bots.BotState.bankroll (fst (fst r)) = Bots.BotState.bankroll bot_state
     /\ Bots.BotState.positions (fst (fst r))
        = update_prices all_markets (Bots.BotState.positions bot_state))
  /\ (forall j, j <> failing ->
        Bots.EngineResult.saved_state
          (run_bot_engine m1 BOTS poly_markets kalshi_markets state all_trades) !! j
        = Bots.EngineResult.saved_state
            (run_bot_engine m2 BOTS poly_markets kalshi_markets state all_trades) !! j)
  /\ map Bots.BotResult.bot
       (Bots.EngineResult.bots
          (run_bot_engine m1 BOTS poly_markets kalshi_markets state all_trades))
     = with_strategy m1 BOTS
  /\ (forall raw : gmap string Raw.strategy_fn,
        raw_run_bot_engine raw BOTS (map with_title poly_markets)
          (map with_title kalshi_markets) (with_bankroll <$> state) all_trades
        = Py.Ok (run_bot_engine (on_typed_records <$> raw) BOTS
                   poly_markets kalshi_markets state all_trades))
  /\ (forall (raw : gmap string Raw.strategy_fn) (poly kalshi : list Raw.Market.t)
             (stored : gmap string Raw.BotState.t) bot bot_state,
        In bot BOTS -> is_Some (raw !! Bots.Bot.strategy bot) ->
        stored !! Bots.Bot.id bot = Some bot_state ->
        unfinishable (poly ++ kalshi) bot_state ->
        raw_run_bot_engine raw BOTS poly kalshi stored all_trades = Py.Raise)
  /\ (forall mkt : Raw.Market.t,
        Raw.Market.title_is_str mkt = false ->
        5 <= Bots.Market.yes_pct (Raw.Market.market mkt) ->
        Bots.Market.yes_pct (Raw.Market.market mkt) <= 95 ->
        Raw.is_tradeable mkt = Py.Raise).
Proof.
  intros Hmaps. split; [|split; [|split; [|split; [|split]]]].
  - intros bot strategy all_markets bot_state Hraise r. subst r.
    rewrite (run_bot_raise _ _ _ _ _ _ Hraise).
    destruct (run_bot_silent bot all_markets poly_markets kalshi_markets bot_state)
      as (H1 & H2 & H3 & _ & H5).
    repeat split; assumption.
  - intros j Hj. unfold Bots.run_bot_engine, Bots.engine_result.
    pose proof (run_bots_isolated m1 m2 failing (poly_markets ++ kalshi_markets)
                  poly_markets kalshi_markets BOTS Hmaps state state [] [] [] []
                  (fun _ _ => eq_refl) j Hj) as H.
    destruct (run_bots m1 _ _ _ _ _ _ _) as [[s1 r1] t1].
    destruct (run_bots m2 _ _ _ _ _ _ _) as [[s2 r2] t2].
    exact H.
  - unfold Bots.run_bot_engine, Bots.engine_result.
    pose proof (run_bots_results m1 (poly_markets ++ kalshi_markets)
                  poly_markets kalshi_markets BOTS state [] []) as H.
    destruct (run_bots m1 _ _ _ _ _ _ _) as [[s1 r1] t1].
    exact H.
  - intros raw. apply run_bot_engine_on_typed_records.
  - intros raw poly kalshi stored bot st Hin Hs Hst Hbad.
    unfold Raw.run_bot_engine.
    now rewrite (run_bots_unfinishable raw (poly ++ kalshi) poly kalshi BOTS
                   stored [] [] bot st Hin Hs Hst Hbad).
  - intros mkt Hnull Hlo Hhi. unfold Raw.is_tradeable, Raw.title.
    rewrite Hnull.
    assert (E1 : Py.Qltb (Bots.Market.yes_pct (Raw.Market.market mkt))
                   Bots.MIN_TRADEABLE_PRICE = false).
    { unfold Py.Qltb, Bots.MIN_TRADEABLE_PRICE. apply negb_false_iff.
      now apply Qle_bool_iff. }
    assert (E2 : Py.Qltb Bots.MAX_TRADEABLE_PRICE
                   (Bots.Market.yes_pct (Raw.Market.market mkt)) = false).
    { unfold Py.Qltb, Bots.MAX_TRADEABLE_PRICE. apply negb_false_iff.
      now apply Qle_bool_iff. }
    now rewrite E1, E2.
Qed.

End Containment.

Lemma strategy_failure_is_contained_example :
  let m1 : gmap string Bots.strategy_fn :=
    <["failing_strategy" := raising_strategy]>
      {[ "test_strategy" := test_strategy "Will another test happen?" ]} in
  let m2 : gmap string Bots.strategy_fn :=
    <["failing_strategy" := test_strategy "Will test happen?"]>
      {[ "test_strategy" := test_strategy "Will another test happen?" ]} in
  let run m :=
    Bots.run_bot_engine (fun s => s) "2026-02-28T11:00:00+00:00" "2026-02-28T11:00:00Z"
      (fun _ _ => Eq) m [failing_bot; test_bot 2] [] [] ∅ [] in
  let null_title := without_title (test_market "" 50) in
  Bots.EngineResult.saved_state (run m1) !! "testbot"
  = Bots.EngineResult.saved_state (run m2) !! "testbot"
  /\ map Bots.BotResult.bot (Bots.EngineResult.bots (run m1))
     = [failing_bot; test_bot 2]
  /\ screening_strategy (test_bot 2) [null_title] [] [null_title]
       (with_bankroll held_state) = Py.Raise
  /\ Raw.run_bot_engine (fun s => s) "2026-02-28T11:00:00+00:00" "2026-02-28T11:00:00Z"
       (fun _ _ => Eq) {[ "test_strategy" := screening_strategy ]}
       [failing_bot; test_bot 2] [] [null_title]
       {[ "testbot" := with_bankroll held_state ]} []
     = Py.Raise.
Proof.
  intros m1 m2 run null_title.
  assert (Hmaps : forall b, In b [failing_bot; test_bot 2] ->
                    Bots.Bot.id b <> "failing" ->
                    m1 !! Bots.Bot.strategy b = m2 !! Bots.Bot.strategy b).
  { intros b [<- | [<- | []]] Hne.
    - exfalso. apply Hne. reflexivity.
    - vm_compute. reflexivity. }
  pose proof (strategy_failure_is_contained (fun s => s)
                "2026-02-28T11:00:00+00:00" "2026-02-28T11:00:00Z" (fun _ _ => Eq)
                m1 m2 "failing" [failing_bot; test_bot 2] [] [] ∅ [] Hmaps)
    as (_ & Hstate & Hbots & _ & Hraise & _).
  split; [|split; [|split]].
  - apply Hstate. discriminate.
  - unfold run. rewrite Hbots. vm_compute. reflexivity.
  - vm_compute. reflexivity.
  - apply (Hraise _ [] [null_title] _ (test_bot 2) (with_bankroll held_state)).
    + right. left. reflexivity.
    + vm_compute. eexists. reflexivity.
    + vm_compute. reflexivity.
    + right. exists (test_position "Will test happen?" 40).
      split; [left; reflexivity|].
      exists [], null_title, []. split; [reflexivity|].
      split; [reflexivity|constructor].
Defined.

(** ** Cycle records *)

(** C7. On the stored state of the first test (one open position on the
    proposed market, [max_positions] = 1) the engine admits nothing, and what
    it returns has no cycle record: the entry of the bot has no key
    ["latest_cycle"] and the result no key ["recentCycles"]. *)
Theorem engine_result_has_no_cycle_record (md5_hexdigest : string -> string)
    (now_iso now_stamp : string) (gap_error : Q -> Q -> comparison) :
  let result :=
    Bots.run_bot_engine md5_hexdigest now_iso now_stamp gap_error
      {[ "test_strategy" := test_strategy "Will test happen?" ]}
      [test_bot 1] [] [] {[ "testbot" := held_state ]} [] in
  map Bots.BotResult.new_trades (Bots.EngineResult.bots result) = [[]]
  /\ map Bots.BotResult.open_positions (Bots.EngineResult.bots result) = [1%nat]
  /\ List.Forall
       (fun r => ~ In "latest_cycle"
                     (Bots.BotResult.keys (Bots.Bot.keys (Bots.BotResult.bot r))))
       (Bots.EngineResult.bots result)
  /\ ~ In "recentCycles" Bots.EngineResult.keys.
Proof.
  cbv zeta. split; [vm_compute; reflexivity|]. split; [vm_compute; reflexivity|].
  split.
  - vm_compute. constructor; [|constructor]. intuition discriminate.
  - vm_compute. intuition discriminate.
Qed.

(** * Further properties of the code *)

(** ** The scanner's price extractor *)

Lemma in_cents_range_spec (v : Q) :
  Scanner.in_cents_range v = true <-> 0 < v /\ v <= 100.
Proof.
  unfold Scanner.in_cents_range. rewrite andb_true_iff, Qltb_true, Qle_bool_iff.
  reflexivity.
Qed.

Lemma from_book_range (bid ask : option Q) (v : Q) :
  Scanner.from_book bid ask = Some v -> 0 < v /\ v <= 100.
Proof.
  unfold Scanner.from_book.
  destruct (Scanner.positive bid && Scanner.positive ask).
  - destruct bid as [b|], ask as [a|]; try discriminate.
    destruct (Scanner.in_cents_range _) eqn:E; [|discriminate].
    intros [= <-]. now apply in_cents_range_spec.
  - destruct (Scanner.positive ask).
    + destruct ask as [a|]; [|discriminate].
      destruct (Scanner.in_cents_range a) eqn:E; [|discriminate].
      intros [= <-]. now apply in_cents_range_spec.
    + destruct (Scanner.positive bid); [|discriminate].
      destruct bid as [b|]; [|discriminate].
      destruct (Scanner.in_cents_range b) eqn:E; [|discriminate].
      intros [= <-]. now apply in_cents_range_spec.
Qed.

Lemma dollar_fields_range fos (m : gmap string Py.jval) (fields : list string) (v : Q) :
  Scanner.dollar_fields fos m fields = Some v -> 0 < v /\ v <= 100.
Proof.
  induction fields as [|f fs IH]; cbn [Scanner.dollar_fields]; [discriminate|].
  destruct (Py.safe_float_opt fos (m !! f)) as [raw|]; [|exact IH].
  destruct (Py.Qltb 0 raw && Scanner.in_cents_range (raw * 100)) eqn:E; [|exact IH].
  intros [= <-]. apply andb_true_iff in E. now apply in_cents_range_spec.
Qed.

Lemma last_price_onwards_range fos (m : gmap string Py.jval) (v : Q) :
  Scanner.last_price_onwards fos m = Some v -> 0 < v /\ v <= 100.
Proof.
  unfold Scanner.last_price_onwards.
  destruct (Scanner._normalize_to_cents fos (m !! "last_price")) as [l|];
    [|apply dollar_fields_range].
  destruct (Scanner.in_cents_range l) eqn:E; [|apply dollar_fields_range].
  intros [= <-]. now apply in_cents_range_spec.
Qed.

Lemma extract_kalshi_yes_pct_range_aux fos (m : gmap string Py.jval) (v : Q) :
  Scanner.extract_kalshi_yes_pct fos m = Some v -> 0 < v /\ v <= 100.
Proof.
  unfold Scanner.extract_kalshi_yes_pct.
  destruct (Scanner._normalize_to_cents fos (m !! "yes_price")) as [p|] eqn:Ep;
    cbn [Scanner.positive].
  - destruct (Py.Qltb 0 p) eqn:E0.
    + destruct (Py.Qltb 100 p) eqn:E1; [discriminate|].
      intros [= <-]. split; [now apply Qltb_true|now apply Qltb_false].
    + destruct (Scanner.from_book _ _) as [r|] eqn:Eb.
      * intros [= <-]. exact (from_book_range _ _ _ Eb).
      * apply last_price_onwards_range.
  - destruct (Scanner.from_book _ _) as [r|] eqn:Eb.
    + intros [= <-]. exact (from_book_range _ _ _ Eb).
    + apply last_price_onwards_range.
Qed.

(** X1. Whatever the record holds, a price the scanner's extractor returns is
    greater than 0 and at most 100. *)
Theorem extract_kalshi_yes_pct_range fos (m : gmap string Py.jval) (v : Q) :
  Scanner.extract_kalshi_yes_pct fos m = Some v -> 0 < v /\ v <= 100.
Proof. apply extract_kalshi_yes_pct_range_aux. Qed.

Lemma extract_kalshi_yes_pct_range_example :
  0 < 55 /\ 55 <= 100.
Proof.
  apply (extract_kalshi_yes_pct_range (fun _ => None) one_sided_book 55).
  vm_compute. reflexivity.
Defined.

(** X2. A positive numeric [yes_price] decides alone, whatever the book and
    the last price are: a value up to 1 is read as dollars and returned times
    100, a value up to 100 is returned as it is, and a value above 100 makes
    the extractor return nothing, without falling back to the book. *)
Theorem extract_kalshi_yes_price_decides fos (m : gmap string Py.jval) (v : Q) :
  m !! "yes_price" = Some (Py.JNum v) -> 0 < v ->
  Scanner.extract_kalshi_yes_pct fos m
  = if Qle_bool v 1 then Some (v * 100)
    else if Qle_bool v 100 then Some v else None.
Proof.
  intros Hm Hv. unfold Scanner.extract_kalshi_yes_pct. rewrite Hm.
  cbn [Scanner._normalize_to_cents Py.safe_float_opt Py.float].
  assert (E0 : Py.Qltb 0 v = true) by now apply Qltb_true.
  rewrite E0. cbn [andb].
  destruct (Qle_bool v 1) eqn:E1.
  - apply Qle_bool_iff in E1. cbn [Scanner.positive].
    assert (Ep : Py.Qltb 0 (v * 100) = true) by (apply Qltb_true; lra).
    assert (Eh : Py.Qltb 100 (v * 100) = false) by (apply Qltb_false; lra).
    now rewrite Ep, Eh.
  - cbn [Scanner.positive]. rewrite E0. unfold Py.Qltb.
    now destruct (Qle_bool v 100).
Qed.

Lemma extract_kalshi_yes_price_decides_example :
  Scanner.extract_kalshi_yes_pct (fun _ => None)
    (<["yes_price" := Py.JNum 150]>
       (<["yes_bid" := Py.JNum 40]> (<["yes_ask" := Py.JNum 50]> ∅)))
  = None.
Proof.
  apply (extract_kalshi_yes_price_decides (fun _ => None)
           (<["yes_price" := Py.JNum 150]>
              (<["yes_bid" := Py.JNum 40]> (<["yes_ask" := Py.JNum 50]> ∅))) 150).
  - vm_compute. reflexivity.
  - reflexivity.
Defined.

Lemma round_half_even_le (t : Q) (n : Z) :
  t <= inject_Z n -> (Py.round_half_even t <= n)%Z.
Proof.
  intros Ht. unfold Py.round_half_even.
  assert (Hf : (Qfloor t <= n)%Z).
  { rewrite <- (Qfloor_Z n). now apply Qfloor_resp_le. }
  pose proof (Qfloor_le t) as Hfl.
  destruct (Z.eq_dec (Qfloor t) n) as [E | E].
  - assert (Hlt : Qcompare (t - inject_Z (Qfloor t)) (1 # 2) = Lt).
    { apply (proj1 (Qlt_alt _ _)). rewrite E. lra. }
    rewrite Hlt. lia.
  - destruct (Qcompare _ _); [destruct (Z.even _)|..]; lia.
Qed.

Lemma py_round1_range (x : Q) :
  0 <= x -> x <= 100 -> 0 <= Py.py_round x 1 /\ Py.py_round x 1 <= 100.
Proof.
  intros H0 H1. unfold Py.py_round. change (inject_Z (10 ^ Z.of_nat 1)) with 10.
  assert (Hlo : (0 <= Py.round_half_even (x * 10))%Z).
  { apply round_half_even_nonneg. lra. }
  assert (Hhi : (Py.round_half_even (x * 10) <= 1000)%Z).
  { apply round_half_even_le. change (inject_Z 1000) with 1000. lra. }
  rewrite Zle_Qle in Hlo, Hhi.
  change (inject_Z 0) with 0 in Hlo. change (inject_Z 1000) with 1000 in Hhi.
  split.
  - apply Qle_shift_div_l; [reflexivity|]. lra.
  - apply Qle_shift_div_r; [reflexivity|]. lra.
Qed.

(** X3. Every market the scanner's fetcher keeps has a [yes_price], rounded to
    one decimal, between 0 and 100; the lower bound is reached: a record
    whose price resolves to 0.04 is kept with the price 0. *)
Theorem scanner_kalshi_page_prices fos (ms : list (gmap string Py.jval)) :
  List.Forall (fun k => 0 <= Scanner.yes_price k /\ Scanner.yes_price k <= 100)
              (Scanner.kalshi_page fos ms)
  /\ (exists k, Scanner.kalshi_page fos [ {[ "last_price" := Py.JNum (4 # 10000) ]} ] = [k]
                /\ Scanner.yes_price k == 0).
Proof.
  split.
  - induction ms as [|m ms IH]; cbn [Scanner.kalshi_page]; [constructor|].
    destruct (Scanner.extract_kalshi_yes_pct fos m) as [v|] eqn:E; [|exact IH].
    destruct (Qle_bool v 0); [exact IH|].
    constructor; [|exact IH]. cbn [Scanner.yes_price].
    destruct (extract_kalshi_yes_pct_range_aux fos m v E) as [H0 H1].
    apply py_round1_range; lra.
  - eexists. split; [vm_compute; reflexivity|]. vm_compute. reflexivity.
Qed.

(** ** More on trade admission *)

Section AdmissionMore.
Variable md5_hexdigest : string -> string.
Variables now_iso now_stamp : string.

Local Abbreviation execute_trades := (Bots.execute_trades md5_hexdigest now_iso now_stamp).
Local Abbreviation make_trade_record := (Bots.make_trade_record md5_hexdigest now_iso now_stamp).

Lemma admitted_at_cap (max_pos : Z) keys proposed (n_pos n_exec : nat) :
  (max_pos <= Z.of_nat n_pos + Z.of_nat n_exec)%Z ->
  admitted max_pos keys proposed n_pos n_exec = [].
Proof.
  intros H. induction proposed as [|t ts IH]; cbn [admitted]; [reflexivity|].
  destruct (bool_decide _); [exact IH|].
  destruct (Z.leb_spec max_pos (Z.of_nat n_pos + Z.of_nat n_exec)); [reflexivity|lia].
Qed.

(** X4. An agent that already holds [max_positions] positions or more admits
    nothing: the loop leaves the state as it is and executes no trade,
    whatever is proposed. *)
Theorem execute_trades_at_cap bot keys proposed bot_state :
  (Bots.max_pos bot <= Z.of_nat (List.length (Bots.BotState.positions bot_state)))%Z ->
  execute_trades bot keys proposed bot_state [] = (bot_state, []).
Proof.
  intros H. rewrite execute_trades_admitted.
  rewrite admitted_at_cap by (cbn [List.length]; lia).
  reflexivity.
Qed.

Lemma half_step (d : Z) :
  (1 <= d)%Z -> Z.to_nat ((d + 1) / 2) = S (Z.to_nat ((d - 2 + 1) / 2)).
Proof.
  intros H. replace (d + 1)%Z with (d - 2 + 1 + 1 * 2)%Z by lia.
  rewrite Z.div_add by lia.
  assert (0 <= (d - 2 + 1) / 2)%Z by (apply Z.div_pos; lia).
  lia.
Qed.

Lemma admitted_fresh_prefix (max_pos : Z) (keys : gset string) proposed
    (n_pos n_exec : nat) :
  List.Forall (fun t => Bots.normalize_title (Bots.Trade.market t) ∉ keys) proposed ->
  admitted max_pos keys proposed n_pos n_exec
  = firstn (Z.to_nat ((max_pos - (Z.of_nat n_pos + Z.of_nat n_exec) + 1) / 2)) proposed.
Proof.
  intros H. revert n_pos n_exec.
  induction H as [|t ts Ht _ IH]; intros n_pos n_exec; cbn [admitted].
  - now rewrite firstn_nil.
  - rewrite bool_decide_eq_false_2 by exact Ht.
    destruct (Z.leb_spec max_pos (Z.of_nat n_pos + Z.of_nat n_exec)) as [Hge | Hlt].
    + assert (E : ((max_pos - (Z.of_nat n_pos + Z.of_nat n_exec) + 1) / 2 < 1)%Z).
      { apply Z.div_lt_upper_bound; lia. }
      replace (Z.to_nat _) with 0%nat by lia. reflexivity.
    + rewrite half_step by lia. cbn [firstn]. f_equal. rewrite IH.
      f_equal. f_equal. f_equal. lia.
Qed.

(** X5. When none of the proposals is on a market held at the start of the
    cycle, the trades executed are those of a prefix of the ranked list, of
    length (max_positions - E + 1) / 2 rounded down, where E is the number of
    positions held at the start. *)
Theorem execute_trades_fresh_prefix bot (keys : gset string) proposed bot_state :
  List.Forall (fun t => Bots.normalize_title (Bots.Trade.market t) ∉ keys) proposed ->
  snd (execute_trades bot keys proposed bot_state [])
  = map (make_trade_record bot)
        (firstn (Z.to_nat
                   ((Bots.max_pos bot
                     - Z.of_nat (List.length (Bots.BotState.positions bot_state)) + 1) / 2))
                proposed).
Proof.
  intros H. rewrite execute_trades_admitted. cbn [snd app List.length].
  rewrite (admitted_fresh_prefix _ _ _ _ _ H). f_equal. f_equal. f_equal.
  f_equal. lia.
Qed.

Lemma admitted_sublist (max_pos : Z) keys proposed (n_pos n_exec : nat) :
  sublist (admitted max_pos keys proposed n_pos n_exec) proposed.
Proof.
  revert n_pos n_exec. induction proposed as [|t ts IH]; intros n_pos n_exec;
    cbn [admitted]; [constructor|].
  destruct (bool_decide _); [apply sublist_cons, IH|].
  destruct (_ <=? _)%Z; [apply sublist_nil_l|].
  apply sublist_skip, IH.
Qed.

Lemma sublist_map {A B : Type} (f : A -> B) (l k : list A) :
  sublist l k -> sublist (map f l) (map f k).
Proof. induction 1; cbn [map]; now constructor. Qed.

Lemma keys_distinct_after_execute bot proposed bot_state :
  NoDup (position_keys (Bots.BotState.positions bot_state)) ->
  NoDup (map (fun t => Bots.normalize_title (Bots.Trade.market t)) proposed) ->
  NoDup (position_keys
           (Bots.BotState.positions
              (fst (execute_trades bot
                      (Bots.existing_market_keys (Bots.BotState.positions bot_state))
                      proposed bot_state [])))).
Proof.
  intros Hheld Hprop. rewrite execute_trades_admitted. cbn [fst].
  rewrite book_all_positions. unfold position_keys. rewrite map_app, map_map.
  cbn [Bots.make_position Bots.Position.market].
  set (adm := admitted _ _ _ _ _).
  apply NoDup_app. split; [exact Hheld|]. split.
  - intros k Hk Hin. apply list_elem_of_In in Hk, Hin.
    apply in_map_iff in Hin. destruct Hin as (t & <- & Ht).
    pose proof (admitted_not_held (Bots.max_pos bot)
                  (Bots.existing_market_keys (Bots.BotState.positions bot_state))
                  proposed (List.length (Bots.BotState.positions bot_state)) 0) as Hf.
    rewrite List.Forall_forall in Hf. apply (Hf t Ht).
    now apply existing_market_keys_spec.
  - eapply sublist_NoDup; [exact Hprop|].
    apply sublist_map, admitted_sublist.
Qed.

(** X6. If the positions held at the start have pairwise distinct normalised
    keys and so have the proposals among themselves, the positions held after
    the admission loop have pairwise distinct keys. *)
Theorem distinct_proposals_keep_keys_distinct bot proposed bot_state :
  NoDup (position_keys (Bots.BotState.positions bot_state)) ->
  NoDup (map (fun t => Bots.normalize_title (Bots.Trade.market t)) proposed) ->
  NoDup (position_keys
           (Bots.BotState.positions
              (fst (execute_trades bot
                      (Bots.existing_market_keys (Bots.BotState.positions bot_state))
                      proposed bot_state [])))).
Proof. apply keys_distinct_after_execute. Qed.

End AdmissionMore.

Lemma execute_trades_at_cap_example :
  Bots.execute_trades (fun s => s) "" "" (test_bot 1)
    (Bots.existing_market_keys (Bots.BotState.positions held_state))
    [test_trade "Will another test happen?"] held_state []
  = (held_state, []).
Proof.
  apply (execute_trades_at_cap (fun s => s) "" "" (test_bot 1)).
  vm_compute. discriminate.
Defined.

Lemma execute_trades_fresh_prefix_example :
  snd (Bots.execute_trades (fun s => s) "" "" (test_bot 5) ∅
         [test_trade "Market A"; test_trade "Market B"; test_trade "Market C";
          test_trade "Market D"; test_trade "Market E"] test_state [])
  = map (Bots.make_trade_record (fun s => s) "" "" (test_bot 5))
        [test_trade "Market A"; test_trade "Market B"; test_trade "Market C"].
Proof.
  apply (execute_trades_fresh_prefix (fun s => s) "" "" (test_bot 5) ∅
           [test_trade "Market A"; test_trade "Market B"; test_trade "Market C";
            test_trade "Market D"; test_trade "Market E"] test_state).
  repeat constructor; apply not_elem_of_empty.
Defined.

Lemma distinct_proposals_keep_keys_distinct_example :
  NoDup (position_keys
           (Bots.BotState.positions
              (fst (Bots.execute_trades (fun s => s) "" "" (test_bot 5)
                      (Bots.existing_market_keys (Bots.BotState.positions held_state))
                      [test_trade "Market A"; test_trade "Market B"] held_state [])))).
Proof.
  apply (distinct_proposals_keep_keys_distinct (fun s => s) "" "" (test_bot 5)
           [test_trade "Market A"; test_trade "Market B"] held_state).
  - apply (bool_decide_unpack _). vm_compute. exact I.
  - apply (bool_decide_unpack _). vm_compute. exact I.
Defined.

(** ** Bookkeeping of a cycle *)

Section Bookkeeping.
Variable md5_hexdigest : string -> string.
Variables now_iso now_stamp : string.
Variable gap_error : Q -> Q -> comparison.

Local Abbreviation run_bot := (Bots.run_bot md5_hexdigest now_iso now_stamp gap_error).
Local Abbreviation run_bots := (Bots.run_bots md5_hexdigest now_iso now_stamp gap_error).
Local Abbreviation run_bot_engine :=
  (Bots.run_bot_engine md5_hexdigest now_iso now_stamp gap_error).

Lemma last_n_length {A : Type} (n : nat) (l : list A) :
  (n < List.length l)%nat -> List.length (Bots.last_n n l) = n.
Proof. intros H. unfold Bots.last_n. rewrite length_skipn. lia. Qed.

Lemma run_bot_equity_curve bot strategy all_markets poly_markets kalshi_markets bot_state :
  exists current_equity : Q,
    Bots.BotState.equity_curve
      (fst (fst (run_bot bot strategy all_markets poly_markets kalshi_markets bot_state)))
    = Bots.push_equity now_stamp (Bots.BotState.equity_curve bot_state) current_equity.
Proof.
  unfold Bots.run_bot, Bots.settle.
  pose proof (execute_trades_admitted md5_hexdigest now_iso now_stamp bot
                (Bots.existing_market_keys (Bots.BotState.positions bot_state))
                (Py.try_except
                   (strategy bot all_markets poly_markets kalshi_markets bot_state) [])
                bot_state []) as E.
  destruct (Bots.execute_trades _ _ _ _ _ _ _ _) as [st' ex'].
  injection E as -> _. cbn [fst Bots.BotState.equity_curve].
  set (adm := admitted _ _ _ _ _).
  destruct (book_all_frame md5_hexdigest now_iso now_stamp bot adm bot_state)
    as (_ & _ & _ & -> & _).
  eexists. reflexivity.
Qed.

(** X7. The equity curve never holds more than 168 samples after a cycle,
    however long it was before; its last sample is the one of this cycle; a
    curve of fewer than 168 samples only grows by that sample, and a longer
    one loses its oldest samples.  So the state a bot's step returns has a
    curve of at most 168 samples. *)
Theorem push_equity_bounded (equity_curve : list (string * Q)) (current_equity : Q) :
  let curve' := Bots.push_equity now_stamp equity_curve current_equity in
  (forall bot strategy all_markets poly_markets kalshi_markets bot_state,
     (List.length
        (Bots.BotState.equity_curve
           (fst (fst (run_bot bot strategy all_markets poly_markets kalshi_markets
                        bot_state)))) <= 168)%nat)
  /\ (List.length curve' <= 168)%nat
  /\ List.last curve' (""%string, 0) = (now_stamp, Py.py_round current_equity 2)
  /\ ((List.length equity_curve < 168)%nat ->
      curve' = (equity_curve ++ [(now_stamp, Py.py_round current_equity 2)])%list)
  /\ (exists evicted : list (string * Q),
        (evicted ++ curve')%list
        = (equity_curve ++ [(now_stamp, Py.py_round current_equity 2)])%list).
Proof.
  cbv zeta. unfold Bots.push_equity.
  set (sample := (now_stamp, Py.py_round current_equity 2)).
  set (l := (equity_curve ++ [sample])%list).
  assert (Hlen : List.length l = S (List.length equity_curve)).
  { unfold l. rewrite length_app. cbn [List.length]. lia. }
  assert (Hlast : forall k, (k < List.length l)%nat ->
                    List.last (skipn k l) (""%string, 0) = sample).
  { intros k Hk. unfold l in *. rewrite skipn_app.
    replace (k - List.length equity_curve)%nat with 0%nat by lia.
    cbn [skipn]. apply last_last. }
  assert (Hmain :
    (List.length (if (168 <? List.length l)%nat
                  then skipn (List.length l - 168) l else l) <= 168)%nat
    /\ List.last (if (168 <? List.length l)%nat
                  then skipn (List.length l - 168) l else l) (""%string, 0) = sample
    /\ ((List.length equity_curve < 168)%nat ->
        (if (168 <? List.length l)%nat
         then skipn (List.length l - 168) l else l) = l)
    /\ (exists evicted : list (string * Q),
          (evicted ++ (if (168 <? List.length l)%nat
                       then skipn (List.length l - 168) l else l))%list = l)).
  { destruct (Nat.ltb_spec 168 (List.length l)) as [Hgt | Hle].
    - split; [rewrite length_skipn; lia|]. split; [apply Hlast; lia|].
      split; [lia|].
      exists (firstn (List.length l - 168) l). apply firstn_skipn.
    - split; [lia|]. split; [apply (Hlast 0%nat); lia|].
      split; [reflexivity|]. now exists []. }
  split; [|exact Hmain].
  intros bot strategy all_markets poly_markets kalshi_markets bot_state.
  destruct (run_bot_equity_curve bot strategy all_markets poly_markets
              kalshi_markets bot_state) as [eq ->].
  clear. unfold Bots.push_equity.
  destruct (Nat.ltb_spec 168
              (List.length (Bots.BotState.equity_curve bot_state
                            ++ [(now_stamp, Py.py_round eq 2)]))) as [Hgt | Hle].
  - rewrite length_skipn. lia.
  - exact Hle.
Qed.

Lemma run_bot_new_trades bot strategy all_markets poly_markets kalshi_markets bot_state :
  Bots.BotResult.new_trades
    (snd (run_bot bot strategy all_markets poly_markets kalshi_markets bot_state))
  = snd (fst (run_bot bot strategy all_markets poly_markets kalshi_markets bot_state)).
Proof.
  unfold Bots.run_bot, Bots.settle.
  destruct (Bots.execute_trades _ _ _ _ _ _ _ _) as [st' ex']. reflexivity.
Qed.

Lemma run_bots_new_trades (smap : gmap string Bots.strategy_fn)
    all_markets poly_markets kalshi_markets (bots : list Bots.Bot.t) :
  forall (state : gmap string Bots.BotState.t) results trades,
    trades = concat (map Bots.BotResult.new_trades results) ->
    snd (run_bots smap bots all_markets poly_markets kalshi_markets state results trades)
    = concat (map Bots.BotResult.new_trades
                (snd (fst (run_bots smap bots all_markets poly_markets kalshi_markets
                             state results trades)))).
Proof.
  induction bots as [|b rest IH]; intros state results trades Htrades;
    cbn [Bots.run_bots].
  - exact Htrades.
  - destruct (smap !! Bots.Bot.strategy b) as [f|]; [|now apply IH].
    pose proof (run_bot_new_trades b f all_markets poly_markets kalshi_markets
                  (default (Bots.fresh_state now_stamp) (state !! Bots.Bot.id b))) as E.
    destruct (run_bot b f _ _ _ _) as [[bs ex] res]. cbn [fst snd] in E.
    apply IH. rewrite map_app, concat_app. cbn [map concat].
    now rewrite app_nil_r, E, Htrades.
Qed.

(** X8. The trades of a run are those the entries of the bots report, in
    the order of the roster, and the result counts them.  After the run the
    stored trade log is the old log followed by these trades, without its
    oldest records when that is more than 500: it holds at most 500 records,
    and all of them when there are no more than 500.  The result lists at
    most 50 recent trades. *)
Theorem trade_log_bounded (smap : gmap string Bots.strategy_fn) (BOTS : list Bots.Bot.t)
    (poly_markets kalshi_markets : list Bots.Market.t)
    (state : gmap string Bots.BotState.t) (all_trades : list Bots.TradeRecord.t) :
  let result := run_bot_engine smap BOTS poly_markets kalshi_markets state all_trades in
  let new_trades :=
    concat (map Bots.BotResult.new_trades (Bots.EngineResult.bots result)) in
  let log := (all_trades ++ new_trades)%list in
  (List.length (Bots.EngineResult.saved_trades result) <= 500)%nat
  /\ (List.length (Bots.EngineResult.recentTrades result) <= 50)%nat
  /\ Bots.EngineResult.newTradesCount result = List.length new_trades
  /\ (exists dropped,
        (dropped ++ Bots.EngineResult.saved_trades result)%list = log)
  /\ ((List.length log <= 500)%nat -> Bots.EngineResult.saved_trades result = log)
  /\ ((500 < List.length log)%nat ->
      List.length (Bots.EngineResult.saved_trades result) = 500%nat)
  /\ Bots.EngineResult.recentTrades result
     = firstn 50
         (Bots.sorted_newest_first
            (new_trades ++ Bots.last_n 50 (Bots.EngineResult.saved_trades result))).
Proof.
  cbv zeta. unfold Bots.run_bot_engine, Bots.engine_result.
  pose proof (run_bots_new_trades smap (poly_markets ++ kalshi_markets)
                poly_markets kalshi_markets BOTS state [] [] eq_refl) as Hnew.
  destruct (Bots.run_bots _ _ _ _ _ _ _ _ _ _ _ _) as [[st res] new].
  cbn [fst snd] in Hnew.
  cbn [Bots.EngineResult.saved_trades Bots.EngineResult.recentTrades
       Bots.EngineResult.newTradesCount Bots.EngineResult.bots].
  rewrite <- Hnew.
  split; [|split; [|split; [|split; [|split; [|split]]]]].
  - destruct (Nat.ltb_spec 500 (List.length (all_trades ++ new))) as [H | H].
    + rewrite last_n_length by exact H. lia.
    + exact H.
  - rewrite length_firstn. lia.
  - reflexivity.
  - destruct (Nat.ltb_spec 500 (List.length (all_trades ++ new))) as [H | H].
    + exists (firstn (List.length (all_trades ++ new) - 500) (all_trades ++ new)).
      apply firstn_skipn.
    + now exists [].
  - intros Hle.
    destruct (Nat.ltb_spec 500 (List.length (all_trades ++ new))) as [H | H];
      [lia|reflexivity].
  - intros Hgt.
    destruct (Nat.ltb_spec 500 (List.length (all_trades ++ new))) as [H | H];
      [now apply last_n_length|lia].
  - reflexivity.
Qed.

(** X9. The price update moves the mark of a position by at most 15 points
    in one cycle. *)
Theorem mark_moves_at_most_15 (all_markets : list Bots.Market.t) (pos : Bots.Position.t) :
  Qabs (Bots.Position.current_price (Bots.update_price gap_error all_markets pos)
        - Bots.Position.current_price pos) <= 15.
Proof.
  unfold Bots.update_price, Bots.mark.
  assert (Hsame : Qabs (Bots.Position.current_price pos
                        - Bots.Position.current_price pos) <= 15).
  { assert (E0 : Bots.Position.current_price pos - Bots.Position.current_price pos == 0)
      by ring.
    rewrite E0. discriminate. }
  destruct (Bots.exact_match _ _) as [mkt|]; [|exact Hsame].
  pose proof (compare_gap_cases gap_error (Bots.Market.yes_pct mkt)
                (Bots.Position.current_price pos) 15) as Hc.
  destruct (Py.compare_gap _ _ _ _); [| |exact Hsame];
    cbn [Bots.Position.set_current_price Bots.Position.current_price].
  - destruct Hc as [Hc _]. lra.
  - destruct Hc as [Hc | [Hc _]]; lra.
Qed.

End Bookkeeping.

(** ** Unrealised profit and loss *)

Lemma py_round2_lower (x : Q) : x - (1 # 200) <= Py.py_round x 2.
Proof.
  unfold Py.py_round. change (inject_Z (10 ^ Z.of_nat 2)) with 100.
  pose proof (round_half_even_lower (x * 100)) as H.
  apply Qle_shift_div_l; [reflexivity|]. lra.
Qed.

(** X10. A position the engine opens for an arbitrage proposal never adds to
    the unrealised profit: the position record is built without the
    [arb_detail] of the proposal, which the profit computation needs. *)
Theorem arb_position_has_no_pnl (trade : Bots.Trade.t) (trade_record : Bots.TradeRecord.t) :
  Bots.Trade.direction trade = Bots.ARB ->
  Bots.position_pnl (Bots.make_position trade trade_record) = 0.
Proof.
  intros H. unfold Bots.position_pnl, Bots.make_position.
  cbn [Bots.Position.entry_price Bots.Position.current_price Bots.Position.bet_amount
       Bots.Position.direction Bots.Position.arb_detail].
  rewrite H. now destruct (_ || _).
Qed.

Lemma loss_when_exit_below_entry (bet entry exit_price : Q) :
  0 < bet -> 0 < entry -> exit_price < entry ->
  bet / (entry / 100) * (exit_price / 100) - bet < 0.
Proof.
  intros Hb He Hx.
  assert (E : bet / (entry / 100) * (exit_price / 100) - bet
              == bet * ((exit_price - entry) / entry)).
  { field. intros E. rewrite E in He. discriminate He. }
  rewrite E.
  assert (Hneg : (exit_price - entry) / entry < 0).
  { apply Qlt_shift_div_r; [exact He|]. lra. }
  nra.
Qed.

(** X11. A BUY_YES or BUY_NO position opened with a positive stake at a
    tradeable price (between 5 and 95) shows a loss as soon as it is opened:
    marked at the price it was proposed at, its unrealised profit is
    negative, because slippage is charged on entry and again on exit. *)
Theorem new_position_shows_a_loss (trade : Bots.Trade.t) (trade_record : Bots.TradeRecord.t) :
  Bots.Trade.direction trade = Bots.BUY_YES \/ Bots.Trade.direction trade = Bots.BUY_NO ->
  5 <= Bots.Trade.market_price trade -> Bots.Trade.market_price trade <= 95 ->
  0 < Bots.Trade.bet_amount trade ->
  Bots.position_pnl (Bots.make_position trade trade_record) < 0.
Proof.
  intros Hdir H5 H95 Hbet. unfold Bots.position_pnl, Bots.make_position.
  cbn [Bots.Position.entry_price Bots.Position.current_price Bots.Position.bet_amount
       Bots.Position.direction Bots.Position.arb_detail].
  set (m := Bots.Trade.market_price trade) in *.
  set (bet := Bots.Trade.bet_amount trade) in *.
  assert (Hslip : Bots.SLIPPAGE_PCT / 100 == 2 # 100) by reflexivity.
  destruct Hdir as [-> | ->]; cbn [Bots.apply_slippage].
  - set (slipped := Qmin (m * (1 + Bots.SLIPPAGE_PCT / 100)) 99).
    assert (Hlo : m * (98 # 100) + (1 # 100) < slipped).
    { unfold slipped. apply Q.min_glb_lt; rewrite ?Hslip; lra. }
    assert (Hhi : slipped <= 99) by apply Q.le_min_r.
    pose proof (py_round2_lower slipped) as Hrl.
    pose proof (py_round2_upper slipped) as Hru.
    set (entry := Py.py_round slipped 2) in *.
    assert (G1 : Qle_bool entry 0 = false) by (apply Qle_bool_false; lra).
    assert (G2 : Qle_bool 100 entry = false) by (apply Qle_bool_false; lra).
    assert (G3 : Qle_bool m 0 = false) by (apply Qle_bool_false; lra).
    rewrite G1, G2, G3. cbn [orb].
    apply loss_when_exit_below_entry; [exact Hbet| lra |]. rewrite Hslip. lra.
  - set (slipped := Qmax (m * (1 - Bots.SLIPPAGE_PCT / 100)) 1).
    assert (Hlo : 1 <= slipped) by apply Q.le_max_r.
    assert (Hhi : slipped <= m * (98 # 100) + 1).
    { unfold slipped. apply Q.max_lub; rewrite ?Hslip; lra. }
    pose proof (py_round2_lower slipped) as Hrl.
    pose proof (py_round2_upper slipped) as Hru.
    set (entry := Py.py_round slipped 2) in *.
    assert (G1 : Qle_bool entry 0 = false) by (apply Qle_bool_false; lra).
    assert (G2 : Qle_bool 100 entry = false) by (apply Qle_bool_false; lra).
    assert (G3 : Qle_bool m 0 = false) by (apply Qle_bool_false; lra).
    assert (G4 : Qle_bool (100 - entry) 0 = false) by (apply Qle_bool_false; lra).
    rewrite G1, G2, G3, G4. cbn [orb].
    apply loss_when_exit_below_entry; [exact Hbet| lra |]. rewrite Hslip. lra.
Qed.

Lemma arb_position_has_no_pnl_example :
  Bots.position_pnl
    (Bots.make_position
       {| Bots.Trade.market := "Market A";
          Bots.Trade.platform := "Kalshi";
          Bots.Trade.url := "";
          Bots.Trade.category := "Other";
          Bots.Trade.direction := Bots.ARB;
          Bots.Trade.market_price := 60;
          Bots.Trade.estimated_prob := 50;
          Bots.Trade.edge_pp := 10;
          Bots.Trade.bet_amount := 500;
          Bots.Trade.kelly_fraction := 1 # 2;
          Bots.Trade.source := "Kalshi vs Polymarket";
          Bots.Trade.rationale := "";
          Bots.Trade.confidence := "HIGH";
          Bots.Trade.arb_detail :=
            Some {| Bots.ArbDetail.buy_platform := "Kalshi";
                    Bots.ArbDetail.buy_price := 50;
                    Bots.ArbDetail.sell_platform := "Polymarket";
                    Bots.ArbDetail.sell_price := 60;
                    Bots.ArbDetail.spread := 10 |} |}
       (Bots.make_trade_record (fun s => s) "" "" (test_bot 5) (test_trade "Market A")))
  = 0.
Proof. apply arb_position_has_no_pnl. reflexivity. Defined.

Lemma new_position_shows_a_loss_example :
  Bots.position_pnl
    (Bots.make_position (test_trade "Market A")
       (Bots.make_trade_record (fun s => s) "" "" (test_bot 5) (test_trade "Market A")))
  < 0.
Proof.
  apply new_position_shows_a_loss.
  - left. reflexivity.
  - vm_compute. discriminate.
  - vm_compute. discriminate.
  - reflexivity.
Defined.

(** ** Keyword overlap *)

Lemma ratio_bounds (a b : nat) :
  (a <= b)%nat -> (0 < b)%nat ->
  0 <= inject_Z (Z.of_nat a) / inject_Z (Z.of_nat b)
  /\ inject_Z (Z.of_nat a) / inject_Z (Z.of_nat b) <= 1.
Proof.
  intros Hab Hb.
  assert (Hb' : 0 < inject_Z (Z.of_nat b)).
  { change 0 with (inject_Z 0). rewrite <- Zlt_Qlt. lia. }
  assert (Ha' : 0 <= inject_Z (Z.of_nat a)).
  { change 0 with (inject_Z 0). rewrite <- Zle_Qle. lia. }
  assert (Hab' : inject_Z (Z.of_nat a) <= inject_Z (Z.of_nat b)).
  { rewrite <- Zle_Qle. lia. }
  split.
  - apply Qle_shift_div_l; [exact Hb'|]. lra.
  - apply Qle_shift_div_r; [exact Hb'|]. lra.
Qed.

Lemma nonempty_size (X : gset string) : X <> ∅ -> (0 < size X)%nat.
Proof.
  intros H. destruct (size X) eqn:E; [|lia].
  apply size_empty_iff in E. apply leibniz_equiv in E. contradiction.
Qed.

(** X12. The keyword overlap of two titles is a number between 0 and 1, the
    same in both orders of the arguments, and 0 when one of the titles has no
    word. *)
Theorem keyword_overlap_bounds (t1 t2 : string) :
  0 <= Strategy.keyword_overlap t1 t2
  /\ Strategy.keyword_overlap t1 t2 <= 1
  /\ Strategy.keyword_overlap t1 t2 = Strategy.keyword_overlap t2 t1
  /\ (Strategy.split t1 = [] \/ Strategy.split t2 = [] ->
      Strategy.keyword_overlap t1 t2 = 0).
Proof.
  unfold Strategy.keyword_overlap.
  set (X := list_to_set (Strategy.split t1) : gset string).
  set (Y := list_to_set (Strategy.split t2) : gset string).
  split; [|split; [|split]].
  - do 2 case_bool_decide; cbn [orb]; try discriminate.
    apply ratio_bounds.
    + pose proof (subseteq_size (X ∩ Y) X ltac:(set_solver)).
      pose proof (subseteq_size (X ∩ Y) Y ltac:(set_solver)). lia.
    + pose proof (nonempty_size X ltac:(assumption)).
      pose proof (nonempty_size Y ltac:(assumption)). lia.
  - do 2 case_bool_decide; cbn [orb]; try discriminate.
    apply ratio_bounds.
    + pose proof (subseteq_size (X ∩ Y) X ltac:(set_solver)).
      pose proof (subseteq_size (X ∩ Y) Y ltac:(set_solver)). lia.
    + pose proof (nonempty_size X ltac:(assumption)).
      pose proof (nonempty_size Y ltac:(assumption)). lia.
  - rewrite (orb_comm (bool_decide (X = ∅))).
    rewrite (comm_L (∩) X Y), (Nat.min_comm (size X)). reflexivity.
  - intros [H | H]; [assert (E : X = ∅) by (unfold X; now rewrite H)
                    |assert (E : Y = ∅) by (unfold Y; now rewrite H)];
      rewrite (bool_decide_eq_true_2 _ E); now rewrite ?orb_true_r.
Qed.

(** X13. A title with at least one word, all of whose words occur in the
    other title, has overlap 1 with it, however many more words the other
    title has. *)
Theorem keyword_overlap_of_subset (t1 t2 : string) :
  Strategy.split t1 <> [] ->
  (forall w, In w (Strategy.split t1) -> In w (Strategy.split t2)) ->
  Strategy.keyword_overlap t1 t2 == 1.
Proof.
  intros Hne Hsub. unfold Strategy.keyword_overlap.
  set (X := list_to_set (Strategy.split t1) : gset string).
  set (Y := list_to_set (Strategy.split t2) : gset string).
  assert (HXY : X ⊆ Y).
  { intros w Hw. unfold X, Y in *. rewrite elem_of_list_to_set in *.
    apply list_elem_of_In. apply Hsub. now apply list_elem_of_In. }
  assert (HX : X <> ∅).
  { destruct (Strategy.split t1) as [|w ws] eqn:E; [congruence|].
    unfold X. set_solver. }
  assert (HY : Y <> ∅) by set_solver.
  rewrite (bool_decide_eq_false_2 _ HX), (bool_decide_eq_false_2 _ HY). cbn [orb].
  replace (X ∩ Y) with X by set_solver.
  pose proof (subseteq_size X Y HXY) as Hle.
  rewrite Nat.min_l by exact Hle.
  pose proof (nonempty_size X HX) as Hpos.
  assert (Hq : 0 < inject_Z (Z.of_nat (size X))).
  { change 0 with (inject_Z 0). rewrite <- Zlt_Qlt. lia. }
  field. intros E. rewrite E in Hq. discriminate Hq.
Qed.

Lemma keyword_overlap_of_subset_example :
  Strategy.keyword_overlap "fed march" "will fed hold rates in march" == 1.
Proof.
  apply keyword_overlap_of_subset.
  - vm_compute. discriminate.
  - intros w Hw. vm_compute in Hw. vm_compute.
    destruct Hw as [<- | [<- | []]]; tauto.
Defined.

(** ** Reference lookup *)

Lemma find_in_step (r : Strategy.Reference.t) (rest : list Strategy.Reference.t)
    (t : string) :
  Strategy.find_in (r :: rest) t
  = if ref_matches t r then Some r else Strategy.find_in rest t.
Proof.
  cbn [Strategy.find_in]. unfold ref_matches.
  destruct (forallb _ (Strategy.Reference.require_all r)); cbn [negb andb];
    [|reflexivity].
  destruct (Strategy.Reference.require_any r) as [|kw kws]; cbn [andb].
  - now destruct (existsb _ (Strategy.Reference.exclude r)).
  - destruct (existsb _ (kw :: kws)); cbn [negb andb]; [|reflexivity].
    now destruct (existsb _ (Strategy.Reference.exclude r)).
Qed.

Lemma find_in_first_match (refs : list Strategy.Reference.t) (t : string) :
  match Strategy.find_in refs t with
  | Some ref =>
      exists before after,
        refs = (before ++ ref :: after)%list
        /\ ref_matches t ref = true
        /\ List.Forall (fun r => ref_matches t r = false) before
  | None => List.Forall (fun r => ref_matches t r = false) refs
  end.
Proof.
  induction refs as [|r rest IH]; [constructor|].
  rewrite find_in_step. destruct (ref_matches t r) eqn:Hr.
  - exists [], rest. repeat split; [exact Hr|constructor].
  - destruct (Strategy.find_in rest t) as [ref|].
    + destruct IH as (before & after & -> & Hm & Hb).
      exists (r :: before), after. repeat split; [exact Hm|now constructor].
    + now constructor.
Qed.

Lemma find_reference_matches (title : string) :
  match Strategy.find_reference title with
  | Some ref =>
      exists before after,
        Strategy.REFERENCE_PROBS = (before ++ ref :: after)%list
        /\ ref_matches (Py.str_lower title) ref = true
        /\ List.Forall (fun r => ref_matches (Py.str_lower title) r = false) before
  | None =>
      List.Forall (fun r => ref_matches (Py.str_lower title) r = false)
                  Strategy.REFERENCE_PROBS
  end.
Proof. apply find_in_first_match. Qed.

(** X14. [find_reference] returns the first entry of the table, in its
    order, whose three tests the lower-cased title passes (all required
    keywords occur, one of the optional ones occurs when there are any, no
    excluded keyword occurs), and nothing exactly when no entry passes. *)
Theorem find_reference_first_match (title : string) :
  match Strategy.find_reference title with
  | Some ref =>
      exists before after,
        Strategy.REFERENCE_PROBS = (before ++ ref :: after)%list
        /\ ref_matches (Py.str_lower title) ref = true
        /\ List.Forall (fun r => ref_matches (Py.str_lower title) r = false) before
  | None =>
      List.Forall (fun r => ref_matches (Py.str_lower title) r = false)
                  Strategy.REFERENCE_PROBS
  end.
Proof. apply find_reference_matches. Qed.

(** X15. Every probability the reference table can return lies between 4 and
    96 percent, so that divided by 100 it is strictly inside the band
    (0.01, 0.99) outside of which the Kelly sizing refuses to trade. *)
Theorem find_reference_prob_in_band (title : string) (ref : Strategy.Reference.t) :
  Strategy.find_reference title = Some ref ->
  4 <= Strategy.Reference.prob ref /\ Strategy.Reference.prob ref <= 96
  /\ 1 # 100 < Strategy.Reference.prob ref / 100
  /\ Strategy.Reference.prob ref / 100 < 99 # 100.
Proof.
  intros H. pose proof (find_reference_matches title) as Hf. rewrite H in Hf.
  destruct Hf as (before & after & Htable & _ & _).
  assert (Hin : In ref Strategy.REFERENCE_PROBS).
  { rewrite Htable. apply in_or_app. right. now left. }
  assert (Hall : List.Forall
                   (fun r => 4 <= Strategy.Reference.prob r
                             /\ Strategy.Reference.prob r <= 96)
                   Strategy.REFERENCE_PROBS).
  { unfold Strategy.REFERENCE_PROBS.
    repeat constructor; cbn [Strategy.Reference.prob]; discriminate. }
  rewrite List.Forall_forall in Hall. destruct (Hall ref Hin) as [H4 H96].
  split; [exact H4|]. split; [exact H96|]. split.
  - apply Qlt_shift_div_l; [reflexivity|]. lra.
  - apply Qlt_shift_div_r; [reflexivity|]. lra.
Qed.

Lemma find_reference_prob_in_band_example :
  4 <= 96 /\ 96 <= 96 /\ 1 # 100 < 96 / 100 /\ 96 / 100 < 99 # 100.
Proof.
  apply (find_reference_prob_in_band "Will the Fed hold rates in March?"
           {| Strategy.Reference.id := "fed_march_nochange";
              Strategy.Reference.prob := 96;
              Strategy.Reference.source := "CME FedWatch";
              Strategy.Reference.require_all := ["fed"; "march"];
              Strategy.Reference.require_any := ["no change"; "hold"; "unchanged"];
              Strategy.Reference.exclude :=
                ["chair"; "nominate"; "powell"; "warsh"; "decrease"; "cut";
                 "bps"; "25"; "50"; "75"; "100"; "increase"; "hike"] |}).
  vm_compute. reflexivity.
Defined.

(** ** The arbitrage strategy *)

Lemma round_half_even_ge (t : Q) (n : Z) :
  inject_Z n <= t -> (n <= Py.round_half_even t)%Z.
Proof.
  intros Ht. unfold Py.round_half_even.
  assert (Hf : (n <= Qfloor t)%Z).
  { rewrite <- (Qfloor_Z n). now apply Qfloor_resp_le. }
  destruct (Qcompare _ _); [destruct (Z.even _)|..]; lia.
Qed.

Lemma py_round2_ge_10 (x : Q) : 10 <= x -> 10 <= Py.py_round x 2.
Proof.
  intros H. unfold Py.py_round. change (inject_Z (10 ^ Z.of_nat 2)) with 100.
  assert (Hr : (1000 <= Py.round_half_even (x * 100))%Z).
  { apply round_half_even_ge. change (inject_Z 1000) with 1000. lra. }
  rewrite Zle_Qle in Hr. change (inject_Z 1000) with 1000 in Hr.
  apply Qle_shift_div_l; [reflexivity|]. lra.
Qed.

Lemma is_tradeable_band (mkt : Bots.Market.t) :
  Strategy.is_tradeable mkt = true ->
  5 <= Bots.Market.yes_pct mkt /\ Bots.Market.yes_pct mkt <= 95.
Proof.
  unfold Strategy.is_tradeable.
  destruct (Py.Qltb (Bots.Market.yes_pct mkt) Bots.MIN_TRADEABLE_PRICE) eqn:E1;
    [discriminate|].
  destruct (Py.Qltb Bots.MAX_TRADEABLE_PRICE (Bots.Market.yes_pct mkt)) eqn:E2;
    [discriminate|].
  intros _. apply Qltb_false in E1, E2. split; assumption.
Qed.

Lemma Forall_sublist {A : Type} (P : A -> Prop) (l k : list A) :
  sublist l k -> List.Forall P k -> List.Forall P l.
Proof.
  induction 1 as [|x l k _ IH|x l k _ IH]; intros H; [constructor|..];
    inversion H; subst; [constructor|]; auto.
Qed.

Lemma insert_by_edge_Forall (P : Bots.Trade.t -> Prop) t l :
  P t -> List.Forall P l -> List.Forall P (Arbitrage.insert_by_edge t l).
Proof.
  intros Ht H. induction H as [|h l Hh Hl IH]; cbn [Arbitrage.insert_by_edge].
  - now constructor.
  - destruct (Py.Qltb _ _); [constructor; assumption|].
    constructor; [exact Ht|]. now constructor.
Qed.

Lemma sort_by_edge_Forall (P : Bots.Trade.t -> Prop) l :
  List.Forall P l -> List.Forall P (Arbitrage.sort_by_edge l).
Proof.
  induction 1 as [|t l Ht _ IH]; cbn [Arbitrage.sort_by_edge fold_right];
    [constructor|].
  now apply insert_by_edge_Forall.
Qed.

Lemma insert_by_edge_ranked t l :
  ranked_by_edge l -> ranked_by_edge (Arbitrage.insert_by_edge t l).
Proof.
  induction l as [|h l IH]; cbn [Arbitrage.insert_by_edge]; intros H.
  - cbn. split; [constructor|exact I].
  - destruct H as [Hh Hl].
    destruct (Py.Qltb (Bots.Trade.edge_pp t) (Bots.Trade.edge_pp h)) eqn:E.
    + apply Qltb_true in E. cbn [ranked_by_edge]. split; [|now apply IH].
      apply insert_by_edge_Forall; [now apply Qlt_le_weak|exact Hh].
    + apply Qltb_false in E. cbn [ranked_by_edge]. split; [|now split].
      constructor; [exact E|].
      eapply List.Forall_impl; [|exact Hh]. cbn. intros u Hu.
      now apply Qle_trans with (Bots.Trade.edge_pp h).
Qed.

Lemma sort_by_edge_ranked l : ranked_by_edge (Arbitrage.sort_by_edge l).
Proof.
  induction l as [|t l IH]; cbn [Arbitrage.sort_by_edge fold_right]; [exact I|].
  now apply insert_by_edge_ranked.
Qed.

Lemma ranked_sublist l k : sublist l k -> ranked_by_edge k -> ranked_by_edge l.
Proof.
  induction 1 as [|x l k Hs IH|x l k Hs IH]; cbn [ranked_by_edge]; intros H.
  - exact I.
  - destruct H as [Hx Hk]. split; [|now apply IH].
    now apply (Forall_sublist _ l k).
  - destruct H as [_ Hk]. now apply IH.
Qed.

Lemma unique_by_title_sublist seen l : sublist (Arbitrage.unique_by_title seen l) l.
Proof.
  revert seen. induction l as [|t l IH]; intros seen; cbn [Arbitrage.unique_by_title];
    [constructor|].
  destruct (bool_decide _); [apply sublist_cons|apply sublist_skip]; apply IH.
Qed.

Lemma unique_by_title_NoDup seen l :
  NoDup (map (fun t => Bots.normalize_title (Bots.Trade.market t))
             (Arbitrage.unique_by_title seen l))
  /\ List.Forall (fun t => Bots.normalize_title (Bots.Trade.market t) ∉ seen)
                 (Arbitrage.unique_by_title seen l).
Proof.
  revert seen. induction l as [|t l IH]; intros seen; cbn [Arbitrage.unique_by_title].
  - split; constructor.
  - case_bool_decide as Hin; [apply IH|].
    destruct (IH ({[Bots.normalize_title (Bots.Trade.market t)]} ∪ seen)) as [Hnd Hfa].
    cbn [map]. split.
    + apply NoDup_cons. split; [|exact Hnd].
      intros Hk. apply list_elem_of_In, in_map_iff in Hk.
      destruct Hk as (u & Hu & Huin).
      rewrite List.Forall_forall in Hfa. apply (Hfa u Huin). rewrite Hu. set_solver.
    + constructor; [exact Hin|].
      eapply List.Forall_impl; [|exact Hfa]. cbn. intros u Hu Hs.
      apply Hu. apply elem_of_union_r. exact Hs.
Qed.

Lemma slice_to_sublist {A : Type} (n : Z) (l : list A) :
  sublist (Arbitrage.slice_to n l) l.
Proof. unfold Arbitrage.slice_to. destruct (_ <=? _)%Z; apply sublist_take. Qed.

Lemma slice_to_length {A : Type} (n : Z) (l : list A) :
  (0 <= n)%Z -> (Z.of_nat (List.length (Arbitrage.slice_to n l)) <= n)%Z.
Proof.
  intros H. unfold Arbitrage.slice_to.
  destruct (Z.leb_spec 0 n); [|lia]. rewrite length_firstn. lia.
Qed.

Lemma gap_lt_false (gap_error : Q -> Q -> comparison) (a b bound : Q) :
  Py.gap_lt gap_error a b bound = false -> bound <= Qabs (a - b).
Proof.
  unfold Py.gap_lt. pose proof (compare_gap_cases gap_error a b bound) as Hc.
  destruct (Py.compare_gap _ _ _ _); [|discriminate|]; intros _.
  - destruct Hc as [Hc _]. lra.
  - destruct Hc as [Hc | [Hc _]]; lra.
Qed.

Lemma gap_lt_true (gap_error : Q -> Q -> comparison) (a b bound : Q) :
  Py.gap_lt gap_error a b bound = true -> Qabs (a - b) <= bound.
Proof.
  unfold Py.gap_lt. pose proof (compare_gap_cases gap_error a b bound) as Hc.
  destruct (Py.compare_gap _ _ _ _); [discriminate| |discriminate]; intros _.
  destruct Hc as [Hc | [Hc _]]; lra.
Qed.

Section ArbitrageProps.
Variable gap_error : Q -> Q -> comparison.
Variable format_float : string -> Q -> string.

Local Abbreviation arb_pair := (Arbitrage.arb_pair gap_error format_float).
Local Abbreviation arb_inner := (Arbitrage.arb_inner gap_error format_float).
Local Abbreviation arb_outer := (Arbitrage.arb_outer gap_error format_float).
Local Abbreviation strategy_cross_platform_arb :=
  (Arbitrage.strategy_cross_platform_arb gap_error format_float).

Lemma arb_pair_ok params bankroll pm km t :
  arb_pair params bankroll pm km = Py.Ok (Some t) ->
  1 # 2 <= Strategy.keyword_overlap (Bots.normalize_title (Bots.Market.title pm))
                                    (Bots.normalize_title (Bots.Market.title km))
  /\ arb_fields params bankroll pm km t.
Proof.
  unfold Arbitrage.arb_pair, Arbitrage.getitem.
  destruct (Py.Qltb (Strategy.keyword_overlap _ _) (1 # 2)) eqn:Eo; [discriminate|].
  apply Qltb_false in Eo.
  destruct (params !! "min_spread") as [min_spread|] eqn:Ems; [|discriminate].
  destruct (Py.gap_lt _ _ _ min_spread) eqn:Egap; [discriminate|].
  apply gap_lt_false in Egap.
  destruct (params !! "kelly_fraction") as [kf|] eqn:Ekf.
  2:{ destruct (Py.Qltb 0 _); discriminate. }
  set (gap := Qabs (Bots.Market.yes_pct pm - Bots.Market.yes_pct km)) in *.
  set (bet := Qmin (bankroll * (gap / 100) * kf) (bankroll * (20 # 100))).
  assert (Hconf : forall c : string,
            c = (if Py.gap_lt gap_error (Bots.Market.yes_pct pm)
                              (Bots.Market.yes_pct km) 10
                 then "MEDIUM" else "HIGH")%string ->
            c = "HIGH"%string /\ 10 <= gap \/ c = "MEDIUM"%string /\ gap <= 10).
  { intros c ->. destruct (Py.gap_lt _ _ _ 10) eqn:E10.
    - right. split; [reflexivity|]. now apply gap_lt_true in E10.
    - left. split; [reflexivity|]. now apply gap_lt_false in E10. }
  destruct (Py.Qltb 0 (Bots.Market.yes_pct pm - Bots.Market.yes_pct km)) eqn:Eside;
    (destruct (Py.Qltb bet 10) eqn:Eb; [discriminate|]; apply Qltb_false in Eb;
     intros [= <-]; split; [exact Eo|]; unfold arb_fields; cbv zeta;
     cbn [Bots.Trade.direction Bots.Trade.market Bots.Trade.category
          Bots.Trade.market_price Bots.Trade.estimated_prob Bots.Trade.edge_pp
          Bots.Trade.kelly_fraction Bots.Trade.bet_amount Bots.Trade.confidence
          Bots.Trade.arb_detail Bots.Trade.url Bots.Trade.platform
          Bots.Trade.source];
     fold gap; fold bet;
     repeat (split; [reflexivity|]);
     split; [now exists min_spread|];
     split; [exists kf; repeat split; [exact Ekf]|];
     split; [now apply py_round2_ge_10|];
     split; [eapply Qle_trans; [apply py_round2_upper|];
             pose proof (Q.le_min_r (bankroll * (gap / 100) * kf)
                                    (bankroll * (20 # 100))) as Hm;
             fold bet in Hm; lra|];
     split; [now apply Hconf|];
     eexists; split; [reflexivity|]; split; [reflexivity|];
     split; [|split; reflexivity]).
  - left. apply Qltb_true in Eside.
    split; [lra|]. cbn [Bots.ArbDetail.buy_platform Bots.ArbDetail.buy_price
                        Bots.ArbDetail.sell_platform Bots.ArbDetail.sell_price].
    repeat split.
  - right. apply Qltb_false in Eside.
    split; [lra|]. cbn [Bots.ArbDetail.buy_platform Bots.ArbDetail.buy_price
                        Bots.ArbDetail.sell_platform Bots.ArbDetail.sell_price].
    repeat split.
Qed.

Lemma arb_inner_ok params bankroll pm kalshi_markets trades :
  arb_inner params bankroll pm kalshi_markets = Py.Ok trades ->
  List.Forall
    (fun t => exists km, In km kalshi_markets /\ Strategy.is_tradeable km = true
                         /\ arb_pair params bankroll pm km = Py.Ok (Some t))
    trades.
Proof.
  revert trades. induction kalshi_markets as [|km rest IH]; intros trades;
    cbn [Arbitrage.arb_inner].
  - intros [= <-]. constructor.
  - assert (Hweak : forall l,
      List.Forall
        (fun t => exists km, In km rest /\ Strategy.is_tradeable km = true
                             /\ arb_pair params bankroll pm km = Py.Ok (Some t)) l ->
      List.Forall
        (fun t => exists km', In km' (km :: rest) /\ Strategy.is_tradeable km' = true
                              /\ arb_pair params bankroll pm km' = Py.Ok (Some t)) l).
    { intros l. apply List.Forall_impl. intros t (k & Hin & Hk). exists k.
      split; [now right|exact Hk]. }
    destruct (Strategy.is_tradeable km) eqn:Et; cbn [negb].
    + destruct (arb_pair params bankroll pm km) as [found|] eqn:Ep; [|discriminate].
      destruct (arb_inner params bankroll pm rest) as [more|]; [|discriminate].
      intros [= <-]. specialize (IH more eq_refl). apply Hweak in IH.
      destruct found as [t|]; [|exact IH].
      constructor; [|exact IH]. exists km. split; [now left|]. now split.
    + intros H. apply Hweak. now apply IH.
Qed.

Lemma arb_outer_ok params bankroll poly_markets kalshi_markets trades :
  arb_outer params bankroll poly_markets kalshi_markets = Py.Ok trades ->
  List.Forall (arb_proposal_ok params bankroll poly_markets kalshi_markets) trades.
Proof.
  revert trades. induction poly_markets as [|pm rest IH]; intros trades;
    cbn [Arbitrage.arb_outer].
  - intros [= <-]. constructor.
  - assert (Hweak : forall l,
      List.Forall (arb_proposal_ok params bankroll rest kalshi_markets) l ->
      List.Forall (arb_proposal_ok params bankroll (pm :: rest) kalshi_markets) l).
    { intros l. apply List.Forall_impl.
      intros t (p & k & Hp & Hrest).
      exists p, k. split; [now right|exact Hrest]. }
    destruct (Arbitrage.PolyMarket.closed pm) eqn:Ec; cbn [orb];
      [intros H; apply Hweak; now apply IH|].
    destruct (Arbitrage.PolyMarket.active pm) eqn:Ea; cbn [negb];
      [|intros H; apply Hweak; now apply IH].
    destruct (Strategy.is_tradeable (Arbitrage.PolyMarket.market pm)) eqn:Et; cbn [negb];
      [|intros H; apply Hweak; now apply IH].
    destruct (arb_inner params bankroll _ kalshi_markets) as [found|] eqn:Ei;
      [|discriminate].
    destruct (arb_outer params bankroll rest kalshi_markets) as [more|]; [|discriminate].
    intros [= <-]. apply Forall_app. split; [|apply Hweak; now apply IH].
    apply arb_inner_ok in Ei. eapply List.Forall_impl; [|exact Ei]. cbn.
    intros t (km & Hin & Hkt & Hpair).
    destruct (arb_pair_ok _ _ _ _ _ Hpair) as (Hov & Hfields).
    destruct (is_tradeable_band _ Et) as [Hp5 Hp95].
    destruct (is_tradeable_band _ Hkt) as [Hk5 Hk95].
    pose proof Hfields as (_ & _ & _ & Hmp & Hep & _).
    exists pm, km. rewrite Hmp, Hep.
    split; [now left|]. repeat (split; [assumption|]). exact Hfields.
Qed.

Lemma arb_strategy_ok bot poly_markets kalshi_markets state trades :
  strategy_cross_platform_arb bot poly_markets kalshi_markets state = Py.Ok trades ->
  List.Forall (arb_proposal_ok (Bots.Bot.params bot) (Bots.BotState.bankroll state)
                 poly_markets kalshi_markets)
              trades.
Proof.
  unfold Arbitrage.strategy_cross_platform_arb.
  destruct (arb_outer _ _ _ _) as [found|] eqn:Eo; [|discriminate].
  destruct (Bots.Bot.max_positions bot) as [n|]; [|discriminate].
  intros [= <-]. apply arb_outer_ok in Eo.
  eapply Forall_sublist; [apply slice_to_sublist|].
  eapply Forall_sublist; [apply unique_by_title_sublist|].
  now apply sort_by_edge_Forall.
Qed.

(** X16. Every proposal of the arbitrage strategy is an ARB trade on an
    active, open Polymarket market paired with a Kalshi market whose
    normalised title overlaps it by at least one half, both tradeable and
    priced between 5 and 95.  It carries the title and the category of the
    Polymarket market and the two prices; its edge, and the spread of its
    arbitrage detail, are the distance between the two prices rounded to one
    decimal, and that distance is at least [min_spread].  YES is bought on
    the venue where it is cheaper (on Polymarket when the prices are equal),
    and the detail, the platform, the source and the link say so.  The stake
    is the smaller of bankroll x distance / 100 x [kelly_fraction] and 20
    percent of the bankroll, rounded to cents, and at least 10.  The
    confidence is "HIGH" from a distance of 10, "MEDIUM" below. *)
Theorem arb_proposals_well_formed bot poly_markets kalshi_markets state trades :
  strategy_cross_platform_arb bot poly_markets kalshi_markets state = Py.Ok trades ->
  List.Forall (arb_proposal_ok (Bots.Bot.params bot) (Bots.BotState.bankroll state)
                 poly_markets kalshi_markets)
              trades.
Proof. apply arb_strategy_ok. Qed.

Lemma arb_distinct_and_ranked bot poly_markets kalshi_markets state trades :
  strategy_cross_platform_arb bot poly_markets kalshi_markets state = Py.Ok trades ->
  NoDup (map (fun t => Bots.normalize_title (Bots.Trade.market t)) trades)
  /\ ranked_by_edge trades
  /\ ((0 <= Bots.max_pos bot)%Z ->
      (Z.of_nat (List.length trades) <= Bots.max_pos bot)%Z).
Proof.
  unfold Arbitrage.strategy_cross_platform_arb.
  destruct (arb_outer _ _ _ _) as [found|]; [|discriminate].
  destruct (Bots.Bot.max_positions bot) as [n|] eqn:En; [|discriminate].
  intros [= <-]. split; [|split].
  - eapply sublist_NoDup;
      [apply (unique_by_title_NoDup ∅ (Arbitrage.sort_by_edge found))|].
    apply sublist_map, slice_to_sublist.
  - eapply ranked_sublist; [apply slice_to_sublist|].
    eapply ranked_sublist; [apply unique_by_title_sublist|].
    apply sort_by_edge_ranked.
  - unfold Bots.max_pos. rewrite En. cbn [default]. apply slice_to_length.
Qed.

(** X17. The proposals of the arbitrage strategy have pairwise distinct
    normalised titles and are at most [max_positions] when that number is
    not negative.  The edge of each is the distance between the Polymarket
    price and the Kalshi price it carries, rounded to one decimal, and the
    proposals come in the order of falling edge. *)
Theorem arb_proposals_distinct_and_ranked bot poly_markets kalshi_markets state trades :
  strategy_cross_platform_arb bot poly_markets kalshi_markets state = Py.Ok trades ->
  NoDup (map (fun t => Bots.normalize_title (Bots.Trade.market t)) trades)
  /\ ranked_by_edge trades
  /\ ((0 <= Bots.max_pos bot)%Z ->
      (Z.of_nat (List.length trades) <= Bots.max_pos bot)%Z)
  /\ List.Forall edge_of_prices trades
  /\ List.Forall
       (fun t => exists pm km,
          In pm poly_markets /\ In km kalshi_markets
          /\ Bots.Trade.market_price t
             = Bots.Market.yes_pct (Arbitrage.PolyMarket.market pm)
          /\ Bots.Trade.estimated_prob t = Bots.Market.yes_pct km)
       trades.
Proof.
  intros H. pose proof (arb_strategy_ok _ _ _ _ _ H) as Hok.
  destruct (arb_distinct_and_ranked _ _ _ _ _ H) as (H1 & H2 & H3).
  split; [exact H1|]. split; [exact H2|]. split; [exact H3|]. split.
  - eapply List.Forall_impl; [|exact Hok]. cbn.
    intros t (pm & km & _ & _ & _ & _ & _ & _ & _ & _ & _ & _ & _ & Hf).
    destruct Hf as (_ & _ & _ & Hmp & Hep & Hedge & _).
    unfold edge_of_prices. now rewrite Hmp, Hep.
  - eapply List.Forall_impl; [|exact Hok]. cbn.
    intros t (pm & km & Hp & Hk & _ & _ & _ & _ & _ & _ & _ & _ & _ & Hf).
    destruct Hf as (_ & _ & _ & Hmp & Hep & _).
    exists pm, km. now repeat split.
Qed.

Lemma arb_outer_no_kalshi params bankroll poly_markets :
  arb_outer params bankroll poly_markets [] = Py.Ok [].
Proof.
  induction poly_markets as [|pm rest IH]; cbn [Arbitrage.arb_outer Arbitrage.arb_inner];
    [reflexivity|].
  destruct (_ || _); [exact IH|]. destruct (negb _); [exact IH|]. now rewrite IH.
Qed.

(** X18. When one of the two venues has no market, the arbitrage strategy
    proposes nothing, whatever the other venue holds; it raises only if the
    bot has no [max_positions]. *)
Theorem arb_needs_both_venues bot poly_markets kalshi_markets state :
  strategy_cross_platform_arb bot poly_markets [] state
  = match Bots.Bot.max_positions bot with
    | Some _ => Py.Ok []
    | None => Py.Raise
    end
  /\ strategy_cross_platform_arb bot [] kalshi_markets state
     = match Bots.Bot.max_positions bot with
       | Some _ => Py.Ok []
       | None => Py.Raise
       end.
Proof.
  unfold Arbitrage.strategy_cross_platform_arb. rewrite arb_outer_no_kalshi.
  cbn [Arbitrage.arb_outer Arbitrage.sort_by_edge fold_right Arbitrage.unique_by_title].
  destruct (Bots.Bot.max_positions bot) as [n|]; [|now split].
  unfold Arbitrage.slice_to. cbn [List.length].
  destruct (0 <=? n)%Z; rewrite firstn_nil; now split.
Qed.

End ArbitrageProps.

Lemma arb_proposals_well_formed_example :
  exists t,
    Arbitrage.strategy_cross_platform_arb (fun _ _ => Eq) (fun _ _ => ""%string)
      arb_bot [fed_on_polymarket] [fed_on_kalshi] test_state = Py.Ok [t]
    /\ Bots.Trade.bet_amount t == 500
    /\ Bots.Trade.edge_pp t == 10
    /\ List.Forall (arb_proposal_ok (Bots.Bot.params arb_bot)
                      (Bots.BotState.bankroll test_state)
                      [fed_on_polymarket] [fed_on_kalshi]) [t].
Proof.
  eexists. split; [vm_compute; reflexivity|]. split; [vm_compute; reflexivity|].
  split; [vm_compute; reflexivity|].
  apply (arb_proposals_well_formed (fun _ _ => Eq) (fun _ _ => ""%string) arb_bot
           [fed_on_polymarket] [fed_on_kalshi] test_state).
  vm_compute. reflexivity.
Defined.

Lemma arb_proposals_distinct_and_ranked_example :
  exists trades,
    Arbitrage.strategy_cross_platform_arb (fun _ _ => Eq) (fun _ _ => ""%string)
      arb_bot [fed_on_polymarket; fed_on_polymarket] [fed_on_kalshi; fed_on_kalshi]
      test_state
    = Py.Ok trades
    /\ List.length trades = 1%nat
    /\ NoDup (map (fun t => Bots.normalize_title (Bots.Trade.market t)) trades)
    /\ List.Forall edge_of_prices trades.
Proof.
  eexists. split; [vm_compute; reflexivity|]. split; [reflexivity|].
  pose proof (arb_proposals_distinct_and_ranked (fun _ _ => Eq) (fun _ _ => ""%string)
                arb_bot [fed_on_polymarket; fed_on_polymarket]
                [fed_on_kalshi; fed_on_kalshi] test_state) as H.
  destruct (H _ ltac:(vm_compute; reflexivity)) as (H1 & _ & _ & H4 & _).
  split; [exact H1|exact H4].
Defined.

(** X19. An agent whose positions have pairwise distinct normalised keys and
    that trades the proposals of the arbitrage strategy still has pairwise
    distinct keys after the admission loop. *)
Theorem arbitrage_keeps_keys_distinct (md5_hexdigest : string -> string)
    (now_iso now_stamp : string) (gap_error : Q -> Q -> comparison)
    (format_float : string -> Q -> string)
    bot poly_markets kalshi_markets state trades :
  NoDup (position_keys (Bots.BotState.positions state)) ->
  Arbitrage.strategy_cross_platform_arb gap_error format_float bot poly_markets
    kalshi_markets state
  = Py.Ok trades ->
  NoDup (position_keys
           (Bots.BotState.positions
              (fst (Bots.execute_trades md5_hexdigest now_iso now_stamp bot
                      (Bots.existing_market_keys (Bots.BotState.positions state))
                      trades state [])))).
Proof.
  intros Hheld Hs. apply keys_distinct_after_execute; [exact Hheld|].
  now apply (arb_distinct_and_ranked gap_error format_float bot poly_markets
               kalshi_markets state).
Qed.

Lemma arbitrage_keeps_keys_distinct_example :
  exists trades,
    Arbitrage.strategy_cross_platform_arb (fun _ _ => Eq) (fun _ _ => ""%string) arb_bot
      [fed_on_polymarket] [fed_on_kalshi] held_state = Py.Ok trades
    /\ NoDup (position_keys
                (Bots.BotState.positions
                   (fst (Bots.execute_trades (fun s => s) "" "" arb_bot
                           (Bots.existing_market_keys (Bots.BotState.positions held_state))
                           trades held_state [])))).
Proof.
  eexists. split; [vm_compute; reflexivity|].
  apply (arbitrage_keeps_keys_distinct (fun s => s) "" "" (fun _ _ => Eq)
           (fun _ _ => ""%string) arb_bot [fed_on_polymarket] [fed_on_kalshi] held_state).
  - apply (bool_decide_unpack _). vm_compute. exact I.
  - vm_compute. reflexivity.
Defined.

(** ** The strategies that follow one market list *)

Lemma py_round2_ge (x : Q) (n : Z) : inject_Z n <= x -> inject_Z n <= Py.py_round x 2.
Proof.
  intros H. unfold Py.py_round. change (inject_Z (10 ^ Z.of_nat 2)) with 100.
  assert (Hr : (n * 100 <= Py.round_half_even (x * 100))%Z).
  { apply round_half_even_ge. rewrite inject_Z_mult. change (inject_Z 100) with 100.
    apply Qmult_le_compat_r; [exact H|discriminate]. }
  rewrite Zle_Qle, inject_Z_mult in Hr. change (inject_Z 100) with 100 in Hr.
  apply Qle_shift_div_l; [reflexivity|]. exact Hr.
Qed.

Lemma collect_ok {A : Type} (P : Bots.Trade.t -> Prop)
    (body : A -> Py.exc (option Bots.Trade.t)) (l : list A) trades :
  (forall x t, In x l -> body x = Py.Ok (Some t) -> P t) ->
  StrategyLoop.collect body l = Py.Ok trades -> List.Forall P trades.
Proof.
  revert trades. induction l as [|x l IH]; intros trades Hbody;
    cbn [StrategyLoop.collect].
  - intros [= <-]. constructor.
  - unfold StrategyLoop.bind.
    destruct (body x) as [found|] eqn:Ex; [|discriminate].
    destruct (StrategyLoop.collect body l) as [more|]; [|discriminate].
    intros [= <-].
    assert (Hmore : List.Forall P more).
    { apply IH; [|reflexivity]. intros y t Hy. apply Hbody. now right. }
    destruct found as [t|]; [|exact Hmore].
    constructor; [|exact Hmore]. apply (Hbody x); [now left|exact Ex].
Qed.

Lemma best_ok (P : Bots.Trade.t -> Prop) bot found trades :
  List.Forall P found -> StrategyLoop.best bot found = Py.Ok trades ->
  List.Forall P trades
  /\ ranked_by_edge trades
  /\ ((0 <= Bots.max_pos bot)%Z ->
      (Z.of_nat (List.length trades) <= Bots.max_pos bot)%Z).
Proof.
  intros Hfound. unfold StrategyLoop.best.
  destruct (Bots.Bot.max_positions bot) as [n|] eqn:En; [|discriminate].
  intros [= <-]. split; [|split].
  - eapply Forall_sublist; [apply slice_to_sublist|].
    now apply sort_by_edge_Forall.
  - eapply ranked_sublist; [apply slice_to_sublist|]. apply sort_by_edge_ranked.
  - unfold Bots.max_pos. rewrite En. cbn [default]. apply slice_to_length.
Qed.

Section KellyStake.
Variable tie_side : Q -> Q -> option bool.

Local Abbreviation kelly_size := (Bots.kelly_size tie_side).

Lemma kelly_size_cases (p m bankroll k : Q) :
  (exists dir, kelly_size p m bankroll k = (0, dir))
  \/ (~ p == m
      /\ exists f d,
           kelly_size p m bankroll k
           = (Py.py_round (Qmin (Qmin (bankroll * f * k) (bankroll * (15 # 100)))
                                Bots.MAX_BET_PER_TRADE * (1 - Bots.FEES_PCT / 100)) 2,
              Some d)).
Proof.
  unfold Bots.kelly_size, Bots.kelly_choose. cbv zeta.
  destruct (_ || _); [left; eauto|].
  destruct (Qeq_bool p m) eqn:Et; [left; eauto|].
  assert (Hne : ~ p == m).
  { intros H. apply Qeq_bool_iff in H. congruence. }
  destruct (_ && _); [right; split; eauto|].
  destruct (Py.Qltb 0 _); [right; split; eauto|left; eauto].
Qed.

(** Away from a tie, the side [kelly_size] names is the side the estimate
    favours. *)
Lemma kelly_direction (p m bankroll k bet : Q) (d : Bots.direction) :
  ~ p == m ->
  kelly_size p m bankroll k = (bet, Some d) ->
  d = Bots.BUY_YES /\ m < p \/ d = Bots.BUY_NO /\ p < m.
Proof.
  intros Hne. unfold Bots.kelly_size. cbv zeta.
  destruct (Qle_bool p (1 # 100)) eqn:E1; cbn [orb]; [discriminate|].
  destruct (Qle_bool (99 # 100) p) eqn:E2; cbn [orb]; [discriminate|].
  destruct (Qle_bool m (1 # 100)) eqn:E3; cbn [orb]; [discriminate|].
  destruct (Qle_bool (99 # 100) m) eqn:E4; cbn [orb]; [discriminate|].
  destruct (Qeq_bool p m) eqn:Et.
  { exfalso. apply Hne. now apply Qeq_bool_iff. }
  apply Qle_bool_false in E3, E4.
  assert (H0 : 0 < m) by lra. assert (H1 : m < 1) by lra.
  pose proof (kelly_f_yes_pos p m H0 H1) as Hy.
  pose proof (kelly_f_no_pos p m H0 H1) as Hn.
  unfold Bots.kelly_choose.
  destruct (Py.Qltb 0 (Bots.kelly_f_yes p m)) eqn:Ey;
    destruct (Qle_bool (Bots.kelly_f_no p m) (Bots.kelly_f_yes p m)); cbn [andb];
    try (intros [= _ <-]; left; split; [reflexivity|];
         apply Qltb_true in Ey; now apply Hy);
    (destruct (Py.Qltb 0 (Bots.kelly_f_no p m)) eqn:En; [|discriminate];
     intros [= _ <-]; right; split; [reflexivity|];
     apply Qltb_true in En; now apply Hn).
Qed.

(** A stake of [kelly_size] that is at least one unit stays within the cap
    when it is rounded again. *)
Lemma rounded_stake_in_cap (bankroll f k : Q) (n : Z) :
  let stake :=
    Py.py_round (Qmin (Qmin (bankroll * f * k) (bankroll * (15 # 100)))
                      Bots.MAX_BET_PER_TRADE * (1 - Bots.FEES_PCT / 100)) 2 in
  (1 <= n)%Z -> inject_Z n <= stake ->
  inject_Z n <= Py.py_round stake 2 /\ Py.py_round stake 2 <= kelly_cap bankroll.
Proof.
  intros stake Hn H. split; [now apply py_round2_ge|].
  set (M := Qmin (Qmin (bankroll * f * k) (bankroll * (15 # 100)))
                 Bots.MAX_BET_PER_TRADE) in *.
  assert (Hfee : 1 - Bots.FEES_PCT / 100 == 99 # 100) by reflexivity.
  assert (Hcap : M <= kelly_cap bankroll).
  { unfold M, kelly_cap. apply Q.min_glb.
    - eapply Qle_trans; [apply Q.le_min_l|apply Q.le_min_r].
    - apply Q.le_min_r. }
  pose proof (py_round2_upper (M * (1 - Bots.FEES_PCT / 100))) as H1.
  fold stake in H1.
  pose proof (py_round2_upper stake) as H2.
  rewrite Zle_Qle in Hn. change (inject_Z 1) with 1 in Hn.
  rewrite Hfee in H1. lra.
Qed.

(** What a strategy knows once a stake of [kelly_size] has passed its test
    [bet_amount < n]. *)
Lemma kelly_accepts (p m bankroll k bet : Q) (dir : option Bots.direction) (n : Z) :
  (1 <= n)%Z ->
  kelly_size p m bankroll k = (bet, dir) ->
  Py.Qltb bet (inject_Z n) = false ->
  inject_Z n <= Py.py_round bet 2
  /\ Py.py_round bet 2 <= kelly_cap bankroll
  /\ exists d, dir = Some d
               /\ (d = Bots.BUY_YES /\ m < p \/ d = Bots.BUY_NO /\ p < m).
Proof.
  intros Hn Ek Hbet. apply Qltb_false in Hbet.
  destruct (kelly_size_cases p m bankroll k) as [[dir' E] | (Hne & f & d & E)];
    rewrite E in Ek; injection Ek as <- <-.
  - rewrite Zle_Qle in Hn. change (inject_Z 1) with 1 in Hn. lra.
  - destruct (rounded_stake_in_cap bankroll f k n Hn Hbet) as [Hlo Hhi].
    split; [exact Hlo|]. split; [exact Hhi|].
    exists d. split; [reflexivity|]. exact (kelly_direction _ _ _ _ _ _ Hne E).
Qed.

End KellyStake.

Lemma percent_lt (a b : Q) : a / 100 < b / 100 <-> a < b.
Proof. unfold Qdiv. apply Qmult_lt_r. reflexivity. Qed.

Lemma round_half_even_Qeq (a b : Q) :
  a == b -> Py.round_half_even a = Py.round_half_even b.
Proof.
  intros H. unfold Py.round_half_even.
  rewrite (Qfloor_comp a b H).
  assert (E : a - inject_Z (Qfloor b) == b - inject_Z (Qfloor b)) by (rewrite H; reflexivity).
  now rewrite (Qcompare_comp _ _ E (1 # 2) (1 # 2) (Qeq_refl _)).
Qed.

Lemma py_round_Qeq (a b : Q) (n : nat) : a == b -> Py.py_round a n = Py.py_round b n.
Proof.
  intros H. unfold Py.py_round. f_equal. f_equal.
  apply round_half_even_Qeq. now rewrite H.
Qed.

(** *** Direction of a proposal priced against the reference table *)

Lemma side_of_flag (yes prob : Q) (d : Bots.direction) :
  d = Bots.BUY_YES /\ yes / 100 < prob / 100
  \/ d = Bots.BUY_NO /\ prob / 100 < yes / 100 ->
  let chosen := if Py.Qltb yes prob then Bots.BUY_YES else Bots.BUY_NO in
  chosen = d
  /\ (chosen = Bots.BUY_YES /\ yes < prob \/ chosen = Bots.BUY_NO /\ prob < yes).
Proof.
  intros [[-> H] | [-> H]]; apply (proj1 (percent_lt _ _)) in H; cbv zeta.
  - assert (E : Py.Qltb yes prob = true) by exact (proj2 (Qltb_true _ _) H).
    rewrite E. split; [reflexivity|]. left. now split.
  - assert (E : Py.Qltb yes prob = false).
    { apply (proj2 (Qltb_false _ _)). lra. }
    rewrite E. split; [reflexivity|]. right. now split.
Qed.

(** The part the four strategies priced against the reference table share:
    a proposal [t] that copies the market and the reference, takes its edge
    from them and its stake and side from [kelly_size]. *)
Lemma priced_proposal_ok (tie_side : Q -> Q -> option bool) (n : Z) (bankroll : Q)
    (params : gmap string Q) (mkt : Bots.Market.t) (ref : Strategy.Reference.t)
    (kelly_fraction bet : Q) (dir : option Bots.direction) (t : Bots.Trade.t) :
  (1 <= n)%Z ->
  Strategy.is_tradeable mkt = true ->
  Strategy.find_reference (Bots.Market.title mkt) = Some ref ->
  params !! "kelly_fraction" = Some kelly_fraction ->
  Bots.kelly_size tie_side (Strategy.Reference.prob ref / 100)
    (Bots.Market.yes_pct mkt / 100) bankroll kelly_fraction = (bet, dir) ->
  Py.Qltb bet (inject_Z n) = false ->
  Bots.Trade.market t = Bots.Market.title mkt ->
  Bots.Trade.platform t = Bots.Market.platform mkt ->
  Bots.Trade.url t = Bots.Market.url mkt ->
  Bots.Trade.category t = Bots.Market.category mkt ->
  Bots.Trade.market_price t = Bots.Market.yes_pct mkt ->
  Bots.Trade.estimated_prob t = Strategy.Reference.prob ref ->
  Bots.Trade.edge_pp t
  = Py.py_round (Qabs (Bots.Market.yes_pct mkt - Strategy.Reference.prob ref)) 1 ->
  Bots.Trade.arb_detail t = None ->
  Bots.Trade.kelly_fraction t = kelly_fraction ->
  Bots.Trade.bet_amount t = Py.py_round bet 2 ->
  (forall d, dir = Some d ->
     Bots.Trade.direction t = d
     \/ Bots.Trade.direction t
        = if Py.Qltb (Bots.Market.yes_pct mkt) (Strategy.Reference.prob ref)
          then Bots.BUY_YES else Bots.BUY_NO) ->
  reference_proposal_ok tie_side (inject_Z n) bankroll params mkt ref t.
Proof.
  intros Hn Et Er Ekf Ek Hbet Hm Hp Hu Hc Hmp Hep Hedge Harb Hk Hb Hdir.
  destruct (kelly_accepts tie_side _ _ _ _ _ _ n Hn Ek Hbet)
    as (Hlo & Hhi & d & -> & Hside).
  destruct (side_of_flag _ _ _ Hside) as [Hd Hflag]. cbv zeta in Hd, Hflag.
  assert (Hdt : Bots.Trade.direction t = d).
  { destruct (Hdir d eq_refl) as [H | H]; [exact H|]. now rewrite H. }
  rewrite Hd in Hflag.
  unfold reference_proposal_ok. rewrite Hm, Hp, Hu, Hc, Hmp, Hep, Hedge, Harb, Hb, Hdt.
  repeat (split; [first [assumption | reflexivity]|]).
  split.
  { exists kelly_fraction. split; [exact Ekf|]. split; [exact Hk|]. now rewrite Ek. }
  split; [exact Hflag|]. split; assumption.
Qed.

(** ** The high-conviction strategy *)

Section ConvictionProps.
Variable tie_side : Q -> Q -> option bool.
Variable format_float : string -> Q -> string.

Local Abbreviation consider := (Conviction.consider tie_side format_float).
Local Abbreviation consider_all := (Conviction.consider_all tie_side format_float).
Local Abbreviation strategy_high_conviction :=
  (Conviction.strategy_high_conviction tie_side format_float).

Lemma consider_ok params bankroll mkt t :
  consider params bankroll mkt = Py.Ok (Some t) ->
  conviction_proposal_ok tie_side params bankroll [mkt] t.
Proof.
  unfold Conviction.consider, Arbitrage.getitem. cbv zeta.
  destruct (Strategy.is_tradeable mkt) eqn:Et; cbn [negb]; [|discriminate].
  destruct (Strategy.find_reference (Bots.Market.title mkt)) as [ref|] eqn:Er;
    [|discriminate].
  destruct (params !! "min_edge") as [min_edge|] eqn:Eme; [|discriminate].
  destruct (Py.Qltb _ min_edge) eqn:Eedge; [discriminate|].
  destruct (params !! "min_volume") as [min_volume|] eqn:Emv; [|discriminate].
  destruct (Py.Qltb _ min_volume) eqn:Evol; [discriminate|].
  destruct (params !! "kelly_fraction") as [kf|] eqn:Ekf; [|discriminate].
  destruct (Bots.kelly_size _ _ _ _ _) as [bet dir] eqn:Ek.
  destruct (Py.Qltb bet 50) eqn:E50; [discriminate|].
  intros [= <-].
  apply Qltb_false in Eedge, Evol.
  destruct (is_tradeable_band mkt Et) as [H5 H95].
  exists mkt, ref. split; [now left|]. split.
  { apply (priced_proposal_ok tie_side 50 bankroll params mkt ref kf bet dir);
      try reflexivity; try assumption; [lia|].
    intros d ->. left. reflexivity. }
  split; [split; [now exists min_edge|now exists min_volume]|].
  cbn [Bots.Trade.source Bots.Trade.market_price Bots.Trade.confidence].
  repeat (split; [first [assumption | reflexivity]|]). reflexivity.
Qed.

Lemma conviction_ok_weaken params bankroll mkt rest t :
  conviction_proposal_ok tie_side params bankroll rest t ->
  conviction_proposal_ok tie_side params bankroll (mkt :: rest) t.
Proof.
  intros (m & r & Hin & Hm). exists m, r. split; [now right|exact Hm].
Qed.

Lemma consider_all_ok params bankroll markets trades :
  consider_all params bankroll markets = Py.Ok trades ->
  List.Forall (conviction_proposal_ok tie_side params bankroll markets) trades.
Proof.
  revert trades. induction markets as [|mkt rest IH]; intros trades;
    cbn [Conviction.consider_all].
  - intros [= <-]. constructor.
  - destruct (consider params bankroll mkt) as [found|] eqn:Ec; [|discriminate].
    destruct (consider_all params bankroll rest) as [more|]; [|discriminate].
    intros [= <-]. specialize (IH more eq_refl).
    assert (Hmore : List.Forall
                      (conviction_proposal_ok tie_side params bankroll (mkt :: rest))
                      more).
    { eapply List.Forall_impl; [|exact IH]. intros t. apply conviction_ok_weaken. }
    destruct found as [t|]; [|exact Hmore].
    constructor; [|exact Hmore].
    destruct (consider_ok _ _ _ _ Ec) as (m & r & Hin & Hm).
    exists m, r. split; [|exact Hm].
    destruct Hin as [<- | []]. now left.
Qed.

(** X20. Every proposal of the high-conviction strategy is on a tradeable
    market (priced between 5 and 95) that the reference table knows and
    whose edge and volume reach [min_edge] and [min_volume].  It copies the
    title, the venue, the link, the category and the price of the market,
    and the probability and the source of the reference; its edge is the
    distance between the price and the reference probability, rounded to one
    decimal; its stake is the stake of [kelly_size] for the reference
    probability, the price, the bankroll and [kelly_fraction], rounded to
    cents, at least 50 and at most min(0.15 x bankroll, 800); it buys YES
    when the market is priced below the reference and NO when above; its
    confidence is "MAXIMUM".  The proposals come in the order of falling
    edge and are at most [max_positions] when that number is not negative. *)
Theorem conviction_proposals_well_formed bot markets poly_markets kalshi_markets
    state trades :
  strategy_high_conviction bot markets poly_markets kalshi_markets state = Py.Ok trades ->
  List.Forall (conviction_proposal_ok tie_side (Bots.Bot.params bot)
                 (Bots.BotState.bankroll state) markets) trades
  /\ ranked_by_edge trades
  /\ ((0 <= Bots.max_pos bot)%Z ->
      (Z.of_nat (List.length trades) <= Bots.max_pos bot)%Z).
Proof.
  unfold Conviction.strategy_high_conviction.
  destruct (consider_all _ _ _) as [found|] eqn:Ec; [|discriminate].
  destruct (Bots.Bot.max_positions bot) as [n|] eqn:En; [|discriminate].
  intros [= <-]. apply consider_all_ok in Ec. split; [|split].
  - eapply Forall_sublist; [apply slice_to_sublist|].
    now apply sort_by_edge_Forall.
  - eapply ranked_sublist; [apply slice_to_sublist|]. apply sort_by_edge_ranked.
  - unfold Bots.max_pos. rewrite En. cbn [default]. apply slice_to_length.
Qed.

End ConvictionProps.

Lemma conviction_proposals_well_formed_example :
  exists t,
    Conviction.strategy_high_conviction (fun _ _ => None) (fun _ _ => ""%string)
      conviction_bot [fed_hold_market] [fed_hold_market] [] test_state = Py.Ok [t]
    /\ Bots.Trade.bet_amount t == 792
    /\ Bots.Trade.edge_pp t == 36
    /\ Bots.Trade.direction t = Bots.BUY_YES
    /\ List.Forall (conviction_proposal_ok (fun _ _ => None)
                      (Bots.Bot.params conviction_bot)
                      (Bots.BotState.bankroll test_state) [fed_hold_market]) [t].
Proof.
  eexists. split; [vm_compute; reflexivity|]. split; [vm_compute; reflexivity|].
  split; [vm_compute; reflexivity|]. split; [reflexivity|].
  apply (conviction_proposals_well_formed (fun _ _ => None) (fun _ _ => ""%string)
           conviction_bot [fed_hold_market] [fed_hold_market] [] test_state).
  vm_compute. reflexivity.
Defined.

(** *** The contrarian and the statistical strategy *)

Section ValueProps.
Variable tie_side : Q -> Q -> option bool.
Variable format_float : string -> Q -> string.
Variable days_left : string -> Py.exc Q.

Lemma too_close_false (e : string) (limit : Q) :
  (if StrategyLoop.nonempty e
   then match days_left e with
        | Py.Ok days => Py.Qltb days limit
        | Py.Raise => false
        end
   else false) = false ->
  forall days, e <> ""%string -> days_left e = Py.Ok days -> limit <= days.
Proof.
  intros H days Hne Hd. destruct e as [|c e]; [congruence|].
  cbn [StrategyLoop.nonempty] in H. rewrite Hd in H. now apply Qltb_false in H.
Qed.

Lemma confidence_by_edge (edge high_edge : Q) (c : string) :
  c = (if Qle_bool high_edge edge then "HIGH" else "MEDIUM")%string ->
  c = "HIGH"%string /\ high_edge <= edge \/ c = "MEDIUM"%string /\ edge < high_edge.
Proof.
  intros ->. destruct (Qle_bool high_edge edge) eqn:E.
  - left. split; [reflexivity|]. now apply Qle_bool_iff.
  - right. split; [reflexivity|]. now apply Qle_bool_false.
Qed.

Lemma contrarian_consider_ok params bankroll mkt t :
  Contrarian.consider tie_side format_float days_left params bankroll mkt
  = Py.Ok (Some t) ->
  value_proposal_ok tie_side 12 7 params days_left bankroll [mkt] t.
Proof.
  unfold Contrarian.consider, StrategyLoop.bind, Arbitrage.getitem. cbv zeta.
  destruct (Strategy.is_tradeable mkt) eqn:Et; cbn [negb]; [|discriminate].
  destruct (Strategy.find_reference (Bots.Market.title mkt)) as [ref|] eqn:Er;
    [|discriminate].
  destruct (params !! "min_edge") as [min_edge|] eqn:Eme; [|discriminate].
  destruct (Py.Qltb _ min_edge) eqn:Eedge; [discriminate|].
  destruct (params !! "min_volume") as [min_volume|] eqn:Emv; [|discriminate].
  destruct (Py.Qltb _ min_volume) eqn:Evol; [discriminate|].
  destruct (if StrategyLoop.nonempty _ then _ else _) eqn:Eclose; [discriminate|].
  destruct (params !! "kelly_fraction") as [kf|] eqn:Ekf; [|discriminate].
  destruct (Bots.kelly_size _ _ _ _ _) as [bet dir] eqn:Ek.
  destruct (Py.Qltb bet 10) eqn:E10; [discriminate|].
  intros [= <-].
  apply Qltb_false in Eedge, Evol.
  exists mkt, ref. split; [now left|]. split.
  { apply (priced_proposal_ok tie_side 10 bankroll params mkt ref kf bet dir);
      try reflexivity; try assumption; [lia|].
    intros d _. right. reflexivity. }
  split; [split; [now exists min_edge|now exists min_volume]|].
  split; [reflexivity|]. split.
  - cbv zeta. apply confidence_by_edge. reflexivity.
  - now apply too_close_false.
Qed.

Lemma statistical_consider_ok params bankroll mkt t :
  Statistical.consider tie_side format_float days_left params bankroll mkt
  = Py.Ok (Some t) ->
  value_proposal_ok tie_side 15 14 params days_left bankroll [mkt] t.
Proof.
  unfold Statistical.consider, StrategyLoop.bind, Arbitrage.getitem. cbv zeta.
  destruct (Strategy.is_tradeable mkt) eqn:Et; cbn [negb]; [|discriminate].
  destruct (Strategy.find_reference (Bots.Market.title mkt)) as [ref|] eqn:Er;
    [|discriminate].
  destruct (params !! "min_edge") as [min_edge|] eqn:Eme; [|discriminate].
  destruct (Py.Qltb _ min_edge) eqn:Eedge; [discriminate|].
  destruct (params !! "min_volume") as [min_volume|] eqn:Emv; [|discriminate].
  destruct (Py.Qltb _ min_volume) eqn:Evol; [discriminate|].
  destruct (if StrategyLoop.nonempty _ then _ else _) eqn:Eclose; [discriminate|].
  destruct (params !! "kelly_fraction") as [kf|] eqn:Ekf; [|discriminate].
  destruct (Bots.kelly_size _ _ _ _ _) as [bet dir] eqn:Ek.
  destruct (Py.Qltb bet 10) eqn:E10; [discriminate|].
  intros [= <-].
  apply Qltb_false in Eedge, Evol.
  exists mkt, ref. split; [now left|]. split.
  { apply (priced_proposal_ok tie_side 10 bankroll params mkt ref kf bet dir);
      try reflexivity; try assumption; [lia|].
    intros d ->. left. reflexivity. }
  split; [split; [now exists min_edge|now exists min_volume]|].
  split; [reflexivity|]. split.
  - cbv zeta. apply confidence_by_edge. reflexivity.
  - now apply too_close_false.
Qed.

(** X21. Every proposal of the contrarian strategy is on a tradeable market
    that the reference table knows and whose edge and volume reach
    [min_edge] and [min_volume].  It copies the title, the venue, the link,
    the category and the price of the market, and the probability and the
    source of the reference; its edge is the distance between the price and
    the reference probability, rounded to one decimal; its stake is the
    stake of [kelly_size] for the reference probability, the price, the
    bankroll and [kelly_fraction], rounded to cents, at least 10 and at most
    min(0.15 x bankroll, 800); it buys YES when the market is priced below
    the reference and NO when above; it is "HIGH" exactly from an edge of
    12; and a market whose end date can be read has at least
    [min_days_to_expiry] days left (7 when the parameter is absent).  The
    proposals come in the order of falling edge, and are at most
    [max_positions] when that number is not negative. *)
Theorem contrarian_proposals_well_formed bot markets poly_markets kalshi_markets
    state trades :
  Contrarian.strategy_contrarian_value tie_side format_float days_left bot markets
    poly_markets kalshi_markets state = Py.Ok trades ->
  List.Forall (value_proposal_ok tie_side 12 7 (Bots.Bot.params bot) days_left
                 (Bots.BotState.bankroll state) markets) trades
  /\ ranked_by_edge trades
  /\ ((0 <= Bots.max_pos bot)%Z ->
      (Z.of_nat (List.length trades) <= Bots.max_pos bot)%Z).
Proof.
  unfold Contrarian.strategy_contrarian_value. unfold StrategyLoop.bind at 1.
  destruct (StrategyLoop.collect _ markets) as [found|] eqn:Ec; [|discriminate].
  apply best_ok. eapply collect_ok; [|exact Ec].
  intros mkt t Hin Ht. apply contrarian_consider_ok in Ht.
  destruct Ht as (m & r & [<- | []] & Hrest). exists mkt, r. now split.
Qed.

(** X22. Every proposal of the statistical strategy is on a tradeable market
    that the reference table knows and whose edge and volume reach
    [min_edge] and [min_volume].  It copies the title, the venue, the link,
    the category and the price of the market, and the probability and the
    source of the reference; its edge is the distance between the price and
    the reference probability, rounded to one decimal; its stake is the
    stake of [kelly_size] for the reference probability, the price, the
    bankroll and [kelly_fraction], rounded to cents, at least 10 and at most
    min(0.15 x bankroll, 800); its direction, the one [kelly_size] named, is
    YES when the market is priced below the reference and NO when above; it
    is "HIGH" exactly from an edge of 15; and a market whose end date can be
    read has at least [min_days_to_expiry] days left (14 when the parameter
    is absent).  The proposals come in the order of falling edge, and are at
    most [max_positions] when that number is not negative. *)
Theorem statistical_proposals_well_formed bot markets poly_markets kalshi_markets
    state trades :
  Statistical.strategy_statistical_value tie_side format_float days_left bot markets
    poly_markets kalshi_markets state = Py.Ok trades ->
  List.Forall (value_proposal_ok tie_side 15 14 (Bots.Bot.params bot) days_left
                 (Bots.BotState.bankroll state) markets) trades
  /\ ranked_by_edge trades
  /\ ((0 <= Bots.max_pos bot)%Z ->
      (Z.of_nat (List.length trades) <= Bots.max_pos bot)%Z).
Proof.
  unfold Statistical.strategy_statistical_value. unfold StrategyLoop.bind at 1.
  destruct (StrategyLoop.collect _ markets) as [found|] eqn:Ec; [|discriminate].
  apply best_ok. eapply collect_ok; [|exact Ec].
  intros mkt t Hin Ht. apply statistical_consider_ok in Ht.
  destruct Ht as (m & r & [<- | []] & Hrest). exists mkt, r. now split.
Qed.

End ValueProps.

Lemma contrarian_proposals_well_formed_example :
  exists t,
    Contrarian.strategy_contrarian_value (fun _ _ => None) (fun _ _ => ""%string)
      (fun _ => Py.Ok 120) contrarian_bot [fed_hold_dated] [] [] test_state
    = Py.Ok [t]
    /\ Bots.Trade.bet_amount t == 792
    /\ Bots.Trade.edge_pp t == 36
    /\ Bots.Trade.confidence t = "HIGH"%string
    /\ List.Forall (value_proposal_ok (fun _ _ => None) 12 7
                      (Bots.Bot.params contrarian_bot)
                      (fun _ => Py.Ok 120) (Bots.BotState.bankroll test_state)
                      [fed_hold_dated]) [t].
Proof.
  eexists. split; [vm_compute; reflexivity|]. split; [vm_compute; reflexivity|].
  split; [vm_compute; reflexivity|]. split; [reflexivity|].
  apply (contrarian_proposals_well_formed (fun _ _ => None) (fun _ _ => ""%string)
           (fun _ => Py.Ok 120) contrarian_bot [fed_hold_dated] [] [] test_state).
  vm_compute. reflexivity.
Defined.

Lemma statistical_proposals_well_formed_example :
  exists t,
    Statistical.strategy_statistical_value (fun _ _ => None) (fun _ _ => ""%string)
      (fun _ => Py.Raise) statistical_bot [fed_hold_dated] [] [] test_state
    = Py.Ok [t]
    /\ Bots.Trade.bet_amount t == 792
    /\ Bots.Trade.edge_pp t == 36
    /\ Bots.Trade.direction t = Bots.BUY_YES
    /\ List.Forall (value_proposal_ok (fun _ _ => None) 15 14
                      (Bots.Bot.params statistical_bot)
                      (fun _ => Py.Raise) (Bots.BotState.bankroll test_state)
                      [fed_hold_dated]) [t].
Proof.
  eexists. split; [vm_compute; reflexivity|]. split; [vm_compute; reflexivity|].
  split; [vm_compute; reflexivity|]. split; [reflexivity|].
  apply (statistical_proposals_well_formed (fun _ _ => None) (fun _ _ => ""%string)
           (fun _ => Py.Raise) statistical_bot [fed_hold_dated] [] [] test_state).
  vm_compute. reflexivity.
Defined.

(** *** The momentum strategy *)

Section MomentumProps.
Variable tie_side : Q -> Q -> option bool.
Variable format_float : string -> Q -> string.
Variable format_int : Z -> string.

Lemma momentum_consider_ok params bankroll pm t :
  Momentum.consider tie_side format_float format_int params bankroll pm
  = Py.Ok (Some t) ->
  momentum_proposal_ok tie_side format_float params bankroll [pm] t.
Proof.
  unfold Momentum.consider, StrategyLoop.bind, Arbitrage.getitem. cbv zeta.
  destruct (Arbitrage.PolyMarket.closed pm) eqn:Ecl; cbn [orb]; [discriminate|].
  destruct (Arbitrage.PolyMarket.active pm) eqn:Eac; cbn [negb]; [|discriminate].
  set (mkt := Arbitrage.PolyMarket.market pm).
  destruct (Strategy.is_tradeable mkt) eqn:Et; cbn [negb]; [|discriminate].
  destruct (params !! "min_volume_24h") as [min24|] eqn:E24; [|discriminate].
  destruct (Py.Qltb _ min24) eqn:Ev24; [discriminate|].
  destruct (Qle_bool (Bots.Market.volume mkt) 0) eqn:Ev0; [discriminate|].
  destruct (Py.Qltb (Bots.Market.volume mkt * _) _) eqn:Ev15; [discriminate|].
  destruct (Py.Qltb (Bots.Market.volume mkt) 50000) eqn:Ev50; [discriminate|].
  apply Qle_bool_false in Ev0.
  assert (Epos : Py.Qltb 0 (Bots.Market.volume mkt) = true) by now apply Qltb_true.
  rewrite Epos.
  destruct (Py.Qltb (_ / _) (2 # 100)) eqn:Esurge; [discriminate|].
  destruct (Strategy.find_reference (Bots.Market.title mkt)) as [ref|] eqn:Er;
    [|discriminate].
  destruct (params !! "min_edge") as [min_edge|] eqn:Eme; [|discriminate].
  destruct (Py.Qltb _ min_edge) eqn:Eedge; [discriminate|].
  destruct (params !! "kelly_fraction") as [kf|] eqn:Ekf; [|discriminate].
  destruct (Bots.kelly_size _ _ _ _ _) as [bet dir] eqn:Ek.
  destruct (Py.Qltb bet 10) eqn:E10; [discriminate|].
  intros [= <-].
  apply Qltb_false in Ev24, Ev15, Ev50, Esurge, Eedge.
  assert (Hsurge : forall c : Q,
            c <= Bots.Market.volume_24hr mkt / Bots.Market.volume mkt
            <-> Bots.Market.volume mkt * c <= Bots.Market.volume_24hr mkt).
  { intros c. split; intros H.
    - apply (Qmult_le_r _ _ (Bots.Market.volume mkt)) in H; [|exact Ev0].
      unfold Qdiv in H. rewrite <- Qmult_assoc, (Qmult_comm (/ _)) in H.
      rewrite Qmult_inv_r, Qmult_1_r in H; [|lra]. lra.
    - apply Qle_shift_div_l; [exact Ev0|]. lra. }
  exists pm, ref. split; [now left|]. split; [exact Ecl|]. split; [exact Eac|].
  fold mkt. split.
  { apply (priced_proposal_ok tie_side 10 bankroll params mkt ref kf bet dir);
      try reflexivity; try assumption; [lia|].
    intros d ->. left. reflexivity. }
  cbv zeta. cbn [Bots.Trade.confidence Bots.Trade.source].
  split; [exact Ev50|]. split; [exact Ev15|]. split; [now apply Hsurge|].
  split; [now exists min24|]. split; [now exists min_edge|].
  split; [reflexivity|].
  destruct (Qle_bool 8 _) eqn:E8; cbn [orb].
  - left. split; [reflexivity|]. left. now apply Qle_bool_iff.
  - destruct (Qle_bool (5 # 100) _) eqn:E5.
    + left. split; [reflexivity|]. right. apply Hsurge. now apply Qle_bool_iff.
    + right. split; [reflexivity|]. split; [now apply Qle_bool_false|].
      apply Qle_bool_false in E5. apply Qnot_le_lt. intros H.
      apply Hsurge in H. lra.
Qed.

(** X23. Every proposal of the momentum strategy is on an open, active and
    tradeable Polymarket market that the reference table knows, with a
    volume of at least 50000, a 24-hour volume between 2% and 150% of it and
    at least [min_volume_24h], and an edge of at least [min_edge].  It
    copies the title, the venue, the link, the category and the price of the
    market and the probability of the reference; its edge is the distance
    between the price and the reference probability, rounded to one decimal;
    its stake is the stake of [kelly_size] for the reference probability,
    the price, the bankroll and [kelly_fraction], rounded to cents, at least
    10 and at most min(0.15 x bankroll, 800); it buys the side the reference
    favours; its source states the 24-hour volume and its share of the
    volume; it is "HIGH" exactly when the edge is 8 or more or the 24-hour
    volume is 5% of the volume or more.  The proposals come in the order of
    falling edge, and are at most [max_positions] when that number is not
    negative. *)
Theorem momentum_proposals_well_formed bot poly_markets state trades :
  Momentum.strategy_momentum_narrative tie_side format_float format_int bot
    poly_markets state = Py.Ok trades ->
  List.Forall (momentum_proposal_ok tie_side format_float (Bots.Bot.params bot)
                 (Bots.BotState.bankroll state) poly_markets) trades
  /\ ranked_by_edge trades
  /\ ((0 <= Bots.max_pos bot)%Z ->
      (Z.of_nat (List.length trades) <= Bots.max_pos bot)%Z).
Proof.
  unfold Momentum.strategy_momentum_narrative. unfold StrategyLoop.bind at 1.
  destruct (StrategyLoop.collect _ poly_markets) as [found|] eqn:Ec; [|discriminate].
  apply best_ok. eapply collect_ok; [|exact Ec].
  intros pm t Hin Ht. apply momentum_consider_ok in Ht.
  destruct Ht as (m & r & [<- | []] & Hrest). exists pm, r. now split.
Qed.

End MomentumProps.

Lemma momentum_proposals_well_formed_example :
  exists t,
    Momentum.strategy_momentum_narrative (fun _ _ => None) (fun _ _ => ""%string)
      (fun _ => ""%string) momentum_bot [fed_hold_live] test_state = Py.Ok [t]
    /\ Bots.Trade.bet_amount t == 792
    /\ Bots.Trade.edge_pp t == 36
    /\ Bots.Trade.confidence t = "HIGH"%string
    /\ List.Forall (momentum_proposal_ok (fun _ _ => None) (fun _ _ => ""%string)
                      (Bots.Bot.params momentum_bot)
                      (Bots.BotState.bankroll test_state) [fed_hold_live]) [t].
Proof.
  eexists. split; [vm_compute; reflexivity|]. split; [vm_compute; reflexivity|].
  split; [vm_compute; reflexivity|]. split; [reflexivity|].
  apply (momentum_proposals_well_formed (fun _ _ => None) (fun _ _ => ""%string)
           (fun _ => ""%string) momentum_bot [fed_hold_live] test_state).
  vm_compute. reflexivity.
Defined.

(** *** The tail-risk strategy *)

Section TailRiskProps.
Variable tie_side : Q -> Q -> option bool.
Variable format_float : string -> Q -> string.

(** The proposal and its stake, for either side. *)
Lemma tail_proposal_fields (params : gmap string Q) (bankroll : Q)
    (mkt : Bots.Market.t) (ref : option Strategy.Reference.t)
    (direction : Bots.direction) (edge_pp est_prob bet kelly_fraction : Q)
    (rationale : string) (min_volume low p m : Q) (dir : option Bots.direction) :
  Strategy.is_tradeable mkt = true ->
  params !! "min_volume" = Some min_volume ->
  min_volume <= Bots.Market.volume mkt ->
  params !! "kelly_fraction" = Some kelly_fraction ->
  params !! "low_threshold" = Some low ->
  Bots.kelly_size tie_side p m bankroll kelly_fraction = (bet, dir) ->
  Py.Qltb bet 5 = false ->
  let t := TailRisk.proposal mkt ref direction edge_pp est_prob bet kelly_fraction
             rationale in
  forall side : Prop, side ->
  (exists min_volume,
     params !! "min_volume" = Some min_volume
     /\ min_volume <= Bots.Market.volume mkt)
  /\ params !! "kelly_fraction" = Some kelly_fraction
  /\ params !! "low_threshold" = Some low
  /\ Bots.Trade.kelly_fraction t = kelly_fraction
  /\ Bots.Trade.market t = Bots.Market.title mkt
  /\ Bots.Trade.platform t = Bots.Market.platform mkt
  /\ Bots.Trade.url t = Bots.Market.url mkt
  /\ Bots.Trade.category t = Bots.Market.category mkt
  /\ Bots.Trade.market_price t = Bots.Market.yes_pct mkt
  /\ Bots.Trade.arb_detail t = None
  /\ 5 <= Bots.Trade.bet_amount t
  /\ Bots.Trade.bet_amount t <= kelly_cap bankroll
  /\ side.
Proof.
  intros Et Emv Hvol Ekf Elow Ek E5 t side Hside.
  destruct (kelly_accepts tie_side _ _ _ _ _ _ 5 ltac:(lia) Ek E5) as (Hlo & Hhi & _).
  split; [now exists min_volume|].
  repeat (split; [first [assumption | reflexivity]|]). exact Hside.
Qed.

Lemma tail_consider_ok params bankroll mkt t :
  TailRisk.consider tie_side format_float params bankroll mkt = Py.Ok (Some t) ->
  tail_proposal_ok tie_side params bankroll [mkt] t.
Proof.
  unfold TailRisk.consider, StrategyLoop.bind, Arbitrage.getitem. cbv zeta.
  destruct (Strategy.is_tradeable mkt) eqn:Et; cbn [negb]; [|discriminate].
  destruct (params !! "min_volume") as [min_volume|] eqn:Emv; [|discriminate].
  destruct (Py.Qltb _ min_volume) eqn:Evol; [discriminate|].
  apply Qltb_false in Evol.
  set (yes := Bots.Market.yes_pct mkt).
  destruct (is_tradeable_band mkt Et) as [H5 _]. fold yes in H5.
  assert (E2 : Qle_bool 2 yes = true) by (apply Qle_bool_iff; lra).
  rewrite E2.
  destruct (params !! "low_threshold") as [low|] eqn:Elow; [|discriminate].
  destruct (Qle_bool yes low) eqn:Ey.
  - apply Qle_bool_iff in Ey.
    unfold TailRisk.long_shot, TailRisk.low_estimate, StrategyLoop.bind,
      Arbitrage.getitem. cbv zeta. fold yes.
    destruct (Strategy.find_reference (Bots.Market.title mkt)) as [ref|] eqn:Er.
    + destruct (params !! "min_mispricing") as [mm|] eqn:Emm; [|discriminate].
      destruct (Py.Qltb (yes + mm) _) eqn:Emis; [|discriminate].
      destruct (params !! "kelly_fraction") as [kf|] eqn:Ekf; [|discriminate].
      destruct (Bots.kelly_size _ _ _ _ _) as [bet dir] eqn:Ek.
      destruct (Py.Qltb bet 5) eqn:E5; [discriminate|].
      intros [= <-]. exists mkt, kf, low. split; [now left|]. split; [exact Et|].
      eapply tail_proposal_fields; try eassumption.
      cbv zeta. fold yes. left. split; [reflexivity|]. split; [exact Ey|].
      rewrite Er. unfold tail_estimate. rewrite Ek.
      repeat (split; [reflexivity|]).
      exists mm. split; [exact Emm|]. now apply Qltb_true.
    + destruct (params !! "kelly_fraction") as [kf|] eqn:Ekf; [|discriminate].
      destruct (Bots.kelly_size _ _ _ _ _) as [bet dir] eqn:Ek.
      destruct (Py.Qltb bet 5) eqn:E5; [discriminate|].
      intros [= <-]. exists mkt, kf, low. split; [now left|]. split; [exact Et|].
      eapply tail_proposal_fields; try eassumption.
      cbv zeta. fold yes. left. split; [reflexivity|]. split; [exact Ey|].
      rewrite Er. unfold tail_estimate. rewrite Ek.
      split; [|repeat split].
      cbn [TailRisk.proposal Bots.Trade.estimated_prob].
      apply py_round_Qeq. field.
  - apply Qle_bool_false in Ey.
    destruct (params !! "high_threshold") as [high|] eqn:Ehigh; [|discriminate].
    destruct (Qle_bool high yes) eqn:Eh; [|discriminate].
    apply Qle_bool_iff in Eh.
    unfold TailRisk.near_certain, TailRisk.high_estimate, StrategyLoop.bind,
      Arbitrage.getitem. cbv zeta. fold yes.
    destruct (Strategy.find_reference (Bots.Market.title mkt)) as [ref|] eqn:Er.
    + destruct (params !! "min_mispricing") as [mm|] eqn:Emm; [|discriminate].
      destruct (Py.Qltb _ (yes - mm)) eqn:Emis; [|discriminate].
      destruct (params !! "kelly_fraction") as [kf|] eqn:Ekf; [|discriminate].
      destruct (Bots.kelly_size _ _ _ _ _) as [bet dir] eqn:Ek.
      destruct (Py.Qltb bet 5) eqn:E5; [discriminate|].
      intros [= <-]. exists mkt, kf, low. split; [now left|]. split; [exact Et|].
      eapply tail_proposal_fields; try eassumption.
      cbv zeta. fold yes. right. split; [reflexivity|]. split; [exact Ey|].
      split; [now exists high|].
      rewrite Er. unfold tail_estimate. rewrite Ek.
      repeat (split; [reflexivity|]).
      exists mm. split; [exact Emm|]. now apply Qltb_true.
    + destruct (params !! "kelly_fraction") as [kf|] eqn:Ekf; [|discriminate].
      destruct (Bots.kelly_size _ _ _ _ _) as [bet dir] eqn:Ek.
      destruct (Py.Qltb bet 5) eqn:E5; [discriminate|].
      intros [= <-]. exists mkt, kf, low. split; [now left|]. split; [exact Et|].
      eapply tail_proposal_fields; try eassumption.
      cbv zeta. fold yes. right. split; [reflexivity|]. split; [exact Ey|].
      split; [now exists high|].
      rewrite Er. unfold tail_estimate. rewrite Ek.
      split; [|repeat split].
      cbn [TailRisk.proposal Bots.Trade.estimated_prob].
      apply py_round_Qeq. field.
Qed.

(** X24. Every proposal of the tail-risk strategy is on a tradeable market
    whose volume reaches [min_volume], and either buys YES on a market
    priced at [low_threshold] or less, or buys NO on one priced above
    [low_threshold] and at [high_threshold] or more.  It copies the title,
    the venue, the link, the category and the price of the market.  When the
    reference table knows the market, the reference is more than
    [min_mispricing] beyond the price on the side bought, the estimate and
    the source are those of the reference, the edge is the distance from the
    price to the reference rounded to one decimal, and the confidence is
    "MEDIUM"; otherwise the estimate is the price moved by 5 points, the
    edge is 5, the source the premium model and the confidence "LOW".  The
    stake is the stake of [kelly_size] for the estimate and the price of the
    side bought, the bankroll and [kelly_fraction], rounded to cents, at
    least 5 and at most min(0.15 x bankroll, 800).  The proposals come in
    the order of falling edge, and are at most [max_positions] when that
    number is not negative. *)
Theorem tail_proposals_well_formed bot markets poly_markets kalshi_markets
    state trades :
  TailRisk.strategy_tail_risk tie_side format_float bot markets poly_markets
    kalshi_markets state = Py.Ok trades ->
  List.Forall (tail_proposal_ok tie_side (Bots.Bot.params bot)
                 (Bots.BotState.bankroll state) markets) trades
  /\ ranked_by_edge trades
  /\ ((0 <= Bots.max_pos bot)%Z ->
      (Z.of_nat (List.length trades) <= Bots.max_pos bot)%Z).
Proof.
  unfold TailRisk.strategy_tail_risk. unfold StrategyLoop.bind at 1.
  destruct (StrategyLoop.collect _ markets) as [found|] eqn:Ec; [|discriminate].
  apply best_ok. eapply collect_ok; [|exact Ec].
  intros mkt t Hin Ht. apply tail_consider_ok in Ht.
  destruct Ht as (m & kf & low & [<- | []] & Hrest). exists mkt, kf, low. now split.
Qed.

End TailRiskProps.

Lemma tail_proposals_well_formed_example :
  exists t,
    TailRisk.strategy_tail_risk (fun _ _ => None) (fun _ _ => ""%string) tail_bot
      [fed_hold_dated; snow_in_miami] [] [] test_state = Py.Ok [t]
    /\ Bots.Trade.market t = "Will it snow in Miami?"%string
    /\ Bots.Trade.estimated_prob t == 13
    /\ Bots.Trade.edge_pp t == 5
    /\ List.Forall (tail_proposal_ok (fun _ _ => None) (Bots.Bot.params tail_bot)
                      (Bots.BotState.bankroll test_state)
                      [fed_hold_dated; snow_in_miami]) [t].
Proof.
  eexists. split; [vm_compute; reflexivity|]. split; [reflexivity|].
  split; [vm_compute; reflexivity|]. split; [vm_compute; reflexivity|].
  apply (tail_proposals_well_formed (fun _ _ => None) (fun _ _ => ""%string) tail_bot
           [fed_hold_dated; snow_in_miami] [] [] test_state).
  vm_compute. reflexivity.
Defined.

(** ** Categories *)

Lemma lower_char_idempotent (c : ascii) :
  Py.lower_char (Py.lower_char c) = Py.lower_char c.
Proof. destruct c as [[] [] [] [] [] [] [] []]; vm_compute; reflexivity. Qed.

Lemma str_lower_idempotent (t : string) :
  Py.str_lower (Py.str_lower t) = Py.str_lower t.
Proof.
  unfold Py.str_lower. rewrite list_ascii_of_string_of_list_ascii.
  f_equal. unfold Py.lower. rewrite map_map.
  apply map_ext. intros c. apply lower_char_idempotent.
Qed.

(** X25. [guess_category] returns one of seven labels; it does not depend on
    the case of the title; a title with a political keyword is "Politics"
    whatever else it holds; and the label is "Other" exactly when no keyword
    of the six lists occurs in the title. *)
Theorem guess_category_labels (title : string) :
  In (Category.guess_category title) category_labels
  /\ Category.guess_category (Py.str_lower title) = Category.guess_category title
  /\ (Category.any_in Category.politics (Py.str_lower title) = true ->
      Category.guess_category title = "Politics"%string)
  /\ (Category.guess_category title = "Other"%string <->
      List.Forall (fun words => Category.any_in words (Py.str_lower title) = false)
        [Category.politics; Category.economics; Category.geopolitics;
         Category.sports; Category.tech; Category.entertainment]).
Proof.
  split; [|split; [|split]].
  - unfold Category.guess_category, category_labels. cbv zeta.
    repeat (destruct (Category.any_in _ _); [cbn; tauto|]). cbn; tauto.
  - unfold Category.guess_category. now rewrite str_lower_idempotent.
  - unfold Category.guess_category. cbv zeta. now intros ->.
  - unfold Category.guess_category. cbv zeta. split.
    + destruct (Category.any_in Category.politics _) eqn:E1; [discriminate|].
      destruct (Category.any_in Category.economics _) eqn:E2; [discriminate|].
      destruct (Category.any_in Category.geopolitics _) eqn:E3; [discriminate|].
      destruct (Category.any_in Category.sports _) eqn:E4; [discriminate|].
      destruct (Category.any_in Category.tech _) eqn:E5; [discriminate|].
      destruct (Category.any_in Category.entertainment _) eqn:E6; [discriminate|].
      intros _. repeat (constructor; [assumption|]). constructor.
    + intros H.
      repeat (apply List.Forall_cons_iff in H; destruct H as [-> H]).
      reflexivity.
Qed.

(** ** Peak and drawdown *)

Lemma round_half_even_mono (a b : Q) :
  a <= b -> (Py.round_half_even a <= Py.round_half_even b)%Z.
Proof.
  intros Hab. unfold Py.round_half_even.
  pose proof (Qfloor_resp_le a b Hab) as Hf.
  destruct (Z.eq_dec (Qfloor a) (Qfloor b)) as [E | E].
  - rewrite E.
    destruct (Qcompare_spec (a - inject_Z (Qfloor b)) (1 # 2)) as [Ea | Ea | Ea];
      destruct (Qcompare_spec (b - inject_Z (Qfloor b)) (1 # 2)) as [Eb | Eb | Eb];
      destruct (Z.even (Qfloor b)); try lia; exfalso; lra.
  - destruct (Qcompare (a - _) _), (Qcompare (b - _) _);
      destruct (Z.even (Qfloor a)), (Z.even (Qfloor b)); lia.
Qed.

Lemma py_round2_mono (a b : Q) : a <= b -> Py.py_round a 2 <= Py.py_round b 2.
Proof.
  intros Hab. unfold Py.py_round. change (inject_Z (10 ^ Z.of_nat 2)) with 100.
  assert (H : (Py.round_half_even (a * 100) <= Py.round_half_even (b * 100))%Z).
  { apply round_half_even_mono. lra. }
  rewrite Zle_Qle in H. unfold Qdiv. apply Qmult_le_compat_r; [exact H|discriminate].
Qed.

Section PeakProps.
Variable md5_hexdigest : string -> string.
Variables now_iso now_stamp : string.
Variable gap_error : Q -> Q -> comparison.

Local Abbreviation run_bot := (Bots.run_bot md5_hexdigest now_iso now_stamp gap_error).

(** X26. The equity of a cycle is the bankroll left after the admissions,
    plus the stakes of the open positions, plus their unrealised profit and
    loss at the updated marks.  The peak a step stores is the larger of the
    stored peak and this equity, so a step never lowers the peak.  The
    result entry reports the equity, the peak, the return on the initial
    bankroll and the drawdown from the peak, each rounded to cents; it never
    reports an equity above the peak it reports, and never a negative
    drawdown. *)
Theorem run_bot_peak bot strategy all_markets poly_markets kalshi_markets bot_state :
  let out := run_bot bot strategy all_markets poly_markets kalshi_markets bot_state in
  let bot_state' := fst (fst out) in
  let result := snd out in
  let positions := Bots.BotState.positions bot_state' in
  let equity :=
    Bots.BotState.bankroll bot_state' + Bots.open_stakes positions
    + Bots.unrealized_pnl positions in
  let peak := Bots.BotState.peak_bankroll bot_state' in
  peak = Qmax (Bots.BotState.peak_bankroll bot_state) equity
  /\ Bots.BotState.peak_bankroll bot_state <= peak
  /\ equity <= peak
  /\ Bots.BotResult.total_equity result = Py.py_round equity 2
  /\ Bots.BotResult.peak_bankroll result = Py.py_round peak 2
  /\ Bots.BotResult.return_pct result
     = Py.py_round ((equity - Bots.INITIAL_BANKROLL) / Bots.INITIAL_BANKROLL * 100) 2
  /\ Bots.BotResult.drawdown_pct result
     = (if Py.Qltb 0 peak then Py.py_round ((peak - equity) / peak * 100) 2 else 0)
  /\ Bots.BotResult.total_equity result <= Bots.BotResult.peak_bankroll result
  /\ 0 <= Bots.BotResult.drawdown_pct result.
Proof.
  cbv zeta. unfold Bots.run_bot, Bots.settle.
  pose proof (execute_trades_admitted md5_hexdigest now_iso now_stamp bot
                (Bots.existing_market_keys (Bots.BotState.positions bot_state))
                (Py.try_except
                   (strategy bot all_markets poly_markets kalshi_markets bot_state) [])
                bot_state []) as E.
  destruct (Bots.execute_trades _ _ _ _ _ _ _ _) as [st' ex'].
  injection E as -> _.
  cbn [fst snd Bots.BotState.peak_bankroll Bots.BotState.bankroll
       Bots.BotState.positions Bots.BotResult.peak_bankroll
       Bots.BotResult.total_equity Bots.BotResult.drawdown_pct
       Bots.BotResult.return_pct].
  set (adm := admitted _ _ _ _ _).
  destruct (book_all_frame md5_hexdigest now_iso now_stamp bot adm bot_state)
    as (_ & _ & -> & _ & _).
  set (equity := (_ + _ + _)%Q).
  set (peak := Qmax _ equity).
  assert (Hl : Bots.BotState.peak_bankroll bot_state <= peak) by apply Q.le_max_l.
  assert (Hr : equity <= peak) by apply Q.le_max_r.
  split; [reflexivity|]. split; [exact Hl|]. split; [exact Hr|].
  repeat (split; [reflexivity|]).
  split; [now apply py_round2_mono|].
  destruct (Py.Qltb 0 peak) eqn:Ep; [|discriminate].
  apply py_round2_nonneg.
  assert (Hp : 0 < peak).
  { unfold Py.Qltb in Ep. apply negb_true_iff in Ep. now apply Qle_bool_false in Ep. }
  assert (Hd : 0 <= (peak - equity) / peak).
  { apply Qle_shift_div_l; [exact Hp|]. lra. }
  lra.
Qed.

End PeakProps.
